(** * ChatV2: the real-time connection and room-broadcast protocol

    A shallow embedding of [src/server/index.ts] (class [ChatV2]: the
    WebSocket side and the HTTP handlers) and of the client reconnection
    hook [useWebSocket] (all three variants found in the repository), with
    the properties the specification states about them.

    Conventions of the embedding.
    - [Date.now()] is an argument [now] of the handler that reads it.
    - A table of the SQLite store is the list of its rows in rowid order; a
      query is a [filter] over that list, [ORDER BY] a stable sort of it.
    - A statement is built as a template literal. With values that hold no
      apostrophe it is the statement written in the source; what a value of
      the client that holds one makes of the statements of the WebSocket
      handlers is read off their text ([statement]).
    - The registry of sockets ([this.ctx.getWebSockets()]) is a list of
      connection records; a connection is named by its position.
    - What a handler sends is appended to the [outbox] of the connection. *)

From Stdlib Require Import Ascii String.
From Stdlib Require HexadecimalString HexadecimalZ.
From stdpp Require Import base decidable option list strings gmap sorting numbers.

Local Open Scope Z_scope.

(** ** The server: [src/server/index.ts] *)
Module Server.

(** *** Shared types ([src/shared.ts]) *)

Record User := mkUser {
  uid : string;
  username : string;
  nickname : option string;
  role : string;
  avatar : option string;
  user_created_at : Z }.

(** [source?: "user" | "bot"] *)
Inductive Source := SrcUser | SrcBot.

Record Message := mkMessage {
  mid : string;
  room_id : string;
  user_id : string;
  content : string;
  content_type : string;
  created_at : Z;
  source : option Source;
  external_id : option string;
  (** column [acknowledged INTEGER DEFAULT 0]; absent on the objects the
      broadcast callers build *)
  acknowledged : option Z }.

Record RoomMember := mkRoomMember {
  member_room_id : string;
  member_user_id : string;
  joined_at : Z }.

(** A row of the table [rooms] *)
Record Room := mkRoom {
  rid : string;
  room_name : string;
  room_type : string;
  room_avatar : option string;
  room_created_at : Z }.

Record Session := mkSession {
  session_id : string;
  session_user_id : string;
  session_created_at : Z;
  expires_at : Z }.

(** [ConnectionAttachment] *)
Inductive ConnectionAttachment :=
  | UserAttachment (userId : string) (joinedRooms : list string) (lastPing : Z)
  | BotAttachment (botId : string) (subscribedRooms : list string) (lastPing : Z).

Definition lastPing (a : ConnectionAttachment) : Z :=
  match a with
  | UserAttachment _ _ t => t
  | BotAttachment _ _ t => t
  end.

(** [attachment.lastPing = t] *)
Definition set_lastPing (t : Z) (a : ConnectionAttachment) : ConnectionAttachment :=
  match a with
  | UserAttachment u rooms _ => UserAttachment u rooms t
  | BotAttachment b rooms _ => BotAttachment b rooms t
  end.

(** Frames the server sends ([WSMessage], [BotWSMessage] and the plugin
    envelope [{type: "message", message: {room_id, user_id, content,
    timestamp}}]). *)
Inductive WSMessage :=
  | auth_success (user : option string)
  | auth_error (message : string)
  | pong (timestamp : Z)
  | room_joined (room : string)
  | room_left (room : string)
  | new_message (message : Message) (user : User)
  | room_messages (room : string) (messages : list Message) (users : list User)
  | sync_response (messages : list Message) (users : list User)
  | user_online (user : string)
  | user_offline (user : string)
  | room_deleted (room : string)
  | error (message : string)
  | message_sent (message_id : string) (external : option string)
  | plugin_message (room user text : string) (timestamp : Z).

(** Frames the server receives, after [JSON.parse], by their [type]. *)
Inductive Inbound :=
  | In_auth_bot (api_key : string)
  | In_auth_user (session : string)
  | In_ping (timestamp : Z)
  | In_heartbeat
  | In_join_room (room : string)
  | In_leave_room (room : string)
  | In_sync_request (last_message_id : option string)
  | In_message_ack (message_id : string) (status : string)
  | In_subscribe (room : string)
  | In_unsubscribe (room : string)
  | In_send_message (room text : string) (external : option string)
  | In_message (payload : option (string * string))
  | In_unknown (type : string).

(** *** The store *)

Record Store := mkStore {
  users : list User;
  messages : list Message;
  room_members : list RoomMember;
  sessions : list Session;
  rooms : list Room }.

(** The queries are template literals: a value is spliced between two
    apostrophes. The text is the statement written in the source exactly
    when the value holds no apostrophe (identifiers kept in the store come
    from [generateId] or are the literal ['bot'], which qualify). What a
    value of the client that holds an apostrophe makes of a statement is
    described further down ([statement]), for the handlers of the frames
    [auth], [join_room], [sync_request] and [message_ack]; elsewhere the
    embedding is defined for values without apostrophe only. *)
Definition sql_quote_free (s : string) : bool :=
  forallb (λ a, negb (Ascii.eqb a "'"%char)) (String.list_ascii_of_string s).

Definition sql_text (s : string) : option string :=
  if sql_quote_free s then Some s else None.

(** [ORDER BY created_at ASC] and [DESC] *)
Definition created_asc (a b : Message) : Prop := created_at a ≤ created_at b.
Definition created_desc (a b : Message) : Prop := created_at b ≤ created_at a.

#[export] Instance created_asc_dec : RelDecision created_asc.
Proof. intros a b. unfold created_asc. apply _. Defined.
#[export] Instance created_desc_dec : RelDecision created_desc.
Proof. intros a b. unfold created_desc. apply _. Defined.

(** [ORDER BY]: the rows in the order asked for; rows that compare equal
    stay in the order of the table. *)
Fixpoint insert_by {A} (R : relation A) `{!RelDecision R} (x : A) (l : list A) : list A :=
  match l with
  | [] => [x]
  | y :: l' => if decide (R x y) then x :: l else y :: insert_by R x l'
  end.

Definition order_by {A} (R : relation A) `{!RelDecision R} (l : list A) : list A :=
  foldr (insert_by R) [] l.

(** [SELECT * FROM sessions WHERE id = ? AND expires_at > now] *)
Definition select_sessions (db : Store) (sid : string) (now : Z) : list Session :=
  filter (λ s, session_id s = sid ∧ now < expires_at s) (sessions db).

(** [SELECT * FROM room_members WHERE room_id = ? AND user_id = ?] *)
Definition select_membership (db : Store) (room user : string) : list RoomMember :=
  filter (λ m, member_room_id m = room ∧ member_user_id m = user) (room_members db).

(** [SELECT user_id FROM room_members WHERE room_id = ?] *)
Definition select_room_members (db : Store) (room : string) : list string :=
  member_user_id <$> filter (λ m, member_room_id m = room) (room_members db).

(** [SELECT room_id FROM room_members WHERE user_id = ?] *)
Definition select_rooms_of (db : Store) (user : string) : list string :=
  member_room_id <$> filter (λ m, member_user_id m = user) (room_members db).

(** [SELECT ... FROM users WHERE id = ?], then [.toArray()[0]] *)
Definition select_user (db : Store) (user : string) : option User :=
  head (filter (λ u, uid u = user) (users db)).

(** [SELECT created_at FROM messages WHERE id = ?], then [.toArray()[0]] *)
Definition select_message (db : Store) (message_id : string) : option Message :=
  head (filter (λ m, mid m = message_id) (messages db)).

(** [SELECT * FROM messages WHERE room_id = ? ORDER BY created_at DESC LIMIT 50] *)
Definition select_recent (db : Store) (room : string) : list Message :=
  take 50 (order_by created_desc (filter (λ m, room_id m = room) (messages db))).

(** [SELECT * FROM messages WHERE room_id IN (...) [AND created_at > t]
    ORDER BY created_at ASC LIMIT 100] *)
Definition sync_filter (rooms : list string) (after : option Z) (m : Message) : Prop :=
  room_id m ∈ rooms ∧ from_option (λ t, t < created_at m) True after.

#[export] Instance sync_filter_dec rooms after m : Decision (sync_filter rooms after m).
Proof. unfold sync_filter. destruct after; simpl; apply _. Defined.

Definition select_sync (db : Store) (user : string) (after : option Z) : list Message :=
  take 100 (order_by created_asc
              (filter (sync_filter (select_rooms_of db user) after) (messages db))).

(** [UPDATE messages SET acknowledged = 1 WHERE id = ?] *)
Definition acknowledge (message_id : string) (m : Message) : Message :=
  if bool_decide (mid m = message_id)
  then mkMessage (mid m) (room_id m) (user_id m) (content m) (content_type m)
         (created_at m) (source m) (external_id m) (Some 1)
  else m.

Definition store_with_messages (rows : list Message) (db : Store) : Store :=
  mkStore (users db) rows (room_members db) (sessions db) (rooms db).

Definition update_acknowledged (db : Store) (message_id : string) : Store :=
  store_with_messages (acknowledge message_id <$> messages db) db.

(** *** Statements with a value of the client in their text

    A value that holds no apostrophe stays inside the string literal the
    template opens for it, and the statement is the one written in the
    source. A value that holds an apostrophe closes that literal, and what
    follows it is read as SQL. The text of the condition is then read as
    SQLite reads it, where this embedding can: a condition made of string
    literals, the identifiers and numbers the template splices, names of
    columns (none that may hold [NULL]), [=], [>], [AND] and [OR]. A string
    literal that is never closed makes [exec] throw. For every other text
    the embedding says nothing. *)

(** The text of a condition: characters (of the template, or of a value of
    the client); [Lit id] for an identifier kept in the store, spliced
    between apostrophes (it holds none: one string literal); [Num n] for a
    spliced number (its digits: one numeric literal). *)
Inductive Item :=
  | Chr (a : ascii)
  | Lit (s : string)
  | Num (z : Z).

Definition raw (s : string) : list Item := Chr <$> String.list_ascii_of_string s.

Inductive Token :=
  | TText (s : string)
  | TNumber (z : Z)
  | TWord (w : string)
  | TEq
  | TGt.

Inductive Lexed :=
  | Tokens (ts : list Token)
  | Unterminated  (** a string literal is not closed *)
  | Unread.       (** a text this embedding does not read *)

(** Space, tab, line feed, form feed and carriage return *)
Definition is_space (a : ascii) : bool :=
  bool_decide (Ascii.N_of_ascii a ∈ [32; 9; 10; 12; 13]%N).

Definition is_letter (a : ascii) : bool :=
  let n := Ascii.N_of_ascii a in
  bool_decide (65 ≤ n ≤ 90 ∨ 97 ≤ n ≤ 122 ∨ n = 95)%N.

Definition is_digit (a : ascii) : bool :=
  bool_decide (48 ≤ Ascii.N_of_ascii a ≤ 57)%N.

(** Keywords and names of columns are read without regard to case. *)
Definition lower (a : ascii) : ascii :=
  let n := Ascii.N_of_ascii a in
  if bool_decide (65 ≤ n ≤ 90)%N then Ascii.ascii_of_N (n + 32) else a.

Definition snoc (s : string) (a : ascii) : string := s +:+ String a EmptyString.

Inductive Mode :=
  | Outside                              (** between two tokens *)
  | After                                (** just after a spliced literal *)
  | Word (w : string)                    (** inside a word *)
  | Text (s : string) (number : bool)    (** inside a string literal *)
  | Closing (s : string) (number : bool).
    (** inside a string literal, after an apostrophe: the literal ends here
        unless another apostrophe follows ([''] stands for one apostrophe
        inside a literal). [number]: a spliced number fell inside it. *)

(** A character met between two tokens *)
Definition start (a : ascii) : option (list Token * Mode) :=
  if is_space a then Some ([], Outside)
  else if Ascii.eqb a "'" then Some ([], Text EmptyString false)
  else if is_letter a then Some ([], Word (String (lower a) EmptyString))
  else if Ascii.eqb a "=" then Some ([TEq], Outside)
  else if Ascii.eqb a ">" then Some ([TGt], Outside)
  else None.

Definition emit (ts : list Token) (rest : Lexed) : Lexed :=
  match rest with
  | Tokens l => Tokens (ts ++ l)
  | other => other
  end.

Definition continue (lex : Mode → Lexed) (ts : list Token) (a : ascii) : Lexed :=
  match start a with
  | Some (ts', mode) => emit (ts ++ ts') (lex mode)
  | None => Unread
  end.

(** The word [x] followed by an apostrophe starts a blob literal. *)
Fixpoint lex (text : list Item) (mode : Mode) : Lexed :=
  match text with
  | [] =>
      match mode with
      | Outside | After => Tokens []
      | Word w => Tokens [TWord w]
      | Text _ _ => Unterminated
      | Closing s number => if number then Unread else Tokens [TText s]
      end
  | Chr a :: text =>
      match mode with
      | Outside => continue (lex text) [] a
      | After =>
          if is_letter a || is_digit a || Ascii.eqb a "'" then Unread
          else continue (lex text) [] a
      | Word w =>
          if is_letter a || is_digit a then lex text (Word (snoc w (lower a)))
          else if Ascii.eqb a "'" && bool_decide (w = "x") then Unread
          else continue (lex text) [TWord w] a
      | Text s number =>
          if Ascii.eqb a "'" then lex text (Closing s number)
          else if Ascii.eqb a "000" then Unread
          else lex text (Text (snoc s a) number)
      | Closing s number =>
          if Ascii.eqb a "'" then lex text (Text (snoc s "'") number)
          else if number then Unread
          else continue (lex text) [TText s] a
      end
  | Lit s :: text =>
      match mode with
      | Outside => emit [TText s] (lex text After)
      | Word w =>
          if bool_decide (w = "x") then Unread
          else emit [TWord w; TText s] (lex text After)
      | After | Text _ _ | Closing _ _ => Unread
      end
  | Num z :: text =>
      match mode with
      | Outside => emit [TNumber z] (lex text After)
      | Text s _ => lex text (Text s true)
      | After | Word _ | Closing _ _ => Unread
      end
  end.

(** What a name of column, or a literal, stands for in a row of type [A] *)
Inductive Column (A : Type) :=
  | TextColumn (f : A → string)
  | IntegerColumn (f : A → Z).
Arguments TextColumn {A} f.
Arguments IntegerColumn {A} f.

Definition term {A} (columns : string → option (Column A)) (t : Token)
  : option (Column A) :=
  match t with
  | TText s => Some (TextColumn (λ _, s))
  | TNumber z => Some (IntegerColumn (λ _, z))
  | TWord w => columns w
  | TEq | TGt => None
  end.

(** [a = b] between two texts or two integers; [a > b] between two
    integers *)
Definition comparison {A} (columns : string → option (Column A)) (ts : list Token)
  : option (A → bool) :=
  match ts with
  | [a; TEq; b] =>
      match term columns a, term columns b with
      | Some (TextColumn f), Some (TextColumn g) =>
          Some (λ row, bool_decide (f row = g row))
      | Some (IntegerColumn f), Some (IntegerColumn g) =>
          Some (λ row, bool_decide (f row = g row))
      | _, _ => None
      end
  | [a; TGt; b] =>
      match term columns a, term columns b with
      | Some (IntegerColumn f), Some (IntegerColumn g) =>
          Some (λ row, bool_decide (g row < f row))
      | _, _ => None
      end
  | _ => None
  end.

(** The tokens between the occurrences of a keyword *)
Fixpoint split_at (keyword : string) (ts : list Token) : list (list Token) :=
  match ts with
  | [] => [[]]
  | t :: ts =>
      let groups := split_at keyword ts in
      match t with
      | TWord w =>
          if bool_decide (w = keyword) then [] :: groups
          else (t :: default [] (head groups)) :: tail groups
      | _ => (t :: default [] (head groups)) :: tail groups
      end
  end.

(** [AND] binds tighter than [OR]. *)
Definition conjunction {A} (columns : string → option (Column A)) (ts : list Token)
  : option (A → bool) :=
  comparisons ← mapM (comparison columns) (split_at "and" ts);
  Some (λ row, forallb (λ holds : A → bool, holds row) comparisons).

Definition condition {A} (columns : string → option (Column A)) (ts : list Token)
  : option (A → bool) :=
  conjunctions ← mapM (conjunction columns) (split_at "or" ts);
  Some (λ row, existsb (λ holds : A → bool, holds row) conjunctions).

Definition sessions_columns (name : string) : option (Column Session) :=
  if bool_decide (name = "id") then Some (TextColumn session_id)
  else if bool_decide (name = "user_id") then Some (TextColumn session_user_id)
  else if bool_decide (name = "created_at") then Some (IntegerColumn session_created_at)
  else if bool_decide (name = "expires_at") then Some (IntegerColumn expires_at)
  else None.

Definition room_members_columns (name : string) : option (Column RoomMember) :=
  if bool_decide (name = "room_id") then Some (TextColumn member_room_id)
  else if bool_decide (name = "user_id") then Some (TextColumn member_user_id)
  else if bool_decide (name = "joined_at") then Some (IntegerColumn joined_at)
  else None.

Definition messages_columns (name : string) : option (Column Message) :=
  if bool_decide (name = "id") then Some (TextColumn mid)
  else if bool_decide (name = "room_id") then Some (TextColumn room_id)
  else if bool_decide (name = "user_id") then Some (TextColumn user_id)
  else if bool_decide (name = "content") then Some (TextColumn content)
  else if bool_decide (name = "created_at") then Some (IntegerColumn created_at)
  else None.

(** What [exec] does with a statement: it runs it, or it throws. *)
Inductive Prepared (R : Type) :=
  | Runs (result : R)
  | Fails.
Arguments Runs {R} result.
Arguments Fails {R}.

(** A statement whose condition holds [value], a value of the client.
    [written] is what the statement of the source gives; [read] is what the
    statement gives as a function of the condition its text comes to hold,
    where that does not depend on the order in which SQLite visits the rows
    (the order of the table is that of a statement that has no [OR]). *)
Definition statement {A R} (columns : string → option (Column A)) (value : string)
  (text : list Item) (written : R) (read : (A → bool) → option R)
  : option (Prepared R) :=
  if sql_quote_free value then Some (Runs written)
  else
    match lex text Outside with
    | Tokens ts => holds ← condition columns ts; Runs <$> read holds
    | Unterminated => Some Fails
    | Unread => None
    end.

(** [rows[0]] where the rows may come in any order *)
Definition the_row {A} (rows : list A) : option (option A) :=
  match rows with
  | [] => Some None
  | [row] => Some (Some row)
  | _ => None
  end.

(** [INSERT INTO messages ...]: a second row with the same [id] breaks the
    [PRIMARY KEY] and [exec] throws; a row whose room or author does not
    exist is not described (see [FOREIGN KEY] at the head of [Http]). *)
Definition insert_message (db : Store) (m : Message) : option (Prepared Store) :=
  if bool_decide (mid m ∈ mid <$> messages db) then Some Fails
  else if bool_decide (room_id m ∈ rid <$> rooms db) && bool_decide (user_id m ∈ uid <$> users db)
  then Some (Runs (store_with_messages (messages db ++ [m]) db))
  else None.

(** [isMember(roomId, userId)]: persistent membership *)
Definition isMember (db : Store) (room user : string) : Prop :=
  ∃ m, m ∈ room_members db ∧ member_room_id m = room ∧ member_user_id m = user.

(** A session token is valid at [now] when a stored session carries it and
    has not expired. *)
Definition valid_session (db : Store) (token : string) (now : Z) : Prop :=
  ∃ s, s ∈ sessions db ∧ session_id s = token ∧ now < expires_at s.

(** *** Connections and the server state *)

Record Connection := mkConnection {
  attachment : option ConnectionAttachment;
  outbox : list WSMessage;
  closed : bool }.

(** [connection.send(JSON.stringify(frame))] *)
Definition send (frame : WSMessage) (c : Connection) : Connection :=
  mkConnection (attachment c) (outbox c ++ [frame]) (closed c).

(** [connection.close()] *)
Definition close (c : Connection) : Connection :=
  mkConnection (attachment c) (outbox c) true.

(** [connection.serializeAttachment(a)] *)
Definition serializeAttachment (a : ConnectionAttachment) (c : Connection) : Connection :=
  mkConnection (Some a) (outbox c) (closed c).

Record State := mkState {
  storage : Store;
  connections : list Connection;
  (** [this.env.BOT_API_KEY] *)
  BOT_API_KEY : option string }.

Definition with_storage (db : Store) (srv : State) : State :=
  mkState db (connections srv) (BOT_API_KEY srv).

(** Act on the connection a handler was called with. *)
Definition on_connection (i : nat) (f : Connection → Connection) (srv : State) : State :=
  mkState (storage srv) (alter f i (connections srv)) (BOT_API_KEY srv).

(** [connection.deserializeAttachment()] *)
Definition deserializeAttachment (i : nat) (srv : State) : option ConnectionAttachment :=
  connections srv !! i ≫= attachment.

(** [for (const connection of this.ctx.getWebSockets()) body]: the bodies in
    this file touch no connection but their own. *)
Definition for_each_socket (body : Connection → Connection) (srv : State) : State :=
  mkState (storage srv)
    ((λ c, if closed c then c else body c) <$> connections srv)
    (BOT_API_KEY srv).

Definition HEARTBEAT_INTERVAL : Z := 30000.
Definition HEARTBEAT_TIMEOUT : Z := 60000.

(** The body of the interval callback of [startHeartbeatCheck]. *)
Definition heartbeatCheck (now : Z) (srv : State) : State :=
  for_each_socket (λ connection,
    match attachment connection with
    | Some a =>
        if bool_decide (HEARTBEAT_TIMEOUT < now - lastPing a)
        then close connection else connection
    | None => connection
    end) srv.

(** [setInterval(callback, HEARTBEAT_INTERVAL)] started at [start]: the time
    of the [k]-th run of the callback (the first is run 0). *)
Definition startHeartbeatCheck (start : Z) (k : nat) : Z :=
  start + (Z.of_nat k + 1) * HEARTBEAT_INTERVAL.

Inductive Status := online | offline.

Definition broadcastUserStatus (userId : string) (status : Status) (srv : State) : State :=
  let message :=
    match status with
    | online => user_online userId
    | offline => user_offline userId
    end in
  for_each_socket (λ connection,
    match attachment connection with
    | Some (UserAttachment u _ _) =>
        if bool_decide (u ≠ userId) then send message connection else connection
    | _ => connection
    end) srv.

Definition broadcastToRoom (roomId : string) (message : WSMessage) (srv : State)
  : option State :=
  room ← sql_text roomId;
  let memberIds : gset string := list_to_set (select_room_members (storage srv) room) in
  Some (for_each_socket (λ connection,
    match attachment connection with
    | None => connection
    | Some (UserAttachment userId _ _) =>
        if bool_decide (userId ∈ memberIds) then send message connection
        else connection
    | Some (BotAttachment _ _ _) =>
        match message with
        | new_message m _ =>
            match source m with
            | Some SrcUser =>
                send (plugin_message roomId (user_id m) (content m) (created_at m))
                  connection
            | _ => connection
            end
        | _ => connection
        end
    end) srv).

(** How the call of a handler ends: it returns, or it throws (a statement
    that [exec] refuses); either way it leaves a state of the server. *)
Inductive Completion :=
  | Completes (srv : State)
  | Throws (srv : State).

(** [SELECT * FROM sessions WHERE id = '${sessionId}' AND expires_at >
    ${Date.now()}], of which [sessions[0]] is used *)
Definition handleUserAuth (i : nat) (sessionId : string) (now : Z) (srv : State)
  : option Completion :=
  found ← statement sessions_columns sessionId
             (raw "id = '" ++ raw sessionId ++ raw "' AND expires_at > " ++ [Num now])
             (select_sessions (storage srv) sessionId now)
             (λ holds, option_list <$> the_row (filter holds (sessions (storage srv))));
  match found with
  | Fails => Some (Throws srv)
  | Runs [] => Some (Completes (on_connection i (send (auth_error "Invalid session")) srv))
  | Runs (session :: _) =>
      let u := session_user_id session in
      let srv := on_connection i (serializeAttachment (UserAttachment u [] now)) srv in
      let srv := on_connection i (send (auth_success (Some u))) srv in
      Some (Completes (broadcastUserStatus u online srv))
  end.

(** [this.env.BOT_API_KEY || "default-bot-api-key"] *)
Definition validApiKey (srv : State) : string :=
  match BOT_API_KEY srv with
  | Some k => if bool_decide (k = EmptyString) then "default-bot-api-key" else k
  | None => "default-bot-api-key"
  end.

Definition handleBotAuth (i : nat) (apiKey : string) (now : Z) (srv : State) : State :=
  if bool_decide (apiKey ≠ validApiKey srv)
  then on_connection i close (on_connection i (send (auth_error "Invalid API key")) srv)
  else
    let srv := on_connection i (serializeAttachment (BotAttachment "bot" [] now)) srv in
    on_connection i (send (auth_success None)) srv.

Definition handlePing (i : nat) (timestamp : Z) (now : Z) (srv : State) : State :=
  let srv :=
    match deserializeAttachment i srv with
    | Some a => on_connection i (serializeAttachment (set_lastPing now a)) srv
    | None => srv
    end in
  on_connection i (send (pong now)) srv.

(** Plugin-compatible heartbeat: no response *)
Definition handleHeartbeat (i : nat) (now : Z) (srv : State) : State :=
  match deserializeAttachment i srv with
  | Some a => on_connection i (serializeAttachment (set_lastPing now a)) srv
  | None => srv
  end.

(** [[...new Set(ids)]]: the distinct values, in order of first occurrence *)
Fixpoint distinct_from (seen ids : list string) : list string :=
  match ids with
  | [] => []
  | x :: ids =>
      if bool_decide (x ∈ seen) then distinct_from seen ids
      else x :: distinct_from (x :: seen) ids
  end.

Definition distinct (ids : list string) : list string := distinct_from [] ids.

(** The record pushed for the author id ["bot"] *)
Definition bot_user (now : Z) : User :=
  mkUser "bot" "AI助手" None "user" (Some "🤖") now.

(** One turn of the loop [for (const uid of userIds)] of [handleJoinRoom] and
    [handleSyncRequest]: what is pushed on [users], if anything. *)
Definition resolve_author (db : Store) (now : Z) (author : string) : option User :=
  if bool_decide (author = "bot") then Some (bot_user now)
  else select_user db author.

Definition resolve_authors (db : Store) (now : Z) (messages : list Message) : list User :=
  omap (resolve_author db now) (distinct (user_id <$> messages)).

(** The rows of [... ORDER BY created_at DESC LIMIT 50] for a condition the
    text came to hold: defined when no two of them are equally recent. *)
Definition recent_where (db : Store) (holds : Message → bool) : option (list Message) :=
  let rows := filter holds (messages db) in
  if bool_decide (NoDup (created_at <$> rows))
  then Some (take 50 (order_by created_desc rows)) else None.

(** [SELECT * FROM room_members WHERE room_id = '${roomId}' AND user_id =
    '${attachment.userId}'], of which only [length === 0] is used; then
    [SELECT * FROM messages WHERE room_id = '${roomId}' ORDER BY created_at
    DESC LIMIT 50] *)
Definition handleJoinRoom (i : nat) (roomId : string) (now : Z) (srv : State)
  : option Completion :=
  match deserializeAttachment i srv with
  | Some (UserAttachment userId joinedRooms ping) =>
      membership ← statement room_members_columns roomId
                      (raw "room_id = '" ++ raw roomId ++ raw "' AND user_id = "
                         ++ [Lit userId])
                      (select_membership (storage srv) roomId userId)
                      (λ holds, Some (filter holds (room_members (storage srv))));
      match membership with
      | Fails => Some (Throws srv)
      | Runs [] =>
          Some (Completes (on_connection i (send (error "Not a member of this room")) srv))
      | Runs (_ :: _) =>
          let srv :=
            if bool_decide (roomId ∈ joinedRooms) then srv
            else on_connection i
                   (serializeAttachment (UserAttachment userId (joinedRooms ++ [roomId]) ping))
                   srv in
          let srv := on_connection i (send (room_joined roomId)) srv in
          recent ← statement messages_columns roomId
                      (raw "room_id = '" ++ raw roomId ++ raw "'")
                      (select_recent (storage srv) roomId)
                      (recent_where (storage srv));
          match recent with
          | Fails => Some (Throws srv)
          | Runs messages =>
              let users := resolve_authors (storage srv) now messages in
              Some (Completes
                      (on_connection i
                         (send (room_messages roomId (reverse messages) users)) srv))
          end
      end
  | _ => Some (Completes (on_connection i (send (error "Not authenticated")) srv))
  end.

Definition handleLeaveRoom (i : nat) (roomId : string) (srv : State) : State :=
  let srv :=
    match deserializeAttachment i srv with
    | Some (UserAttachment userId joinedRooms ping) =>
        on_connection i
          (serializeAttachment
             (UserAttachment userId (filter (λ r, r ≠ roomId) joinedRooms) ping))
          srv
    | _ => srv
    end in
  on_connection i (send (room_left roomId)) srv.

(** [if (lastMessageId) { lastMessage = ...[0]; if (lastMessage) ... }]: the
    bound added to the query, if any. An absent or empty id is falsy. The
    statement is [SELECT created_at FROM messages WHERE id =
    '${lastMessageId}']. *)
Definition sync_bound (db : Store) (lastMessageId : option string)
  : option (Prepared (option Z)) :=
  match lastMessageId with
  | Some last =>
      if bool_decide (last = EmptyString) then Some (Runs None)
      else statement messages_columns last
             (raw "id = '" ++ raw last ++ raw "'")
             (created_at <$> select_message db last)
             (λ holds, row ← the_row (filter holds (messages db));
                       Some (created_at <$> (row : option Message)))
  | None => Some (Runs None)
  end.

Definition handleSyncRequest (i : nat) (lastMessageId : option string) (now : Z)
  (srv : State) : option Completion :=
  match deserializeAttachment i srv with
  | Some (UserAttachment userId _ _) =>
      bound ← sync_bound (storage srv) lastMessageId;
      match bound with
      | Fails => Some (Throws srv)
      | Runs after =>
          let messages := select_sync (storage srv) userId after in
          let users := resolve_authors (storage srv) now messages in
          Some (Completes (on_connection i (send (sync_response messages users)) srv))
      end
  | _ => Some (Completes srv)
  end.

(** [UPDATE messages SET acknowledged = 1 WHERE ...] for a condition the text
    came to hold *)
Definition acknowledged_row (m : Message) : Message :=
  mkMessage (mid m) (room_id m) (user_id m) (content m) (content_type m)
    (created_at m) (source m) (external_id m) (Some 1).

Definition acknowledge_where (db : Store) (holds : Message → bool) : Store :=
  store_with_messages
    ((λ m, if holds m then acknowledged_row m else m) <$> messages db) db.

(** [UPDATE messages SET acknowledged = 1 WHERE id = '${messageId}'] *)
Definition handleMessageAck (i : nat) (messageId status : string) (srv : State)
  : option Completion :=
  updated ← statement messages_columns messageId
               (raw "id = '" ++ raw messageId ++ raw "'")
               (update_acknowledged (storage srv) messageId)
               (λ holds, Some (acknowledge_where (storage srv) holds));
  match updated with
  | Fails => Some (Throws srv)
  | Runs db => Some (Completes (with_storage db srv))
  end.

Definition handleBotSubscribe (i : nat) (roomId : string) (srv : State) : State :=
  match deserializeAttachment i srv with
  | Some (BotAttachment botId subscribedRooms ping) =>
      if bool_decide (roomId ∈ subscribedRooms) then srv
      else on_connection i
             (serializeAttachment (BotAttachment botId (subscribedRooms ++ [roomId]) ping))
             srv
  | _ => on_connection i (send (error "Not authenticated as bot")) srv
  end.

Definition handleBotUnsubscribe (i : nat) (roomId : string) (srv : State) : State :=
  match deserializeAttachment i srv with
  | Some (BotAttachment botId subscribedRooms ping) =>
      on_connection i
        (serializeAttachment
           (BotAttachment botId (filter (λ r, r ≠ roomId) subscribedRooms) ping))
        srv
  | _ => srv
  end.

(** [messageId] is the value of [this.generateId()]. *)
Definition handleBotSendMessage (i : nat) (roomId text : string)
  (externalId : option string) (messageId : string) (now : Z) (srv : State)
  : option Completion :=
  match deserializeAttachment i srv with
  | Some (BotAttachment _ _ _) =>
      room ← sql_text roomId;
      external ← sql_text (default EmptyString externalId);
      let row := mkMessage messageId room "bot" text "text" now (Some SrcBot)
                   (Some external) (Some 0) in
      inserted ← insert_message (storage srv) row;
      match inserted with
      | Fails => Some (Throws srv)
      | Runs db =>
          let srv := with_storage db srv in
          srv ← broadcastToRoom roomId
                   (new_message
                      (mkMessage messageId roomId "bot" text "text" now (Some SrcBot)
                         externalId None)
                      (bot_user now)) srv;
          Some (Completes (on_connection i (send (message_sent messageId externalId)) srv))
      end
  | _ => Some (Completes (on_connection i (send (error "Not authenticated as bot")) srv))
  end.

Definition handlePluginMessage (i : nat) (room text : string) (messageId : string)
  (now : Z) (srv : State) : option Completion :=
  match deserializeAttachment i srv with
  | Some (BotAttachment botId subscribedRooms ping) =>
      let srv :=
        if bool_decide (room ∈ subscribedRooms) then srv
        else on_connection i
               (serializeAttachment (BotAttachment botId (subscribedRooms ++ [room]) ping))
               srv in
      room' ← sql_text room;
      let row := mkMessage messageId room' "bot" text "text" now (Some SrcBot)
                   None (Some 0) in
      inserted ← insert_message (storage srv) row;
      match inserted with
      | Fails => Some (Throws srv)
      | Runs db =>
          let srv := with_storage db srv in
          srv ← broadcastToRoom room
                   (new_message
                      (mkMessage messageId room "bot" text "text" now (Some SrcBot) None None)
                      (bot_user now)) srv;
          Some (Completes (on_connection i (send (message_sent messageId None)) srv))
      end
  | _ => Some (Completes (on_connection i (send (error "Not authenticated as bot")) srv))
  end.

(** The [catch] of [onMessage] *)
Definition caught (i : nat) (completion : Completion) : State :=
  match completion with
  | Completes srv => srv
  | Throws srv => on_connection i (send (error "Invalid message format")) srv
  end.

(** The [switch] of [onMessage] *)
Definition dispatch (i : nat) (parsed : Inbound) (now : Z) (fresh : string)
  (srv : State) : option Completion :=
  match parsed with
  | In_auth_bot api_key => Some (Completes (handleBotAuth i api_key now srv))
  | In_auth_user session => handleUserAuth i session now srv
  | In_ping timestamp => Some (Completes (handlePing i timestamp now srv))
  | In_heartbeat => Some (Completes (handleHeartbeat i now srv))
  | In_join_room room => handleJoinRoom i room now srv
  | In_leave_room room => Some (Completes (handleLeaveRoom i room srv))
  | In_sync_request last => handleSyncRequest i last now srv
  | In_message_ack message_id status => handleMessageAck i message_id status srv
  | In_subscribe room => Some (Completes (handleBotSubscribe i room srv))
  | In_unsubscribe room => Some (Completes (handleBotUnsubscribe i room srv))
  | In_send_message room text external =>
      handleBotSendMessage i room text external fresh now srv
  | In_message (Some (room, text)) => handlePluginMessage i room text fresh now srv
  | In_message None => Some (Completes srv)
  | In_unknown _ => Some (Completes srv)
  end.

(** [onMessage]: [message] is [None] when [JSON.parse] throws; [fresh] is the
    identifier [generateId] would return. *)
Definition onMessage (i : nat) (message : option Inbound) (now : Z) (fresh : string)
  (srv : State) : option State :=
  match message with
  | None => Some (on_connection i (send (error "Invalid message format")) srv)
  | Some parsed => caught i <$> dispatch i parsed now fresh srv
  end.

Definition onClose (i : nat) (srv : State) : State :=
  match deserializeAttachment i srv with
  | Some (UserAttachment userId _ _) => broadcastUserStatus userId offline srv
  | _ => srv
  end.

(** A connection that has just been opened. *)
Definition fresh_connection : Connection := mkConnection None [] false.

(** The bound a [sync_request] names, in the words of the specification:
    the [created_at] of the stored message called [last_message_id], when
    the identifier is given and resolves. *)
Definition named_bound (db : Store) (lastMessageId : option string) : option Z :=
  last ← lastMessageId; created_at <$> select_message db last.

End Server.

(** ** The client reconnection controller: [useWebSocket], current variant

    The variant of the hook that keeps the attempt counter, the reentrancy
    flag and the teardown flag in refs and exposes [ackMessage]. The hook is
    modelled for the lifetime of one mounted component with a fixed
    [sessionId] prop. The state records the React state of the hook, its
    refs, and the part of the browser it acts on: the sockets it created
    (with the [WebSocket] life cycle the hook relies on) and the timers it
    set. The callbacks [onMessage], [onConnect] and [onDisconnect] belong to
    the caller and are not part of the state. *)
Module Hook.

Definition HEARTBEAT_INTERVAL : Z := 30000.
Definition RECONNECT_BASE_DELAY : Z := 3000.
Definition MAX_RECONNECT_DELAY : Z := 30000.

Inductive ConnectionState := connecting | connected | disconnected | reconnecting.
Inductive ReadyState := CONNECTING | OPEN | CLOSING | CLOSED.

#[global] Instance ConnectionState_eq_dec : EqDecision ConnectionState.
Proof. solve_decision. Defined.
#[global] Instance ReadyState_eq_dec : EqDecision ReadyState.
Proof. solve_decision. Defined.

(** Frames the hook sends *)
Inductive Frame :=
  | auth (session_id : string)
  | ping (timestamp : Z)
  | join_room (room_id : string)
  | leave_room (room_id : string)
  | sync_request (last_message_id : option string)
  | message_ack (message_id status : string)
  | raw (message : string).

(** Frames the hook receives, as its [message] listener tells them apart *)
Inductive Received :=
  | pong
  | auth_success
  | auth_error
  | room_joined (room_id : string)
  | room_left (room_id : string)
  | passed_on (message : string)
  | unparsable.

Record Socket := mkSocket {
  readyState : ReadyState;
  sent : list Frame }.

Record Hook := mkHook {
  sessionId : option string;
  (** React: is the component mounted; the state; the [connectionState] the
      effects last ran with *)
  mounted : bool;
  connectionState : ConnectionState;
  reconnectAttempt : nat;
  rendered : ConnectionState;
  (** refs *)
  socketRef : option nat;
  heartbeatIntervalRef : option nat;
  reconnectTimeoutRef : option nat;
  joinedRoomsRef : list string;
  reconnectAttemptRef : nat;
  isConnectingRef : bool;
  isClosedRef : bool;
  pendingAcksRef : list (string * string);
  (** browser: sockets by creation order; pending [setTimeout] timers with
      their delay; [setInterval] timers with the socket they ping *)
  sockets : list Socket;
  timeouts : list (nat * Z);
  intervals : list (nat * nat);
  next_timer : nat }.

Definition with_connectionState (v : ConnectionState) (h : Hook) : Hook :=
  mkHook (sessionId h) (mounted h) v (reconnectAttempt h) (rendered h) (socketRef h)
    (heartbeatIntervalRef h) (reconnectTimeoutRef h) (joinedRoomsRef h)
    (reconnectAttemptRef h) (isConnectingRef h) (isClosedRef h) (pendingAcksRef h)
    (sockets h) (timeouts h) (intervals h) (next_timer h).
Definition with_reconnectAttempt (v : nat) (h : Hook) : Hook :=
  mkHook (sessionId h) (mounted h) (connectionState h) v (rendered h) (socketRef h)
    (heartbeatIntervalRef h) (reconnectTimeoutRef h) (joinedRoomsRef h)
    (reconnectAttemptRef h) (isConnectingRef h) (isClosedRef h) (pendingAcksRef h)
    (sockets h) (timeouts h) (intervals h) (next_timer h).
Definition with_rendered (v : ConnectionState) (h : Hook) : Hook :=
  mkHook (sessionId h) (mounted h) (connectionState h) (reconnectAttempt h) v (socketRef h)
    (heartbeatIntervalRef h) (reconnectTimeoutRef h) (joinedRoomsRef h)
    (reconnectAttemptRef h) (isConnectingRef h) (isClosedRef h) (pendingAcksRef h)
    (sockets h) (timeouts h) (intervals h) (next_timer h).
Definition with_mounted (v : bool) (h : Hook) : Hook :=
  mkHook (sessionId h) v (connectionState h) (reconnectAttempt h) (rendered h) (socketRef h)
    (heartbeatIntervalRef h) (reconnectTimeoutRef h) (joinedRoomsRef h)
    (reconnectAttemptRef h) (isConnectingRef h) (isClosedRef h) (pendingAcksRef h)
    (sockets h) (timeouts h) (intervals h) (next_timer h).
Definition with_socketRef (v : option nat) (h : Hook) : Hook :=
  mkHook (sessionId h) (mounted h) (connectionState h) (reconnectAttempt h) (rendered h) v
    (heartbeatIntervalRef h) (reconnectTimeoutRef h) (joinedRoomsRef h)
    (reconnectAttemptRef h) (isConnectingRef h) (isClosedRef h) (pendingAcksRef h)
    (sockets h) (timeouts h) (intervals h) (next_timer h).
Definition with_heartbeatIntervalRef (v : option nat) (h : Hook) : Hook :=
  mkHook (sessionId h) (mounted h) (connectionState h) (reconnectAttempt h) (rendered h)
    (socketRef h) v (reconnectTimeoutRef h) (joinedRoomsRef h)
    (reconnectAttemptRef h) (isConnectingRef h) (isClosedRef h) (pendingAcksRef h)
    (sockets h) (timeouts h) (intervals h) (next_timer h).
Definition with_reconnectTimeoutRef (v : option nat) (h : Hook) : Hook :=
  mkHook (sessionId h) (mounted h) (connectionState h) (reconnectAttempt h) (rendered h)
    (socketRef h) (heartbeatIntervalRef h) v (joinedRoomsRef h)
    (reconnectAttemptRef h) (isConnectingRef h) (isClosedRef h) (pendingAcksRef h)
    (sockets h) (timeouts h) (intervals h) (next_timer h).
Definition with_joinedRoomsRef (v : list string) (h : Hook) : Hook :=
  mkHook (sessionId h) (mounted h) (connectionState h) (reconnectAttempt h) (rendered h)
    (socketRef h) (heartbeatIntervalRef h) (reconnectTimeoutRef h) v
    (reconnectAttemptRef h) (isConnectingRef h) (isClosedRef h) (pendingAcksRef h)
    (sockets h) (timeouts h) (intervals h) (next_timer h).
Definition with_reconnectAttemptRef (v : nat) (h : Hook) : Hook :=
  mkHook (sessionId h) (mounted h) (connectionState h) (reconnectAttempt h) (rendered h)
    (socketRef h) (heartbeatIntervalRef h) (reconnectTimeoutRef h) (joinedRoomsRef h)
    v (isConnectingRef h) (isClosedRef h) (pendingAcksRef h)
    (sockets h) (timeouts h) (intervals h) (next_timer h).
Definition with_isConnectingRef (v : bool) (h : Hook) : Hook :=
  mkHook (sessionId h) (mounted h) (connectionState h) (reconnectAttempt h) (rendered h)
    (socketRef h) (heartbeatIntervalRef h) (reconnectTimeoutRef h) (joinedRoomsRef h)
    (reconnectAttemptRef h) v (isClosedRef h) (pendingAcksRef h)
    (sockets h) (timeouts h) (intervals h) (next_timer h).
Definition with_isClosedRef (v : bool) (h : Hook) : Hook :=
  mkHook (sessionId h) (mounted h) (connectionState h) (reconnectAttempt h) (rendered h)
    (socketRef h) (heartbeatIntervalRef h) (reconnectTimeoutRef h) (joinedRoomsRef h)
    (reconnectAttemptRef h) (isConnectingRef h) v (pendingAcksRef h)
    (sockets h) (timeouts h) (intervals h) (next_timer h).
Definition with_pendingAcksRef (v : list (string * string)) (h : Hook) : Hook :=
  mkHook (sessionId h) (mounted h) (connectionState h) (reconnectAttempt h) (rendered h)
    (socketRef h) (heartbeatIntervalRef h) (reconnectTimeoutRef h) (joinedRoomsRef h)
    (reconnectAttemptRef h) (isConnectingRef h) (isClosedRef h) v
    (sockets h) (timeouts h) (intervals h) (next_timer h).
Definition with_sockets (v : list Socket) (h : Hook) : Hook :=
  mkHook (sessionId h) (mounted h) (connectionState h) (reconnectAttempt h) (rendered h)
    (socketRef h) (heartbeatIntervalRef h) (reconnectTimeoutRef h) (joinedRoomsRef h)
    (reconnectAttemptRef h) (isConnectingRef h) (isClosedRef h) (pendingAcksRef h)
    v (timeouts h) (intervals h) (next_timer h).
Definition with_timeouts (v : list (nat * Z)) (h : Hook) : Hook :=
  mkHook (sessionId h) (mounted h) (connectionState h) (reconnectAttempt h) (rendered h)
    (socketRef h) (heartbeatIntervalRef h) (reconnectTimeoutRef h) (joinedRoomsRef h)
    (reconnectAttemptRef h) (isConnectingRef h) (isClosedRef h) (pendingAcksRef h)
    (sockets h) v (intervals h) (next_timer h).
Definition with_intervals (v : list (nat * nat)) (h : Hook) : Hook :=
  mkHook (sessionId h) (mounted h) (connectionState h) (reconnectAttempt h) (rendered h)
    (socketRef h) (heartbeatIntervalRef h) (reconnectTimeoutRef h) (joinedRoomsRef h)
    (reconnectAttemptRef h) (isConnectingRef h) (isClosedRef h) (pendingAcksRef h)
    (sockets h) (timeouts h) v (next_timer h).
Definition with_next_timer (v : nat) (h : Hook) : Hook :=
  mkHook (sessionId h) (mounted h) (connectionState h) (reconnectAttempt h) (rendered h)
    (socketRef h) (heartbeatIntervalRef h) (reconnectTimeoutRef h) (joinedRoomsRef h)
    (reconnectAttemptRef h) (isConnectingRef h) (isClosedRef h) (pendingAcksRef h)
    (sockets h) (timeouts h) (intervals h) v.

(** [useState] and the refs at the first render; timer identifiers start at
    1, as in a browser (they are truthy). *)
Definition useWebSocket (session : option string) : Hook :=
  mkHook session false disconnected 0 disconnected None None None [] 0 false false []
    [] [] [] 1.

(** A state update asked of an unmounted component is dropped by React. *)
Definition setConnectionState (v : ConnectionState) (h : Hook) : Hook :=
  if mounted h then with_connectionState v h else h.
Definition setReconnectAttempt (v : nat) (h : Hook) : Hook :=
  if mounted h then with_reconnectAttempt v h else h.

(** *** The browser *)

Definition readyState_of (s : nat) (h : Hook) : option ReadyState :=
  readyState <$> sockets h !! s.

(** [socketRef.current?.readyState === WebSocket.OPEN] *)
Definition current_is (state : ReadyState) (h : Hook) : bool :=
  bool_decide (socketRef h ≫= (λ s, readyState_of s h) = Some state).

Definition set_readyState (s : nat) (state : ReadyState) (h : Hook) : Hook :=
  with_sockets (alter (λ k, mkSocket state (sent k)) s (sockets h)) h.

(** [socket.send(JSON.stringify(frame))] *)
Definition socket_send (s : nat) (frame : Frame) (h : Hook) : Hook :=
  with_sockets (alter (λ k, mkSocket (readyState k) (sent k ++ [frame])) s (sockets h)) h.

(** [socket.close()]: a socket that is connecting or open starts closing. *)
Definition socket_close (s : nat) (h : Hook) : Hook :=
  with_sockets
    (alter (λ k, match readyState k with
                 | CONNECTING | OPEN => mkSocket CLOSING (sent k)
                 | CLOSING | CLOSED => k
                 end) s (sockets h)) h.

(** [new PartySocket(...)], its listeners attached *)
Definition new_socket (h : Hook) : nat * Hook :=
  (length (sockets h), with_sockets (sockets h ++ [mkSocket CONNECTING []]) h).

Definition setTimeout (delay : Z) (h : Hook) : nat * Hook :=
  (next_timer h,
   with_next_timer (S (next_timer h)) (with_timeouts (timeouts h ++ [(next_timer h, delay)]) h)).

Definition clearTimeout (t : nat) (h : Hook) : Hook :=
  with_timeouts (filter (λ p, p.1 ≠ t) (timeouts h)) h.

Definition setInterval (s : nat) (h : Hook) : nat * Hook :=
  (next_timer h,
   with_next_timer (S (next_timer h)) (with_intervals (intervals h ++ [(next_timer h, s)]) h)).

Definition clearInterval (t : nat) (h : Hook) : Hook :=
  with_intervals (filter (λ p, p.1 ≠ t) (intervals h)) h.

(** *** The hook *)

Definition clearHeartbeat (h : Hook) : Hook :=
  match heartbeatIntervalRef h with
  | Some t => with_heartbeatIntervalRef None (clearInterval t h)
  | None => h
  end.

Definition startHeartbeat (s : nat) (h : Hook) : Hook :=
  let h := clearHeartbeat h in
  let '(t, h) := setInterval s h in
  with_heartbeatIntervalRef (Some t) h.

(** [!sessionId]: [null] and the empty string are falsy. *)
Definition has_session (h : Hook) : bool :=
  match sessionId h with
  | Some (String _ _) => true
  | Some EmptyString | None => false
  end.

Definition connect (h : Hook) : Hook :=
  if negb (has_session h) then h
  else if isConnectingRef h then h
  else if isClosedRef h then h
  else
    let h :=
      match socketRef h with
      | Some s =>
          if bool_decide (readyState_of s h ≠ Some CLOSED)
          then with_socketRef None (socket_close s h) else h
      | None => h
      end in
    let h :=
      match reconnectTimeoutRef h with
      | Some t => with_reconnectTimeoutRef None (clearTimeout t h)
      | None => h
      end in
    let h := with_isConnectingRef true h in
    let h := setConnectionState
               (if bool_decide (0 < reconnectAttemptRef h)%nat then reconnecting
                else connecting) h in
    let '(s, h) := new_socket h in
    with_socketRef (Some s) h.

(** The [open] listener of socket [s] *)
Definition on_open (s : nat) (h : Hook) : Hook :=
  let h := with_isConnectingRef false h in
  let h := setConnectionState connected h in
  let h := with_reconnectAttemptRef 0 h in
  let h := setReconnectAttempt 0 h in
  let h := socket_send s (auth (default EmptyString (sessionId h))) h in
  let h := startHeartbeat s h in
  foldl (λ h roomId, socket_send s (join_room roomId) h) h (joinedRoomsRef h).

(** The [message] listener *)
Definition on_message (m : Received) (h : Hook) : Hook :=
  match m with
  | room_joined roomId =>
      if bool_decide (roomId ∈ joinedRoomsRef h) then h
      else with_joinedRoomsRef (joinedRoomsRef h ++ [roomId]) h
  | room_left roomId =>
      with_joinedRoomsRef (filter (λ r, r ≠ roomId) (joinedRoomsRef h)) h
  | _ => h
  end.

(** The [close] listener *)
Definition on_close (h : Hook) : Hook :=
  let h := with_isConnectingRef false h in
  let h := setConnectionState disconnected h in
  let h := clearHeartbeat h in
  if isClosedRef h then h
  else
    let h := with_reconnectAttemptRef (reconnectAttemptRef h + 1) h in
    let h := setReconnectAttempt (reconnectAttemptRef h) h in
    let delay :=
      Z.min (RECONNECT_BASE_DELAY * 2 ^ (Z.of_nat (reconnectAttemptRef h) - 1))
        MAX_RECONNECT_DELAY in
    let '(t, h) := setTimeout delay h in
    with_reconnectTimeoutRef (Some t) h.

(** The callback of the reconnect timer *)
Definition on_reconnect_timeout (h : Hook) : Hook :=
  connect (with_reconnectTimeoutRef None h).

(** The callback of the heartbeat interval set for socket [s] *)
Definition on_heartbeat_interval (s : nat) (now : Z) (h : Hook) : Hook :=
  if bool_decide (readyState_of s h = Some OPEN) then socket_send s (ping now) h else h.

(** The initial-connection effect: its body, and its cleanup *)
Definition mount (h : Hook) : Hook :=
  let h := with_mounted true h in
  let h := with_isClosedRef false h in
  if has_session h then connect h else h.

Definition cleanup (h : Hook) : Hook :=
  let h := with_isClosedRef true h in
  let h := clearHeartbeat h in
  let h :=
    match reconnectTimeoutRef h with
    | Some t => with_reconnectTimeoutRef None (clearTimeout t h)
    | None => h
    end in
  let h :=
    match socketRef h with
    | Some s => with_socketRef None (socket_close s h)
    | None => h
    end in
  with_isConnectingRef false h.

Definition unmount (h : Hook) : Hook := with_mounted false (cleanup h).

Definition handleVisibilityChange (visible : bool) (h : Hook) : Hook :=
  if visible
  then
    if negb (current_is OPEN h) && negb (current_is CONNECTING h)
       && negb (isConnectingRef h) && has_session h
    then connect h else h
  else h.

Definition joinRoom (roomId : string) (h : Hook) : Hook :=
  match socketRef h with
  | Some s => if current_is OPEN h then socket_send s (join_room roomId) h else h
  | None => h
  end.

Definition leaveRoom (roomId : string) (h : Hook) : Hook :=
  let h := with_joinedRoomsRef (filter (λ r, r ≠ roomId) (joinedRoomsRef h)) h in
  match socketRef h with
  | Some s => if current_is OPEN h then socket_send s (leave_room roomId) h else h
  | None => h
  end.

Definition sendMessage (message : string) (h : Hook) : Hook :=
  match socketRef h with
  | Some s => if current_is OPEN h then socket_send s (raw message) h else h
  | None => h
  end.

Definition syncMessages (lastMessageId : option string) (h : Hook) : Hook :=
  match socketRef h with
  | Some s => if current_is OPEN h then socket_send s (sync_request lastMessageId) h else h
  | None => h
  end.

Definition ackMessage (ack : string * string) (h : Hook) : Hook :=
  match socketRef h with
  | Some s =>
      if current_is OPEN h then socket_send s (message_ack ack.1 ack.2) h
      else with_pendingAcksRef (pendingAcksRef h ++ [ack]) h
  | None => with_pendingAcksRef (pendingAcksRef h ++ [ack]) h
  end.

(** The effect on [[connectionState, ackMessage]] *)
Definition flush_pending_acks (h : Hook) : Hook :=
  if bool_decide (connectionState h = connected)
     && bool_decide (0 < length (pendingAcksRef h))%nat
  then
    let pending := pendingAcksRef h in
    let h := with_pendingAcksRef [] h in
    foldl (λ h ack, ackMessage ack h) h pending
  else h.

(** React renders the component and runs the effects whose dependencies
    changed. With a fixed [sessionId], [connect] and [ackMessage] keep their
    identity, so only the effect on [connectionState] can run again. *)
Definition commit (h : Hook) : Hook :=
  if mounted h && bool_decide (connectionState h ≠ rendered h)
  then flush_pending_acks (with_rendered (connectionState h) h)
  else h.

(** What the browser and React do to a mounted or unmounted hook *)
Inductive Event :=
  | Commit
  | SocketOpen (s : nat)
  | SocketMessage (s : nat) (m : Received)
  | SocketClosing (s : nat)
  | SocketClose (s : nat)
  | SocketError (s : nat)
  | TimeoutFires (t : nat)
  | IntervalFires (t : nat) (now : Z)
  | VisibilityChange (visible : bool).

(** One event, when the browser can raise it: a socket opens while it is
    connecting, delivers messages while it is open, may start closing on
    the initiative of the peer, and closes once; a timer fires while it is
    pending; the visibility listener is registered while the component is
    mounted. *)
Definition step (e : Event) (h : Hook) : option Hook :=
  match e with
  | Commit => Some (commit h)
  | SocketOpen s =>
      if bool_decide (readyState_of s h = Some CONNECTING)
      then Some (on_open s (set_readyState s OPEN h)) else None
  | SocketMessage s m =>
      if bool_decide (readyState_of s h = Some OPEN) then Some (on_message m h) else None
  | SocketClosing s =>
      if bool_decide (readyState_of s h = Some OPEN)
      then Some (set_readyState s CLOSING h) else None
  | SocketClose s =>
      match readyState_of s h with
      | Some CLOSED | None => None
      | Some _ => Some (on_close (set_readyState s CLOSED h))
      end
  | SocketError s => if bool_decide (is_Some (readyState_of s h)) then Some h else None
  | TimeoutFires t =>
      if bool_decide (t ∈ (timeouts h).*1)
      then Some (on_reconnect_timeout (clearTimeout t h)) else None
  | IntervalFires t now =>
      match list_find (λ p, p.1 = t) (intervals h) with
      | Some (_, (_, s)) => Some (on_heartbeat_interval s now h)
      | None => None
      end
  | VisibilityChange visible =>
      if mounted h then Some (handleVisibilityChange visible h) else None
  end.

Fixpoint run (events : list Event) (h : Hook) : option Hook :=
  match events with
  | [] => Some h
  | e :: events => h ← step e h; run events h
  end.

(** What the caller of the hook can ask of it *)
Inductive Call :=
  | Call_joinRoom (roomId : string)
  | Call_leaveRoom (roomId : string)
  | Call_sendMessage (message : string)
  | Call_syncMessages (lastMessageId : option string)
  | Call_ackMessage (messageId status : string).

Definition call (c : Call) (h : Hook) : Hook :=
  match c with
  | Call_joinRoom roomId => joinRoom roomId h
  | Call_leaveRoom roomId => leaveRoom roomId h
  | Call_sendMessage message => sendMessage message h
  | Call_syncMessages lastMessageId => syncMessages lastMessageId h
  | Call_ackMessage messageId status => ackMessage (messageId, status) h
  end.

(** The states of a hook from its first render on: it is mounted once, then
    receives events and calls, and is unmounted at any time. *)
Inductive reachable : Hook → Prop :=
  | reachable_mount session : reachable (mount (useWebSocket session))
  | reachable_step e h h' : reachable h → step e h = Some h' → reachable h'
  | reachable_call c h : reachable h → reachable (call c h)
  | reachable_unmount h : reachable h → reachable (unmount h).

(** Two facts that hold of every reachable state: the only heartbeat timer
    is the one [heartbeatIntervalRef] holds, and a socket that
    [socketRef] does not hold is closing or closed. *)
Definition heartbeat_tracked (h : Hook) : Prop :=
  (intervals h).*1 = option_list (heartbeatIntervalRef h).

Definition closing (state : ReadyState) : Prop := state = CLOSING ∨ state = CLOSED.

Definition others_closing (h : Hook) : Prop :=
  ∀ s state, readyState_of s h = Some state → socketRef h ≠ Some s → closing state.

(** [others_closing], on the list of sockets and the socket held *)
Definition oc (ss : list Socket) (ref : option nat) : Prop :=
  ∀ s k, ss !! s = Some k → ref ≠ Some s → closing (readyState k).

Definition well_formed (h : Hook) : Prop := heartbeat_tracked h ∧ others_closing h.

(** The React state and the refs of the hook *)
Definition controller (h : Hook) :=
  (mounted h, connectionState h, reconnectAttempt h, rendered h,
   (socketRef h, heartbeatIntervalRef h, reconnectTimeoutRef h, joinedRoomsRef h),
   (reconnectAttemptRef h, isConnectingRef h, isClosedRef h, pendingAcksRef h)).

(** The state the cleanup of the initial-connection effect leaves behind *)
Definition torn_down (h : Hook) : Prop :=
  mounted h = false ∧ isClosedRef h = true ∧ isConnectingRef h = false ∧
  socketRef h = None ∧ heartbeatIntervalRef h = None ∧ reconnectTimeoutRef h = None ∧
  intervals h = [] ∧
  ∀ s state, readyState_of s h = Some state → closing state.

(** The delay of the specification before attempt [n + 1]:
    [min(base_delay * 2^n, max_delay)] *)
Definition backoff_delay (n : nat) : Z :=
  Z.min (RECONNECT_BASE_DELAY * 2 ^ Z.of_nat n) MAX_RECONNECT_DELAY.

(** A connection attempt is under way. *)
Definition attempting (h : Hook) : Prop :=
  mounted h = true ∧ has_session h = true ∧ isClosedRef h = false ∧
  ∃ s, socketRef h = Some s ∧ readyState_of s h = Some CONNECTING.

(** The attempt under way fails: its socket closes, and the timer set last,
    which is the reconnect timer the hook then holds, fires. The result is
    the delay of that timer and the state in which the next attempt is
    under way. *)
Definition fail (h : Hook) : option (Z * Hook) :=
  s ← socketRef h;
  closed ← step (SocketClose s) h;
  match list.last (timeouts closed) with
  | Some (t, d) =>
      if bool_decide (reconnectTimeoutRef closed = Some t)
      then (λ next, (d, next)) <$> step (TimeoutFires t) closed
      else None
  | None => None
  end.

(** [n] failed attempts in a row, with the delays waited *)
Fixpoint failures (n : nat) (h : Hook) : option (list Z * Hook) :=
  match n with
  | O => Some ([], h)
  | S n =>
      '(d, h) ← fail h;
      '(ds, h) ← failures n h;
      Some (d :: ds, h)
  end.

(** The frames socket [s] has been sent *)
Definition sent_on (s : nat) (h : Hook) : list Frame :=
  default [] (sent <$> sockets h !! s).

End Hook.

(** ** The client reconnection controller: [useWebSocket], earlier variant

    The first two copies of the hook in the repository (compiled JavaScript
    and its TypeScript source) are the same program: the attempt counter is
    React state only, there is no reentrancy flag, no teardown flag and no
    acknowledgment queue. [connect] is a [useCallback] that depends on
    [reconnectAttempt]; the listeners of a socket and the callback of a
    reconnect timer are closures of the [connect] that created them and see
    the [reconnectAttempt] of its render. The initial-connection effect
    depends on [connect]. *)
Module HookV1.
Export Hook (ConnectionState, connecting, connected, disconnected, reconnecting,
  ReadyState, CONNECTING, OPEN, CLOSING, CLOSED,
  Frame, auth, ping, join_room, leave_room, sync_request, raw,
  Received, pong, auth_success, auth_error, room_joined, room_left, passed_on,
  unparsable).

Definition HEARTBEAT_INTERVAL : Z := 30000.
Definition RECONNECT_BASE_DELAY : Z := 1000.
Definition MAX_RECONNECT_DELAY : Z := 30000.

Record Socket := mkSocket {
  readyState : ReadyState;
  sent : list Frame;
  (** the [reconnectAttempt] its listeners were created with *)
  socket_closure : nat }.

Record Timeout := mkTimeout {
  timeout_id : nat;
  delay : Z;
  (** the [reconnectAttempt] of the [connect] its callback calls *)
  timeout_closure : nat }.

Record Hook := mkHook {
  sessionId : option string;
  mounted : bool;
  connectionState : ConnectionState;
  reconnectAttempt : nat;
  (** the [reconnectAttempt] of the last render: the one the current
      [connect] sees, and the dependency the effects last ran with *)
  rendered : nat;
  socketRef : option nat;
  heartbeatIntervalRef : option nat;
  reconnectTimeoutRef : option nat;
  joinedRoomsRef : list string;
  sockets : list Socket;
  timeouts : list Timeout;
  intervals : list (nat * nat);
  next_timer : nat }.

Definition with_connectionState (v : ConnectionState) (h : Hook) : Hook :=
  mkHook (sessionId h) (mounted h) v (reconnectAttempt h) (rendered h) (socketRef h)
    (heartbeatIntervalRef h) (reconnectTimeoutRef h) (joinedRoomsRef h)
    (sockets h) (timeouts h) (intervals h) (next_timer h).
Definition with_reconnectAttempt (v : nat) (h : Hook) : Hook :=
  mkHook (sessionId h) (mounted h) (connectionState h) v (rendered h) (socketRef h)
    (heartbeatIntervalRef h) (reconnectTimeoutRef h) (joinedRoomsRef h)
    (sockets h) (timeouts h) (intervals h) (next_timer h).
Definition with_rendered (v : nat) (h : Hook) : Hook :=
  mkHook (sessionId h) (mounted h) (connectionState h) (reconnectAttempt h) v (socketRef h)
    (heartbeatIntervalRef h) (reconnectTimeoutRef h) (joinedRoomsRef h)
    (sockets h) (timeouts h) (intervals h) (next_timer h).
Definition with_mounted (v : bool) (h : Hook) : Hook :=
  mkHook (sessionId h) v (connectionState h) (reconnectAttempt h) (rendered h) (socketRef h)
    (heartbeatIntervalRef h) (reconnectTimeoutRef h) (joinedRoomsRef h)
    (sockets h) (timeouts h) (intervals h) (next_timer h).
Definition with_socketRef (v : option nat) (h : Hook) : Hook :=
  mkHook (sessionId h) (mounted h) (connectionState h) (reconnectAttempt h) (rendered h) v
    (heartbeatIntervalRef h) (reconnectTimeoutRef h) (joinedRoomsRef h)
    (sockets h) (timeouts h) (intervals h) (next_timer h).
Definition with_heartbeatIntervalRef (v : option nat) (h : Hook) : Hook :=
  mkHook (sessionId h) (mounted h) (connectionState h) (reconnectAttempt h) (rendered h)
    (socketRef h) v (reconnectTimeoutRef h) (joinedRoomsRef h)
    (sockets h) (timeouts h) (intervals h) (next_timer h).
Definition with_reconnectTimeoutRef (v : option nat) (h : Hook) : Hook :=
  mkHook (sessionId h) (mounted h) (connectionState h) (reconnectAttempt h) (rendered h)
    (socketRef h) (heartbeatIntervalRef h) v (joinedRoomsRef h)
    (sockets h) (timeouts h) (intervals h) (next_timer h).
Definition with_joinedRoomsRef (v : list string) (h : Hook) : Hook :=
  mkHook (sessionId h) (mounted h) (connectionState h) (reconnectAttempt h) (rendered h)
    (socketRef h) (heartbeatIntervalRef h) (reconnectTimeoutRef h) v
    (sockets h) (timeouts h) (intervals h) (next_timer h).
Definition with_sockets (v : list Socket) (h : Hook) : Hook :=
  mkHook (sessionId h) (mounted h) (connectionState h) (reconnectAttempt h) (rendered h)
    (socketRef h) (heartbeatIntervalRef h) (reconnectTimeoutRef h) (joinedRoomsRef h)
    v (timeouts h) (intervals h) (next_timer h).
Definition with_timeouts (v : list Timeout) (h : Hook) : Hook :=
  mkHook (sessionId h) (mounted h) (connectionState h) (reconnectAttempt h) (rendered h)
    (socketRef h) (heartbeatIntervalRef h) (reconnectTimeoutRef h) (joinedRoomsRef h)
    (sockets h) v (intervals h) (next_timer h).
Definition with_intervals (v : list (nat * nat)) (h : Hook) : Hook :=
  mkHook (sessionId h) (mounted h) (connectionState h) (reconnectAttempt h) (rendered h)
    (socketRef h) (heartbeatIntervalRef h) (reconnectTimeoutRef h) (joinedRoomsRef h)
    (sockets h) (timeouts h) v (next_timer h).
Definition with_next_timer (v : nat) (h : Hook) : Hook :=
  mkHook (sessionId h) (mounted h) (connectionState h) (reconnectAttempt h) (rendered h)
    (socketRef h) (heartbeatIntervalRef h) (reconnectTimeoutRef h) (joinedRoomsRef h)
    (sockets h) (timeouts h) (intervals h) v.

Definition useWebSocket (session : option string) : Hook :=
  mkHook session false disconnected 0 0 None None None [] [] [] [] 1.

Definition setConnectionState (v : ConnectionState) (h : Hook) : Hook :=
  if mounted h then with_connectionState v h else h.
(** [setReconnectAttempt(v)] and [setReconnectAttempt((prev) => f(prev))] *)
Definition setReconnectAttempt (f : nat → nat) (h : Hook) : Hook :=
  if mounted h then with_reconnectAttempt (f (reconnectAttempt h)) h else h.

Definition readyState_of (s : nat) (h : Hook) : option ReadyState :=
  readyState <$> sockets h !! s.

Definition current_is (state : ReadyState) (h : Hook) : bool :=
  bool_decide (socketRef h ≫= (λ s, readyState_of s h) = Some state).

Definition set_readyState (s : nat) (state : ReadyState) (h : Hook) : Hook :=
  with_sockets
    (alter (λ k, mkSocket state (sent k) (socket_closure k)) s (sockets h)) h.

Definition socket_send (s : nat) (frame : Frame) (h : Hook) : Hook :=
  with_sockets
    (alter (λ k, mkSocket (readyState k) (sent k ++ [frame]) (socket_closure k)) s
       (sockets h)) h.

Definition socket_close (s : nat) (h : Hook) : Hook :=
  with_sockets
    (alter (λ k, match readyState k with
                 | CONNECTING | OPEN => mkSocket CLOSING (sent k) (socket_closure k)
                 | CLOSING | CLOSED => k
                 end) s (sockets h)) h.

Definition new_socket (attempt : nat) (h : Hook) : nat * Hook :=
  (length (sockets h), with_sockets (sockets h ++ [mkSocket CONNECTING [] attempt]) h).

Definition setTimeout (closure : nat) (d : Z) (h : Hook) : nat * Hook :=
  (next_timer h,
   with_next_timer (S (next_timer h))
     (with_timeouts (timeouts h ++ [mkTimeout (next_timer h) d closure]) h)).

Definition clearTimeout (t : nat) (h : Hook) : Hook :=
  with_timeouts (filter (λ p, timeout_id p ≠ t) (timeouts h)) h.

Definition setInterval (s : nat) (h : Hook) : nat * Hook :=
  (next_timer h,
   with_next_timer (S (next_timer h)) (with_intervals (intervals h ++ [(next_timer h, s)]) h)).

Definition clearInterval (t : nat) (h : Hook) : Hook :=
  with_intervals (filter (λ p, p.1 ≠ t) (intervals h)) h.

Definition clearHeartbeat (h : Hook) : Hook :=
  match heartbeatIntervalRef h with
  | Some t => with_heartbeatIntervalRef None (clearInterval t h)
  | None => h
  end.

Definition startHeartbeat (s : nat) (h : Hook) : Hook :=
  let h := clearHeartbeat h in
  let '(t, h) := setInterval s h in
  with_heartbeatIntervalRef (Some t) h.

Definition has_session (h : Hook) : bool :=
  match sessionId h with
  | Some (String _ _) => true
  | Some EmptyString | None => false
  end.

(** [connect], as created by the render that saw [reconnectAttempt = attempt] *)
Definition connect (attempt : nat) (h : Hook) : Hook :=
  if negb (has_session h) then h
  else
    let h :=
      match reconnectTimeoutRef h with
      | Some t => with_reconnectTimeoutRef None (clearTimeout t h)
      | None => h
      end in
    let h := setConnectionState
               (if bool_decide (0 < attempt)%nat then reconnecting else connecting) h in
    let '(s, h) := new_socket attempt h in
    with_socketRef (Some s) h.

Definition on_open (s : nat) (h : Hook) : Hook :=
  let h := setConnectionState connected h in
  let h := setReconnectAttempt (λ _, 0%nat) h in
  let h := socket_send s (auth (default EmptyString (sessionId h))) h in
  let h := startHeartbeat s h in
  foldl (λ h roomId, socket_send s (join_room roomId) h) h (joinedRoomsRef h).

Definition on_message (m : Received) (h : Hook) : Hook :=
  match m with
  | room_joined roomId =>
      if bool_decide (roomId ∈ joinedRoomsRef h) then h
      else with_joinedRoomsRef (joinedRoomsRef h ++ [roomId]) h
  | room_left roomId =>
      with_joinedRoomsRef (filter (λ r, r ≠ roomId) (joinedRoomsRef h)) h
  | _ => h
  end.

(** The [close] listener of a socket created by the [connect] of [attempt] *)
Definition on_close (attempt : nat) (h : Hook) : Hook :=
  let h := setConnectionState disconnected h in
  let h := clearHeartbeat h in
  let d := Z.min (RECONNECT_BASE_DELAY * 2 ^ Z.of_nat attempt) MAX_RECONNECT_DELAY in
  let h := setReconnectAttempt (λ prev, (prev + 1)%nat) h in
  let '(t, h) := setTimeout attempt d h in
  with_reconnectTimeoutRef (Some t) h.

Definition on_heartbeat_interval (s : nat) (now : Z) (h : Hook) : Hook :=
  if bool_decide (readyState_of s h = Some OPEN) then socket_send s (ping now) h else h.

(** The initial-connection effect: its body, and its cleanup *)
Definition effect (h : Hook) : Hook :=
  if has_session h then connect (rendered h) h else h.

Definition cleanup (h : Hook) : Hook :=
  let h := clearHeartbeat h in
  let h :=
    match reconnectTimeoutRef h with
    | Some t => clearTimeout t h
    | None => h
    end in
  match socketRef h with
  | Some s => socket_close s h
  | None => h
  end.

Definition mount (h : Hook) : Hook := effect (with_mounted true h).

Definition unmount (h : Hook) : Hook := with_mounted false (cleanup h).

(** React renders the component: a changed [reconnectAttempt] makes a new
    [connect], and the initial-connection effect, which depends on it, is
    cleaned up and run again. *)
Definition commit (h : Hook) : Hook :=
  if mounted h && bool_decide (reconnectAttempt h ≠ rendered h)
  then effect (cleanup (with_rendered (reconnectAttempt h) h))
  else h.

Definition handleVisibilityChange (visible : bool) (h : Hook) : Hook :=
  if visible && negb (current_is OPEN h) && has_session h
  then connect (rendered h) h else h.

Definition joinRoom (roomId : string) (h : Hook) : Hook :=
  match socketRef h with
  | Some s => if current_is OPEN h then socket_send s (join_room roomId) h else h
  | None => h
  end.

Definition leaveRoom (roomId : string) (h : Hook) : Hook :=
  let h := with_joinedRoomsRef (filter (λ r, r ≠ roomId) (joinedRoomsRef h)) h in
  match socketRef h with
  | Some s => if current_is OPEN h then socket_send s (leave_room roomId) h else h
  | None => h
  end.

Definition sendMessage (message : string) (h : Hook) : Hook :=
  match socketRef h with
  | Some s => if current_is OPEN h then socket_send s (raw message) h else h
  | None => h
  end.

Definition syncMessages (lastMessageId : option string) (h : Hook) : Hook :=
  match socketRef h with
  | Some s => if current_is OPEN h then socket_send s (sync_request lastMessageId) h else h
  | None => h
  end.

Inductive Event :=
  | Commit
  | SocketOpen (s : nat)
  | SocketMessage (s : nat) (m : Received)
  | SocketClosing (s : nat)
  | SocketClose (s : nat)
  | SocketError (s : nat)
  | TimeoutFires (t : nat)
  | IntervalFires (t : nat) (now : Z)
  | VisibilityChange (visible : bool).

Definition step (e : Event) (h : Hook) : option Hook :=
  match e with
  | Commit => Some (commit h)
  | SocketOpen s =>
      if bool_decide (readyState_of s h = Some CONNECTING)
      then Some (on_open s (set_readyState s OPEN h)) else None
  | SocketMessage s m =>
      if bool_decide (readyState_of s h = Some OPEN) then Some (on_message m h) else None
  | SocketClosing s =>
      if bool_decide (readyState_of s h = Some OPEN)
      then Some (set_readyState s CLOSING h) else None
  | SocketClose s =>
      match sockets h !! s with
      | Some k =>
          if bool_decide (readyState k = CLOSED) then None
          else Some (on_close (socket_closure k) (set_readyState s CLOSED h))
      | None => None
      end
  | SocketError s => if bool_decide (is_Some (readyState_of s h)) then Some h else None
  | TimeoutFires t =>
      match list_find (λ p, timeout_id p = t) (timeouts h) with
      | Some (_, p) => Some (connect (timeout_closure p) (clearTimeout t h))
      | None => None
      end
  | IntervalFires t now =>
      match list_find (λ p, p.1 = t) (intervals h) with
      | Some (_, (_, s)) => Some (on_heartbeat_interval s now h)
      | None => None
      end
  | VisibilityChange visible =>
      if mounted h then Some (handleVisibilityChange visible h) else None
  end.

Fixpoint run (events : list Event) (h : Hook) : option Hook :=
  match events with
  | [] => Some h
  | e :: events => h ← step e h; run events h
  end.

End HookV1.

(** ** The HTTP API of the server: [onRequest] and its handlers

    The rest of class [ChatV2]. Conventions, besides those above.
    - [this.generateId()] is an argument [fresh] of the handler that calls it.
    - A password is the list of its UTF-16 code units, which is what
      [charCodeAt] reads.
    - A handler is a function of the server to its outcome: it returns a
      value and the server it leaves, or it rejects (the handlers are
      [async]; [onRequest] returns their promise without awaiting it, so
      its [catch] does not see their rejections). The store a rejected
      request leaves is not described.
    - [None] marks an input the embedding does not describe: a statement
      whose text is not the one written (see [sql_text]); an [INSERT] one of
      whose [FOREIGN KEY] references does not resolve (whether the clause is
      enforced is a setting of the platform); a body that has not the type
      the handler casts it to. *)
Module Http.
Import Server.

(** *** [hashPassword] *)

(** [ToInt32] of ECMAScript, on integers *)
Definition ToInt32 (z : Z) : Z := (z + 2 ^ 31) `mod` 2 ^ 32 - 2 ^ 31.

(** [hash.toString(16)] *)
Definition toString16 (z : Z) : string :=
  HexadecimalString.NilZero.string_of_int (Z.to_hex_int z).

(** One turn of the loop: [hash = (hash << 5) - hash + char; hash = hash & hash] *)
Definition hash_step (hash char : Z) : Z :=
  let hash := ToInt32 (Z.shiftl (ToInt32 hash) 5) - hash + char in
  Z.land (ToInt32 hash) (ToInt32 hash).

Definition hash_code (password : list Z) : Z := foldl hash_step 0 password.

Definition hashPassword (password : list Z) : string := toString16 (hash_code password).

Definition verifyPassword (password : list Z) (hash : string) : bool :=
  bool_decide (hashPassword password = hash).

(** The polynomial the loop evaluates, before it is cut to 32 bits:
    [c0 * 31^(n-1) + c1 * 31^(n-2) + ... + c(n-1)] *)
Definition polynomial (password : list Z) : Z :=
  foldl (λ h c, 31 * h + c) 0 password.

(** The code units of a string of ASCII characters *)
Definition code_units (s : string) : list Z :=
  (λ a, Z.of_N (Ascii.N_of_ascii a)) <$> String.list_ascii_of_string s.

(** *** The tables *)

(** [UserWithPassword = User & { password }] *)
Record UserWithPassword := mkUserWithPassword {
  without_password : User;
  password : string }.

Record BotConfig := mkBotConfig {
  config_id : string;
  api_key : string;
  enabled : Z;
  config_created_at : Z }.

Record Tables := mkTables {
  users : list UserWithPassword;
  rooms : list Room;
  messages : list Message;
  room_members : list RoomMember;
  sessions : list Session;
  bot_config : list BotConfig }.

(** What the WebSocket handlers read and write: the tables without the
    [password] column and [bot_config]. *)
Definition store_of (t : Tables) : Store :=
  mkStore (without_password <$> users t) (messages t) (room_members t) (sessions t)
    (rooms t).

Definition with_users (v : list UserWithPassword) (t : Tables) : Tables :=
  mkTables v (rooms t) (messages t) (room_members t) (sessions t) (bot_config t).
Definition with_rooms (v : list Room) (t : Tables) : Tables :=
  mkTables (users t) v (messages t) (room_members t) (sessions t) (bot_config t).
Definition with_messages (v : list Message) (t : Tables) : Tables :=
  mkTables (users t) (rooms t) v (room_members t) (sessions t) (bot_config t).
Definition with_room_members (v : list RoomMember) (t : Tables) : Tables :=
  mkTables (users t) (rooms t) (messages t) v (sessions t) (bot_config t).
Definition with_sessions (v : list Session) (t : Tables) : Tables :=
  mkTables (users t) (rooms t) (messages t) (room_members t) v (bot_config t).
Definition with_bot_config (v : list BotConfig) (t : Tables) : Tables :=
  mkTables (users t) (rooms t) (messages t) (room_members t) (sessions t) v.

Record World := mkWorld {
  tables : Tables;
  sockets : list Connection;
  env_BOT_API_KEY : option string }.

Definition with_tables (t : Tables) (w : World) : World :=
  mkWorld t (sockets w) (env_BOT_API_KEY w).

Definition state_of (w : World) : State :=
  mkState (store_of (tables w)) (sockets w) (env_BOT_API_KEY w).

(** *** Handlers *)

Inductive Exception :=
  | SyntaxError       (** [request.json()]: the body is not JSON *)
  | TypeError         (** a property of [undefined] is read *)
  | ConstraintError.  (** a [PRIMARY KEY] or [UNIQUE] constraint fails *)

Inductive Outcome (A : Type) :=
  | Returns (a : A) (w : World)
  | Rejects (e : Exception).
Arguments Returns {A} a w.
Arguments Rejects {A} e.

Definition Handler (A : Type) : Type := World → option (Outcome A).

#[export] Instance Handler_ret : MRet Handler := λ A a w, Some (Returns a w).
#[export] Instance Handler_bind : MBind Handler := λ A B f m w,
  match m w with
  | Some (Returns a w) => f a w
  | Some (Rejects e) => Some (Rejects e)
  | None => None
  end.

Definition throw {A} (e : Exception) : Handler A := λ _, Some (Rejects e).
Definition undescribed {A} : Handler A := λ _, None.

(** [this.ctx.storage.sql.exec(...)]: a query, and a statement *)
Definition ask {A} (q : World → A) : Handler A := λ w, Some (Returns (q w) w).
Definition query {A} (q : Tables → A) : Handler A := ask (q ∘ tables).
Definition exec (f : Tables → Tables) : Handler () :=
  λ w, Some (Returns () (with_tables (f (tables w)) w)).

(** A value spliced into the text of a statement, between apostrophes *)
Definition spliced (s : string) : Handler string :=
  match sql_text s with
  | Some s => mret s
  | None => undescribed
  end.

(** A value that a [FOREIGN KEY] clause refers to the [id] of a table *)
Definition references (held : Tables → list string) (id : string) : Handler () :=
  ids ← query held;
  if bool_decide (id ∈ ids) then mret () else undescribed.

(** A value that must be new to a [PRIMARY KEY] or [UNIQUE] column *)
Definition unique {K} `{EqDecision K} (held : Tables → list K) (key : K) : Handler () :=
  keys ← query held;
  if bool_decide (key ∈ keys) then throw ConstraintError else mret ().

Definition user_ids (t : Tables) : list string := (uid ∘ without_password) <$> users t.
Definition usernames (t : Tables) : list string := (username ∘ without_password) <$> users t.
Definition room_ids (t : Tables) : list string := rid <$> rooms t.
Definition message_ids (t : Tables) : list string := mid <$> messages t.
Definition session_ids (t : Tables) : list string := session_id <$> sessions t.
Definition memberships (t : Tables) : list (string * string) :=
  (λ m, (member_room_id m, member_user_id m)) <$> room_members t.

(** [INSERT INTO users (...)] *)
Definition insert_user (row : UserWithPassword) : Handler () :=
  unique user_ids (uid (without_password row));;
  unique usernames (username (without_password row));;
  exec (λ t, with_users (users t ++ [row]) t).

(** [INSERT INTO rooms (id, name, type, created_at)] *)
Definition insert_room (row : Room) : Handler () :=
  unique room_ids (rid row);;
  exec (λ t, with_rooms (rooms t ++ [row]) t).

(** [INSERT INTO room_members (room_id, user_id, joined_at)] *)
Definition insert_room_member (row : RoomMember) : Handler () :=
  unique memberships (member_room_id row, member_user_id row);;
  references room_ids (member_room_id row);;
  references user_ids (member_user_id row);;
  exec (λ t, with_room_members (room_members t ++ [row]) t).

(** [INSERT INTO sessions (id, user_id, created_at, expires_at)] *)
Definition insert_session (row : Session) : Handler () :=
  unique session_ids (session_id row);;
  references user_ids (session_user_id row);;
  exec (λ t, with_sessions (sessions t ++ [row]) t).

(** [INSERT INTO messages (...)] *)
Definition insert_message_row (row : Message) : Handler () :=
  unique message_ids (mid row);;
  references room_ids (room_id row);;
  references user_ids (user_id row);;
  exec (λ t, with_messages (messages t ++ [row]) t).

(** [INSERT INTO bot_config (id, api_key, enabled, created_at)] *)
Definition insert_bot_config (row : BotConfig) : Handler () :=
  unique (λ t, config_id <$> bot_config t) (config_id row);;
  unique (λ t, api_key <$> bot_config t) (api_key row);;
  exec (λ t, with_bot_config (bot_config t ++ [row]) t).

(** [SELECT * FROM users WHERE username = ?] *)
Definition select_by_username (name : string) (t : Tables) : list UserWithPassword :=
  filter (λ u, username (without_password u) = name) (users t).

(** [SELECT * FROM users WHERE id = ?], then [.toArray()[0]] *)
Definition select_user_row (id : string) (t : Tables) : option UserWithPassword :=
  head (filter (λ u, uid (without_password u) = id) (users t)).

(** [SELECT * FROM rooms WHERE id = ?], then [.toArray()[0]] *)
Definition select_room (id : string) (t : Tables) : option Room :=
  head (filter (λ r, rid r = id) (rooms t)).

(** [SELECT * FROM room_members WHERE room_id = ?] *)
Definition select_members (room : string) (t : Tables) : list RoomMember :=
  filter (λ m, member_room_id m = room) (room_members t).

(** *** Requests and responses *)

Inductive Body :=
  | NotJSON
  | LoginRequest (username : string) (password : list Z)
  | CreateUserRequest (username : string) (password : list Z) (role : option string)
  | CreateRoomRequest (name type : string) (member_ids : option (list string))
  | SendMessageRequest (room_id content : string) (content_type : option string)
  | ChangePasswordRequest (old_password new_password : list Z)
  | ChangeNicknameRequest (nickname : string).

Record Request := mkRequest {
  method : string;
  (** [new URL(request.url).pathname] *)
  pathname : string;
  (** [request.headers.get("Authorization")] *)
  Authorization : option string;
  body : Body }.

(** [await request.json()] *)
Definition json (request : Request) : Handler Body :=
  match body request with
  | NotJSON => throw SyntaxError
  | parsed => mret parsed
  end.

Inductive Data :=
  | LoginData (session : Session) (user : User)
  | UsersData (users : list User)
  | UserData (user : User)
  | RoomsData (rooms : list Room)
  | RoomData (room : Room)
  | MessagesData (messages : list Message) (users : list User)
  | MessageIdData (message_id : string).

(** The [Response]: its status and the [APIResponse] it carries *)
Record Response := mkResponse {
  status : Z;
  success : bool;
  data : option Data;
  error : option string }.

Definition ok (d : option Data) : Response := mkResponse 200 true d None.
Definition failure (code : Z) (message : string) : Response :=
  mkResponse code false None (Some message).

(** A string that is not falsy *)
Definition truthy (s : option string) : option string :=
  match s with
  | Some (String a rest) => Some (String a rest)
  | Some EmptyString | None => None
  end.

Definition validateSession (request : Request) (now : Z) : Handler (option string) :=
  match truthy (Authorization request) with
  | None => mret None
  | Some authHeader =>
      if negb (String.prefix "Bearer " authHeader) then mret None
      else
        sessionId ← spliced (String.substring 7 (String.length authHeader - 7) authHeader);
        found ← query (λ t, select_sessions (store_of t) sessionId now);
        match found with
        | [] => mret None
        | session :: _ => mret (Some (session_user_id session))
        end
  end.

Definition SESSION_LIFETIME : Z := 7 * 24 * 60 * 60 * 1000.

Definition handleLogin (request : Request) (now : Z) (fresh : string) : Handler Response :=
  parsed ← json request;
  match parsed with
  | LoginRequest username pass =>
      name ← spliced username;
      found ← query (select_by_username name);
      match found with
      | [] => mret (failure 401 "用户名或密码错误")
      | user :: _ =>
          if negb (verifyPassword pass (password user))
          then mret (failure 401 "用户名或密码错误")
          else
            let session :=
              mkSession fresh (uid (without_password user)) now (now + SESSION_LIFETIME) in
            insert_session session;;
            mret (ok (Some (LoginData session (without_password user))))
      end
  | _ => undescribed
  end.

Definition handleGetUsers (request : Request) (now : Z) : Handler Response :=
  userId ← validateSession request now;
  match truthy userId with
  | None => mret (failure 401 "Unauthorized")
  | Some userId =>
      found ← query (λ t, filter (λ u, uid u ≠ userId) (Server.users (store_of t)));
      mret (ok (Some (UsersData found)))
  end.

Definition handleCreateUser (request : Request) (now : Z) (fresh : string)
  : Handler Response :=
  currentUserId ← validateSession request now;
  match truthy currentUserId with
  | None => mret (failure 401 "Unauthorized")
  | Some currentUserId =>
      currentUser ← query (select_user_row currentUserId);
      match currentUser with
      | None => throw TypeError
      | Some currentUser =>
          if bool_decide (role (without_password currentUser) ≠ "admin")
          then mret (failure 403 "Permission denied")
          else
            parsed ← json request;
            match parsed with
            | CreateUserRequest username pass role =>
                let role := default "user" role in
                name ← spliced username;
                existingUser ← query (select_by_username name);
                match existingUser with
                | _ :: _ => mret (failure 400 "用户名已存在")
                | [] =>
                    role ← spliced role;
                    let newUser := mkUser fresh name None role None now in
                    insert_user (mkUserWithPassword newUser (hashPassword pass));;
                    newUser ← query (λ t, select_user (store_of t) fresh);
                    mret (ok (UserData <$> newUser))
                end
            | _ => undescribed
            end
      end
  end.

Definition room_created_desc (a b : Room) : Prop := room_created_at b ≤ room_created_at a.

#[export] Instance room_created_desc_dec : RelDecision room_created_desc.
Proof. intros a b. unfold room_created_desc. apply _. Defined.

(** [SELECT r.* FROM rooms r INNER JOIN room_members rm ON r.id = rm.room_id
    WHERE rm.user_id = ? ORDER BY r.created_at DESC] *)
Definition select_rooms_joined (userId : string) (t : Tables) : list Room :=
  order_by room_created_desc
    (r ← rooms t;
     rm ← room_members t;
     if bool_decide (rid r = member_room_id rm ∧ member_user_id rm = userId)
     then [r] else []).

(** [otherUser.nickname || otherUser.username] *)
Definition display_name (u : User) : string :=
  default (username u) (truthy (nickname u)).

(** The callback of [rooms.map]: a private room is shown under the name of
    the other member. *)
Definition with_display_name (userId : string) (t : Tables) (room : Room) : Room :=
  if bool_decide (room_type room = "private") then
    match list_find (λ m, member_user_id m ≠ userId) (select_members (rid room) t) with
    | Some (_, otherMember) =>
        match select_user_row (member_user_id otherMember) t with
        | Some otherUser =>
            mkRoom (rid room) (display_name (without_password otherUser)) (room_type room)
              (room_avatar room) (room_created_at room)
        | None => room
        end
    | None => room
    end
  else room.

Definition handleGetRooms (request : Request) (now : Z) : Handler Response :=
  userId ← validateSession request now;
  match truthy userId with
  | None => mret (failure 401 "Unauthorized")
  | Some userId =>
      found ← query (select_rooms_joined userId);
      roomsWithDisplayName ← query (λ t, with_display_name userId t <$> found);
      mret (ok (Some (RoomsData roomsWithDisplayName)))
  end.

(** The private rooms both are members of *)
Definition private_rooms (a b : string) (t : Tables) : list Room :=
  filter (λ r, room_type r = "private"
               ∧ a ∈ select_room_members (store_of t) (rid r)
               ∧ b ∈ select_room_members (store_of t) (rid r)) (rooms t).

(** [SELECT r.* FROM rooms r JOIN room_members rm1 ... JOIN room_members rm2 ...
    WHERE r.type = 'private' AND rm1.user_id = ? AND rm2.user_id = ? LIMIT 1]:
    the private room both are members of; which one the statement returns
    when several qualify is not described. *)
Definition select_private_room (a b : string) : Handler (option Room) :=
  found ← query (private_rooms a b);
  match found with
  | [] => mret None
  | [room] => mret (Some room)
  | _ => undescribed
  end.

(** [for (const memberId of member_ids) INSERT INTO room_members ...] *)
Fixpoint insert_members (roomId : string) (member_ids : list string) (now : Z)
  : Handler () :=
  match member_ids with
  | [] => mret ()
  | memberId :: member_ids =>
      memberId ← spliced memberId;
      insert_room_member (mkRoomMember roomId memberId now);;
      insert_members roomId member_ids now
  end.

Definition handleCreateRoom (request : Request) (now : Z) (fresh : string)
  : Handler Response :=
  userId ← validateSession request now;
  match truthy userId with
  | None => mret (failure 401 "Unauthorized")
  | Some userId =>
      parsed ← json request;
      match parsed with
      | CreateRoomRequest name type member_ids =>
          let member_ids := default [] member_ids in
          existingRoom ←
            match member_ids with
            | [first; second] =>
                if bool_decide (type = "private") then
                  first ← spliced first;
                  second ← spliced second;
                  select_private_room first second
                else mret None
            | _ => mret None
            end;
          match existingRoom with
          | Some room => mret (ok (Some (RoomData room)))
          | None =>
              name ← spliced name;
              type ← spliced type;
              insert_room (mkRoom fresh name type None now);;
              (if bool_decide (type = "private") && bool_decide (length member_ids = 2%nat)
               then insert_members fresh member_ids now
               else if bool_decide (type = "bot") then
                 insert_room_member (mkRoomMember fresh "bot" now);;
                 match member_ids with
                 | first :: _ => insert_members fresh [first] now
                 | [] => mret ()
                 end
               else insert_members fresh member_ids now);;
              room ← query (select_room fresh);
              mret (ok (RoomData <$> room))
          end
      | _ => undescribed
      end
  end.

(** [SELECT * FROM messages WHERE room_id = ? ORDER BY created_at ASC LIMIT 100] *)
Definition select_first (room : string) (t : Tables) : list Message :=
  take 100 (order_by created_asc (filter (λ m, room_id m = room) (messages t))).

Definition handleGetRoomMessages (roomId : string) (request : Request) (now : Z)
  : Handler Response :=
  userId ← validateSession request now;
  match truthy userId with
  | None => mret (failure 401 "Unauthorized")
  | Some userId =>
      room ← spliced roomId;
      membership ← query (λ t, select_membership (store_of t) room userId);
      match membership with
      | [] => mret (failure 403 "Not a member of this room")
      | _ :: _ =>
          found ← query (select_first room);
          authors ← query (λ t, resolve_authors (store_of t) now found);
          mret (ok (Some (MessagesData found authors)))
      end
  end.

Definition handleDeleteRoom (roomId : string) (request : Request) (now : Z)
  : Handler Response :=
  userId ← validateSession request now;
  match truthy userId with
  | None => mret (failure 401 "Unauthorized")
  | Some userId =>
      id ← spliced roomId;
      room ← query (select_room id);
      match room with
      | None => mret (failure 404 "Room not found")
      | Some room =>
          if bool_decide (room_type room ≠ "bot")
          then mret (failure 403 "Only bot rooms can be deleted")
          else
            exec (λ t, with_messages (filter (λ m, room_id m ≠ id) (messages t)) t);;
            exec (λ t, with_room_members
                         (filter (λ m, member_room_id m ≠ id) (room_members t)) t);;
            exec (λ t, with_rooms (filter (λ r, rid r ≠ id) (rooms t)) t);;
            mret (ok None)
      end
  end.

(** [this.broadcastToRoom(roomId, message)] *)
Definition broadcast (roomId : string) (message : WSMessage) : Handler () :=
  λ w, match broadcastToRoom roomId message (state_of w) with
       | Some srv =>
           Some (Returns () (mkWorld (tables w) (connections srv) (env_BOT_API_KEY w)))
       | None => None
       end.

Definition handleSendMessage (request : Request) (now : Z) (fresh : string)
  : Handler Response :=
  userId ← validateSession request now;
  match truthy userId with
  | None => mret (failure 401 "Unauthorized")
  | Some userId =>
      parsed ← json request;
      match parsed with
      | SendMessageRequest room_id content content_type =>
          let content_type := default "text" content_type in
          insert_message_row
            (mkMessage fresh room_id userId content content_type now (Some SrcUser)
               None (Some 0));;
          user ← query (λ t, select_user (store_of t) userId);
          match user with
          | Some user =>
              broadcast room_id
                (new_message
                   (mkMessage fresh room_id userId content content_type now
                      (Some SrcUser) None None)
                   user);;
              mret (ok (Some (MessageIdData fresh)))
          | None => undescribed
          end
      | _ => undescribed
      end
  end.

(** [UPDATE users SET password = ? WHERE id = ?] *)
Definition update_password (id hash : string) (t : Tables) : Tables :=
  with_users
    ((λ u, if bool_decide (uid (without_password u) = id)
           then mkUserWithPassword (without_password u) hash else u) <$> users t) t.

(** [UPDATE users SET nickname = ? WHERE id = ?] *)
Definition update_nickname (id nick : string) (t : Tables) : Tables :=
  with_users
    ((λ u, if bool_decide (uid (without_password u) = id)
           then
             let p := without_password u in
             mkUserWithPassword
               (mkUser (uid p) (username p) (Some nick) (role p) (avatar p)
                  (user_created_at p))
               (password u)
           else u) <$> users t) t.

Definition handleChangePassword (request : Request) (now : Z) : Handler Response :=
  userId ← validateSession request now;
  match truthy userId with
  | None => mret (failure 401 "Unauthorized")
  | Some userId =>
      parsed ← json request;
      match parsed with
      | ChangePasswordRequest old_password new_password =>
          user ← query (select_user_row userId);
          match user with
          | None => throw TypeError
          | Some user =>
              if negb (verifyPassword old_password (password user))
              then mret (failure 400 "旧密码错误")
              else
                exec (update_password userId (hashPassword new_password));;
                mret (ok None)
          end
      | _ => undescribed
      end
  end.

(** The nickname is spliced with its apostrophes doubled: the statement
    stores it as it is. *)
Definition handleChangeNickname (request : Request) (now : Z) : Handler Response :=
  userId ← validateSession request now;
  match truthy userId with
  | None => mret (failure 401 "Unauthorized")
  | Some userId =>
      parsed ← json request;
      match parsed with
      | ChangeNicknameRequest nickname =>
          exec (update_nickname userId nickname);;
          mret (ok None)
      | _ => undescribed
      end
  end.

(** [str.split(sep)] for a separator of one character *)
Fixpoint split (sep : ascii) (s : string) : list string :=
  match s with
  | EmptyString => [EmptyString]
  | String a s =>
      if Ascii.eqb a sep then EmptyString :: split sep s
      else match split sep s with
           | part :: parts => String a part :: parts
           | [] => [String a EmptyString]
           end
  end.

(** [path.split("/")[3]], as a template literal shows it *)
Definition path_roomId (path : string) : string :=
  default "undefined" (split "/" path !! 3%nat).

Definition onRequest (request : Request) (now : Z) (fresh : string) : Handler Response :=
  let path := pathname request in
  if bool_decide (path = "/api/login") && bool_decide (method request = "POST")
  then handleLogin request now fresh
  else if bool_decide (path = "/api/users") && bool_decide (method request = "GET")
  then handleGetUsers request now
  else if bool_decide (path = "/api/users") && bool_decide (method request = "POST")
  then handleCreateUser request now fresh
  else if bool_decide (path = "/api/rooms") && bool_decide (method request = "GET")
  then handleGetRooms request now
  else if bool_decide (path = "/api/rooms") && bool_decide (method request = "POST")
  then handleCreateRoom request now fresh
  else if String.prefix "/api/rooms/" path && bool_decide (method request = "GET")
  then handleGetRoomMessages (path_roomId path) request now
  else if String.prefix "/api/rooms/" path && bool_decide (method request = "DELETE")
  then handleDeleteRoom (path_roomId path) request now
  else if bool_decide (path = "/api/messages") && bool_decide (method request = "POST")
  then handleSendMessage request now fresh
  else if bool_decide (path = "/api/change-password")
          && bool_decide (method request = "POST")
  then handleChangePassword request now
  else if bool_decide (path = "/api/change-nickname")
          && bool_decide (method request = "POST")
  then handleChangeNickname request now
  else mret (failure 404 "Not found").

(** *** [onStart] *)

(** [adminId] and [configId] are the values of the two calls of
    [generateId]. *)
Definition createDefaultData (adminId configId : string) (now : Z) : Handler () :=
  adminExists ← query (select_by_username "admin");
  match adminExists with
  | [] =>
      insert_user
        (mkUserWithPassword (mkUser adminId "admin" None "admin" None now)
           (hashPassword (code_units "admin123")))
  | _ :: _ => mret ()
  end;;
  botExists ← query (select_user_row "bot");
  match botExists with
  | None =>
      insert_user
        (mkUserWithPassword (mkUser "bot" "AI助手" None "user" (Some "🤖") now) EmptyString)
  | Some _ => mret ()
  end;;
  configExists ← query bot_config;
  match configExists with
  | [] =>
      apiKey ← ask (validApiKey ∘ state_of);
      apiKey ← spliced apiKey;
      insert_bot_config (mkBotConfig configId apiKey 1 now)
  | _ :: _ => mret ()
  end.

(** The [CREATE TABLE IF NOT EXISTS] statements and the migration leave
    tables that exist with these columns as they are. *)
Definition initializeDatabase (adminId configId : string) (now : Z) : Handler () :=
  createDefaultData adminId configId now.

End Http.

(** ** Runs of the server *)
Module Runs.
Import Server.

(** What reaches the liveness of one connection: its [ping] and
    [heartbeat] frames, and the sweeps of the monitor. *)
Inductive Signal :=
  | Ping (timestamp now : Z)
  | Heartbeat (now : Z)
  | Sweep (now : Z).

Definition signal (i : nat) (s : Signal) (srv : State) : State :=
  match s with
  | Ping timestamp now => handlePing i timestamp now srv
  | Heartbeat now => handleHeartbeat i now srv
  | Sweep now => heartbeatCheck now srv
  end.

Definition signals (i : nat) (l : list Signal) (srv : State) : State :=
  foldl (λ srv s, signal i s srv) srv l.

(** Every sweep comes no later than [HEARTBEAT_TIMEOUT] after the frame
    before it ([last] is the time of the last frame so far). *)
Fixpoint timely (last : Z) (l : list Signal) : Prop :=
  match l with
  | [] => True
  | Ping _ now :: l | Heartbeat now :: l => timely now l
  | Sweep now :: l => now - last ≤ HEARTBEAT_TIMEOUT ∧ timely last l
  end.

(** The time of the last frame *)
Fixpoint last_signal (last : Z) (l : list Signal) : Z :=
  match l with
  | [] => last
  | Ping _ now :: l | Heartbeat now :: l => last_signal now l
  | Sweep _ :: l => last_signal last l
  end.

(** The replies: one [pong] for each [ping], with the time of the server *)
Definition pongs (l : list Signal) : list WSMessage :=
  omap (λ s, match s with Ping _ now => Some (pong now) | _ => None end) l.

(** The rooms an attachment lists: [joinedRooms] or [subscribedRooms] *)
Definition rooms_of (a : ConnectionAttachment) : list string :=
  match a with
  | UserAttachment _ joinedRooms _ => joinedRooms
  | BotAttachment _ subscribedRooms _ => subscribedRooms
  end.

(** A frame none of whose identifiers holds an apostrophe *)
Definition plain (parsed : Inbound) : Prop :=
  match parsed with
  | In_auth_user session => sql_quote_free session = true
  | In_join_room room => sql_quote_free room = true
  | In_sync_request last_message_id =>
      from_option (λ id, sql_quote_free id = true) True last_message_id
  | In_message_ack message_id _ => sql_quote_free message_id = true
  | In_send_message room _ external =>
      sql_quote_free room = true ∧ sql_quote_free (default EmptyString external) = true
  | In_message (Some (room, _)) => sql_quote_free room = true
  | _ => True
  end.

(** The room a message of a bot is sent to *)
Definition addressed (parsed : Inbound) : option string :=
  match parsed with
  | In_send_message room _ _ | In_message (Some (room, _)) => Some room
  | _ => None
  end.

(** No attachment lists a room twice. *)
Definition no_room_twice (srv : State) : Prop :=
  ∀ i a, deserializeAttachment i srv = Some a → NoDup (rooms_of a).

(** Who is sent the presence of user [u]: the live connections of other
    users *)
Definition hears_of (u : string) (c : Connection) : bool :=
  negb (closed c) &&
  match attachment c with
  | Some (UserAttachment v _ _) => bool_decide (v ≠ u)
  | _ => false
  end.

(** The attachments, by connection *)
Definition attachments (srv : State) : list (option ConnectionAttachment) :=
  attachment <$> connections srv.

(** Who is sent a message of room [R]: the live connections of its members *)
Definition reads (db : Store) (R : string) (c : Connection) : bool :=
  negb (closed c) &&
  match attachment c with
  | Some (UserAttachment u _ _) => bool_decide (u ∈ select_room_members db R)
  | _ => false
  end.

#[export] Instance Source_eq_dec : EqDecision Source.
Proof. solve_decision. Defined.

(** The record sent for an author id: the static record of the bot for
    [bot]; otherwise the first row of [users] that carries the id *)
Definition author_record (db : Store) (now : Z) (author : string) (u : User) : Prop :=
  (author = "bot" ∧ u = bot_user now) ∨
  (author ≠ "bot" ∧
   ∃ before after,
     Server.users db = before ++ u :: after ∧ uid u = author ∧
     ∀ v, v ∈ before → uid v ≠ author).

(** The state a call leaves, whether it returned or threw *)
Definition left_by (completion : Completion) : State :=
  match completion with
  | Completes srv | Throws srv => srv
  end.

(** A live connection of a bot *)
Definition live_bot (c : Connection) : bool :=
  negb (closed c) &&
  match attachment c with
  | Some (BotAttachment _ _ _) => true
  | _ => false
  end.

End Runs.

(** ** Sessions over HTTP *)
Module Sessions.
Import Server Http.

(** The request carries [token] as its bearer. *)
Definition presents (request : Request) (token : string) : Prop :=
  Authorization request = Some ("Bearer " +:+ token).

(** The request is made by user [userId]: the bearer it carries names a
    session of [userId] that has not expired at [now]. *)
Definition signed_in (request : Request) (now : Z) (t : Tables) (userId : string)
  : Prop :=
  ∃ token session rest,
    presents request token ∧ sql_quote_free token = true ∧
    select_sessions (store_of t) token now = session :: rest ∧
    session_user_id session = userId ∧ userId ≠ EmptyString.

(** The request carries no bearer that names a session. *)
Definition signed_out (request : Request) (now : Z) (t : Tables) : Prop :=
  ∀ token, presents request token →
    sql_quote_free token = true ∧ select_sessions (store_of t) token now = [].

End Sessions.

(** ** Runs of the hook *)
Module HookRuns.
Import Hook.

(** What an event does to the rooms the hook tracks: a [room_joined] frame
    adds its room (the rooms are a [Set]), a [room_left] frame removes it. *)
Definition rooms_after (e : Event) (rooms : list string) : list string :=
  match e with
  | SocketMessage _ (room_joined R) =>
      if bool_decide (R ∈ rooms) then rooms else rooms ++ [R]
  | SocketMessage _ (room_left R) => filter (λ r, r ≠ R) rooms
  | _ => rooms
  end.

End HookRuns.

(** ** Properties of the server *)
Section ServerProperties.
Import Server Runs.

Lemma lookup_for_each_socket body srv i :
  connections (for_each_socket body srv) !! i
  = (λ c, if closed c then c else body c) <$> connections srv !! i.
Proof. unfold for_each_socket. simpl. apply list_lookup_fmap. Qed.

Lemma lookup_on_connection f srv i c :
  connections srv !! i = Some c →
  connections (on_connection i f srv) !! i = Some (f c).
Proof.
  intros Hc. unfold on_connection. simpl.
  rewrite list_lookup_alter_eq, Hc. reflexivity.
Qed.

Lemma lookup_on_connection_ne f srv i j :
  i ≠ j → connections (on_connection i f srv) !! j = connections srv !! j.
Proof. intros Hne. unfold on_connection. simpl. by apply list_lookup_alter_ne. Qed.

Lemma storage_on_connection f srv i : storage (on_connection i f srv) = storage srv.
Proof. reflexivity. Qed.

Lemma sql_text_quote_free s : sql_quote_free s = true → sql_text s = Some s.
Proof. intros H. unfold sql_text. by rewrite H. Qed.

(** A value without apostrophe leaves the statement as it is written. *)
Lemma statement_quote_free {A R} (columns : string → option (Column A)) value text
  (written : R) read :
  sql_quote_free value = true →
  statement columns value text written read = Some (Runs written).
Proof. intros H. unfold statement. by rewrite H. Qed.

Lemma elem_of_select_room_members db room user :
  user ∈ select_room_members db room ↔ isMember db room user.
Proof.
  unfold select_room_members, isMember. rewrite list_elem_of_fmap. split.
  - intros (m & -> & Hm). apply list_elem_of_filter in Hm as [Hr Hm]. eauto.
  - intros (m & Hm & Hr & Hu). exists m. split; [done|].
    apply list_elem_of_filter. auto.
Qed.

(** C1. Broadcast asymmetry. When [broadcastToRoom] routes a new message
    of room [R], every live connection authenticated as a user who is a
    persistent member of [R] is sent the [new_message] event as it is, and
    no other user connection is sent anything; every live connection
    authenticated as a bot is sent the message, whatever its
    [subscribedRooms] and whatever [R], exactly when the origin of the
    message is [user], and then as the envelope
    [{type: "message", message: {room_id, user_id, content, timestamp}}];
    a message of bot origin reaches no bot connection. *)
Theorem broadcast_asymmetry (srv : State) (R : string) (m : Message) (u : User) :
  sql_quote_free R = true →
  ∃ srv',
    broadcastToRoom R (new_message m u) srv = Some srv' ∧
    storage srv' = storage srv ∧
    ∀ i c, connections srv !! i = Some c →
      ∃ c', connections srv' !! i = Some c' ∧
        attachment c' = attachment c ∧ closed c' = closed c ∧
        (closed c = true → outbox c' = outbox c) ∧
        (closed c = false →
         match attachment c with
         | Some (UserAttachment userId _ _) =>
             (isMember (storage srv) R userId →
              outbox c' = outbox c ++ [new_message m u]) ∧
             (¬ isMember (storage srv) R userId → outbox c' = outbox c)
         | Some (BotAttachment _ subscribedRooms _) =>
             (source m = Some SrcUser →
              outbox c' = outbox c
                ++ [plugin_message R (user_id m) (content m) (created_at m)]) ∧
             (source m ≠ Some SrcUser → outbox c' = outbox c)
         | None => outbox c' = outbox c
         end).
Proof.
  intros HR. unfold broadcastToRoom. rewrite (sql_text_quote_free _ HR). simpl.
  eexists. split; [reflexivity|]. split; [reflexivity|].
  intros i c Hc. rewrite lookup_for_each_socket, Hc. simpl.
  eexists. split; [reflexivity|].
  destruct (closed c) eqn:Hcl.
  { rewrite Hcl. repeat split; done. }
  destruct (attachment c) as [[userId rooms t|botId rooms t]|] eqn:Ha.
  - case_bool_decide as Hmem;
      rewrite elem_of_list_to_set, elem_of_select_room_members in Hmem;
      simpl; rewrite ?Ha, ?Hcl; repeat split; try done; intros; tauto.
  - destruct (source m) as [[|]|] eqn:Hs; simpl; rewrite ?Ha, ?Hcl;
      repeat split; try done; intros; congruence.
  - simpl. rewrite Ha, Hcl. repeat split; done.
Qed.

Lemma broadcast_asymmetry_witness :
  ∃ srv',
    broadcastToRoom "r1" (new_message
        (mkMessage "m1" "r1" "A" "hi" "text" 7 (Some SrcUser) None None)
        (mkUser "A" "alice" None "user" None 1))
      (mkState (mkStore [] [] [mkRoomMember "r1" "A" 1] [] [])
         [mkConnection (Some (UserAttachment "A" [] 5)) [] false;
          mkConnection (Some (BotAttachment "bot" [] 5)) [] false] None)
    = Some srv' ∧
    outbox <$> connections srv' !! 1%nat
    = Some [plugin_message "r1" "A" "hi" 7].
Proof.
  destruct (broadcast_asymmetry
      (mkState (mkStore [] [] [mkRoomMember "r1" "A" 1] [] [])
         [mkConnection (Some (UserAttachment "A" [] 5)) [] false;
          mkConnection (Some (BotAttachment "bot" [] 5)) [] false] None)
      "r1" (mkMessage "m1" "r1" "A" "hi" "text" 7 (Some SrcUser) None None)
      (mkUser "A" "alice" None "user" None 1) eq_refl)
    as (srv' & Hrun & _ & Hconn).
  exists srv'. split; [exact Hrun|].
  destruct (Hconn 1%nat _ eq_refl) as (c' & Hc' & _ & _ & _ & Hout).
  rewrite Hc'. simpl. f_equal.
  destruct (Hout eq_refl) as [Huser _]. exact (Huser eq_refl).
Defined.

(** C2, as stated, fails: a connection that has not authenticated receives a
    ping at time 0 and is swept at time 100000; more than the timeout has
    passed since its last liveness signal, and the sweep leaves it open. *)
Lemma sweep_spares_unauthenticated :
  ¬ (closed <$>
       connections
         (heartbeatCheck 100000
            (handlePing 0 0 0 (mkState (mkStore [] [] [] [] []) [fresh_connection] None)))
       !! 0%nat = Some true
     ↔ HEARTBEAT_TIMEOUT < 100000 - 0).
Proof. vm_compute. intros [_ H]. discriminate (H eq_refl). Qed.

(** C2, amended. The monitor runs every 30000 ms and, for every live
    connection that has authenticated (as a user or as a bot), closes it
    exactly when [now - lastPing] exceeds the 60000 ms timeout at a sweep;
    a connection without attachment is not closed by the sweep. A ping or a
    heartbeat frame received on an authenticated connection sets its
    [lastPing] to the time of receipt. *)
Theorem liveness_sweep (srv : State) (i : nat) (c : Connection) (now : Z) :
  connections srv !! i = Some c →
  closed c = false →
  (∃ c', connections (heartbeatCheck now srv) !! i = Some c' ∧
     attachment c' = attachment c ∧ outbox c' = outbox c ∧
     (closed c' = true ↔
      ∃ a, attachment c = Some a ∧ HEARTBEAT_TIMEOUT < now - lastPing a)) ∧
  (∀ a timestamp, attachment c = Some a →
     deserializeAttachment i (handlePing i timestamp now srv)
       = Some (set_lastPing now a) ∧
     deserializeAttachment i (handleHeartbeat i now srv)
       = Some (set_lastPing now a) ∧
     lastPing (set_lastPing now a) = now) ∧
  (∀ start k,
     startHeartbeatCheck start (S k) - startHeartbeatCheck start k
       = HEARTBEAT_INTERVAL) ∧
  HEARTBEAT_INTERVAL = 30000 ∧ HEARTBEAT_TIMEOUT = 60000.
Proof.
  intros Hc Hopen. repeat split.
  - unfold heartbeatCheck. rewrite lookup_for_each_socket, Hc. simpl.
    rewrite Hopen. destruct (attachment c) as [a|] eqn:Ha.
    + case_bool_decide as Hstale; eexists; (split; [reflexivity|]); simpl;
        rewrite ?Ha; repeat split; try done.
      * eauto.
      * rewrite Hopen. done.
      * intros (a' & [= <-] & Hlt). done.
    + eexists. split; [reflexivity|]. rewrite Ha. repeat split; try done.
      * rewrite Hopen. done.
      * intros (a' & [=] & _).
  - unfold handlePing, deserializeAttachment, on_connection. rewrite Hc. simpl.
    rewrite H. simpl. rewrite !list_lookup_alter_eq, Hc. done.
  - unfold handleHeartbeat, deserializeAttachment, on_connection. rewrite Hc.
    simpl. rewrite H. simpl. rewrite list_lookup_alter_eq, Hc. done.
  - destruct a; done.
  - intros start k. unfold startHeartbeatCheck. lia.
Qed.

Lemma liveness_sweep_witness :
  ∃ c', connections
          (heartbeatCheck 70000
             (mkState (mkStore [] [] [] [] [])
                [mkConnection (Some (UserAttachment "A" [] 5)) [] false] None))
          !! 0%nat = Some c' ∧
        closed c' = true.
Proof.
  destruct (liveness_sweep
      (mkState (mkStore [] [] [] [] [])
         [mkConnection (Some (UserAttachment "A" [] 5)) [] false] None)
      0%nat _ 70000 eq_refl eq_refl) as ((c' & Hc' & _ & _ & Hiff) & _).
  exists c'. split; [exact Hc'|].
  apply Hiff. eexists. split; [reflexivity|]. vm_compute. reflexivity.
Defined.

(** C5, on the code. A connection that has not authenticated sends an
    [auth] frame whose [session_id] is [' OR '1'='1], at time 50. The store
    holds one session, [s1] of user [A], which expires at 100: the token
    sent is the identifier of no session. The condition of the statement
    reads [id = '' OR '1'='1' AND expires_at > 50] and selects [s1]: the
    connection is answered [auth_success] and is attached to [A], where the
    claim has [auth_error] and no attachment. *)
Lemma forged_session_token_is_accepted :
  let db := mkStore [mkUser "A" "alice" None "user" None 1] [] []
              [mkSession "s1" "A" 0 100] [] in
  ¬ valid_session db "' OR '1'='1" 50 ∧
  onMessage 0 (Some (In_auth_user "' OR '1'='1")) 50 "id"
    (mkState db [fresh_connection] None)
  = Some (mkState db
            [mkConnection (Some (UserAttachment "A" [] 50)) [auth_success (Some "A")]
               false] None).
Proof.
  split; [|vm_compute; reflexivity].
  intros (s & Hs & Hid & _). apply list_elem_of_singleton in Hs. subst s.
  discriminate Hid.
Qed.

(** X27. Authentication error paths, for a session token that holds no
    apostrophe. An [auth] frame with such a token that is unknown or expired
    is answered with [auth_error]; the attachment of the connection is left
    as it was (none, on a connection that has not authenticated) and the
    connection is not closed. An [auth] frame with an API key that differs
    from the configured one is answered with [auth_error] and the connection
    is closed. Nothing else changes. *)
Theorem auth_error_paths (srv : State) (i : nat) (c : Connection) (now : Z) :
  connections srv !! i = Some c →
  (∀ sessionId,
     sql_quote_free sessionId = true →
     ¬ valid_session (storage srv) sessionId now →
     ∃ srv', handleUserAuth i sessionId now srv = Some (Completes srv') ∧
       storage srv' = storage srv ∧
       connections srv' !! i
         = Some (mkConnection (attachment c)
                   (outbox c ++ [auth_error "Invalid session"]) (closed c)) ∧
       ∀ j, j ≠ i → connections srv' !! j = connections srv !! j) ∧
  (∀ apiKey,
     apiKey ≠ validApiKey srv →
     storage (handleBotAuth i apiKey now srv) = storage srv ∧
     connections (handleBotAuth i apiKey now srv) !! i
       = Some (mkConnection (attachment c)
                 (outbox c ++ [auth_error "Invalid API key"]) true) ∧
     ∀ j, j ≠ i →
       connections (handleBotAuth i apiKey now srv) !! j = connections srv !! j).
Proof.
  intros Hc. split.
  - intros sessionId Hq Hinvalid. unfold handleUserAuth.
    rewrite (statement_quote_free _ _ _ _ _ Hq). simpl.
    destruct (select_sessions (storage srv) sessionId now) as [|s rest] eqn:Hsel.
    + eexists. split; [reflexivity|]. split; [reflexivity|]. split.
      * by erewrite lookup_on_connection by exact Hc.
      * intros j Hj. by apply lookup_on_connection_ne.
    + exfalso. apply Hinvalid. exists s.
      assert (Hs : s ∈ select_sessions (storage srv) sessionId now)
        by (rewrite Hsel; left).
      unfold select_sessions in Hs. apply list_elem_of_filter in Hs. tauto.
  - intros apiKey Hkey. unfold handleBotAuth.
    rewrite bool_decide_true by done. split; [reflexivity|]. split.
    + erewrite lookup_on_connection;
        [|by erewrite lookup_on_connection by exact Hc]. done.
    + intros j Hj. by rewrite !lookup_on_connection_ne.
Qed.

Lemma auth_error_paths_witness :
  let srv := mkState (mkStore [mkUser "A" "alice" None "user" None 1] [] []
                        [mkSession "s1" "A" 0 100] [])
               [fresh_connection] None in
  (∃ srv',
     handleUserAuth 0 "s1" 200 srv = Some (Completes srv') ∧
     connections srv' !! 0%nat
     = Some (mkConnection None [auth_error "Invalid session"] false)) ∧
  connections (handleBotAuth 0 "wrong" 200 srv) !! 0%nat
  = Some (mkConnection None [auth_error "Invalid API key"] true).
Proof.
  cbv zeta.
  destruct (auth_error_paths
      (mkState (mkStore [mkUser "A" "alice" None "user" None 1] [] []
                  [mkSession "s1" "A" 0 100] [])
         [fresh_connection] None)
      0%nat fresh_connection 200 eq_refl) as [Huser Hbot].
  split.
  - destruct (Huser "s1" eq_refl) as (srv' & Hrun & _ & Hi & _).
    + intros (s & Hs & _ & Hlive). apply list_elem_of_singleton in Hs. subst s.
      simpl in Hlive. lia.
    + exists srv'. split; [exact Hrun|exact Hi].
  - destruct (Hbot "wrong") as (_ & Hi & _); [vm_compute; discriminate|].
    exact Hi.
Defined.

Lemma acknowledge_other message_id m : mid m ≠ message_id → acknowledge message_id m = m.
Proof. intros H. unfold acknowledge. by rewrite bool_decide_false. Qed.

Lemma acknowledge_done message_id m :
  acknowledged m = Some 1 → acknowledge message_id m = m.
Proof.
  intros H. unfold acknowledge. case_bool_decide; [|done].
  destruct m; simpl in *. by subst.
Qed.

Lemma acknowledge_twice message_id m :
  acknowledge message_id (acknowledge message_id m) = acknowledge message_id m.
Proof. unfold acknowledge. repeat case_bool_decide; simpl in *; done. Qed.

Lemma fmap_id_on {A} (f : A → A) (l : list A) :
  (∀ x, x ∈ l → f x = x) → f <$> l = l.
Proof.
  induction l as [|x l IH]; intros H; [done|]. csimpl.
  rewrite H by left. rewrite IH; [done|]. intros y Hy. apply H. by right.
Qed.

(** C8, on the code. The store holds the messages [m1] and [m2], not
    acknowledged. A frame [message_ack] whose [message_id] is
    [x' OR '1'='1], the identifier of no message, makes the condition of the
    [UPDATE] read [id = 'x' OR '1'='1']: both messages are acknowledged,
    where the claim has the store unchanged. A frame whose [message_id] is
    one apostrophe leaves a string literal open: [exec] throws and the
    [catch] of [onMessage] answers with an [error] frame, where the claim
    has no reply. *)
Lemma forged_message_id_is_acknowledged :
  let m1 := mkMessage "m1" "r1" "A" "hi" "text" 7 (Some SrcUser) None in
  let m2 := mkMessage "m2" "r1" "B" "yo" "text" 8 (Some SrcUser) None in
  let store rows := mkStore [] rows [] [] [] in
  let srv := mkState (store [m1 (Some 0); m2 (Some 0)]) [fresh_connection] None in
  (∀ m, m ∈ messages (storage srv) → mid m ≠ "x' OR '1'='1") ∧
  onMessage 0 (Some (In_message_ack "x' OR '1'='1" "read")) 9 "id" srv
  = Some (mkState (store [m1 (Some 1); m2 (Some 1)]) [fresh_connection] None) ∧
  onMessage 0 (Some (In_message_ack "'" "read")) 9 "id" srv
  = Some (mkState (store [m1 (Some 0); m2 (Some 0)])
            [mkConnection None [error "Invalid message format"] false] None).
Proof.
  split; [|split; vm_compute; reflexivity].
  intros m Hm. cbv zeta in Hm. simpl in Hm.
  apply elem_of_cons in Hm as [->|Hm]; [discriminate|].
  apply list_elem_of_singleton in Hm as ->. discriminate.
Qed.

(** X28. [message_ack] is one-way and idempotent, for a message identifier
    that holds no apostrophe. The handler sends no frame to any connection
    (no reply, no broadcast) and changes no attachment; acknowledging an
    identifier that no stored message carries, or one whose messages are
    already acknowledged, leaves the store as it is; and acknowledging twice
    gives the same state as acknowledging once. *)
Theorem message_ack_idempotent (srv : State) (i : nat) (messageId status : string) :
  sql_quote_free messageId = true →
  ∃ srv',
    handleMessageAck i messageId status srv = Some (Completes srv') ∧
    connections srv' = connections srv ∧
    ((∀ m, m ∈ messages (storage srv) → mid m ≠ messageId) → srv' = srv) ∧
    ((∀ m, m ∈ messages (storage srv) → mid m = messageId →
           acknowledged m = Some 1) → srv' = srv) ∧
    ∀ j status', handleMessageAck j messageId status' srv' = Some (Completes srv').
Proof.
  intros Hq. unfold handleMessageAck.
  rewrite !(statement_quote_free _ _ _ _ _ Hq). simpl.
  eexists. split; [reflexivity|]. split; [reflexivity|].
  unfold with_storage, update_acknowledged, store_with_messages. simpl.
  destruct srv as [[us ms rs ss rms] cs key]. simpl. repeat split.
  - intros Hnone. rewrite fmap_id_on; [done|].
    intros m Hm. apply acknowledge_other. auto.
  - intros Hdone. rewrite fmap_id_on; [done|].
    intros m Hm. destruct (decide (mid m = messageId)) as [Heq|Hne].
    + apply acknowledge_done. auto.
    + by apply acknowledge_other.
  - intros _ _. rewrite (statement_quote_free _ _ _ _ _ Hq). simpl.
    unfold with_storage, update_acknowledged, store_with_messages. simpl.
    do 4 f_equal. rewrite <- list_fmap_compose.
    apply list_fmap_ext. intros k m _. apply acknowledge_twice.
Qed.

Lemma message_ack_idempotent_witness :
  ∃ srv',
    handleMessageAck 0 "m1" "read"
      (mkState
         (mkStore [] [mkMessage "m1" "r1" "A" "hi" "text" 7 (Some SrcUser) None (Some 0)]
            [] [] [])
         [fresh_connection] None) = Some (Completes srv') ∧
    handleMessageAck 0 "m1" "delivered" srv' = Some (Completes srv').
Proof.
  destruct (message_ack_idempotent
      (mkState
         (mkStore [] [mkMessage "m1" "r1" "A" "hi" "text" 7 (Some SrcUser) None (Some 0)]
            [] [] [])
         [fresh_connection] None) 0%nat "m1" "read" eq_refl)
    as (srv' & Hrun & _ & _ & _ & Hagain).
  exists srv'. split; [exact Hrun|]. apply Hagain.
Defined.



(** *** Sorting, paging and distinct authors *)

#[local] Instance created_asc_trans : Transitive created_asc.
Proof. intros a b c. unfold created_asc. lia. Qed.
#[local] Instance created_asc_total : Total created_asc.
Proof. intros a b. unfold created_asc. lia. Qed.
#[local] Instance created_desc_trans : Transitive created_desc.
Proof. intros a b c. unfold created_desc. lia. Qed.
#[local] Instance created_desc_total : Total created_desc.
Proof. intros a b. unfold created_desc. lia. Qed.

Lemma insert_by_Permutation {A} (R : relation A) `{!RelDecision R} (x : A) (l : list A) :
  insert_by R x l ≡ₚ x :: l.
Proof.
  induction l as [|y l IH]; simpl; [done|]. case_decide; [done|].
  rewrite IH. apply Permutation_swap.
Qed.

Lemma order_by_Permutation {A} (R : relation A) `{!RelDecision R} (l : list A) :
  order_by R l ≡ₚ l.
Proof.
  induction l as [|x l IH]; [done|]. unfold order_by in *. simpl.
  rewrite insert_by_Permutation. by f_equiv.
Qed.

Lemma StronglySorted_insert_by {A} (R : relation A)
  `{!RelDecision R, !Transitive R, !Total R} (x : A) (l : list A) :
  StronglySorted R l → StronglySorted R (insert_by R x l).
Proof.
  induction 1 as [|y l Hl IH Hy]; simpl; [by repeat constructor|].
  case_decide as Hxy.
  - constructor; [by constructor|]. constructor; [done|].
    apply (list.Forall_impl _ _ _ Hy). intros z Hz. by transitivity y.
  - constructor; [exact IH|].
    rewrite (insert_by_Permutation R x l). constructor; [|done].
    by destruct (total R x y).
Qed.

Lemma StronglySorted_order_by {A} (R : relation A)
  `{!RelDecision R, !Transitive R, !Total R} (l : list A) :
  StronglySorted R (order_by R l).
Proof.
  induction l as [|x l IH]; [constructor|]. by apply StronglySorted_insert_by.
Qed.

(** [ORDER BY ... LIMIT n] returns the [n] first rows of the order, and
    leaves behind rows that come no earlier. *)
Lemma order_limit {A} (R : relation A) `{!RelDecision R, !Transitive R, !Total R}
  (n : nat) (l : list A) :
  let page := take n (order_by R l) in
  let rest := drop n (order_by R l) in
  page ++ rest ≡ₚ l ∧
  Sorted R page ∧
  (∀ a b, a ∈ page → b ∈ rest → R a b) ∧
  (length page ≤ n)%nat ∧
  (rest ≠ [] → length page = n).
Proof.
  intros page rest. subst page rest.
  pose proof (StronglySorted_order_by R l) as Hs.
  rewrite <- (take_drop n (order_by R l)) in Hs.
  repeat split.
  - rewrite take_drop. apply order_by_Permutation.
  - apply StronglySorted_Sorted. by eapply StronglySorted_app_1_l.
  - intros a b Ha Hb. by eapply StronglySorted_app_1_elem_of.
  - rewrite length_take. lia.
  - intros Hrest. rewrite length_take.
    destruct (decide (n ≤ length (order_by R l))%nat) as [|Hlt]; [lia|].
    rewrite drop_ge in Hrest by lia. done.
Qed.

Lemma Sorted_reverse_desc (l : list Message) :
  Sorted created_desc l → Sorted created_asc (reverse l).
Proof. intros H. apply (Sorted_reverse created_desc). exact H. Qed.

Lemma elem_of_distinct_from seen ids x :
  x ∈ distinct_from seen ids ↔ x ∈ ids ∧ x ∉ seen.
Proof.
  revert seen. induction ids as [|y ids IH]; intros seen; simpl.
  - split; [intros H; inversion H|intros [H _]; inversion H].
  - case_bool_decide as Hy.
    + rewrite IH, elem_of_cons. split; [tauto|].
      intros [[->|H] Hn]; [done|tauto].
    + rewrite elem_of_cons, IH, !elem_of_cons. split.
      * intros [->|[H Hn]]; [tauto|]. split; [tauto|]. tauto.
      * intros [[->|H] Hn]; [tauto|].
        destruct (decide (x = y)) as [->|Hne]; [tauto|]. right. split; [done|].
        intros [?|?]; done.
Qed.

Lemma NoDup_distinct_from seen ids : NoDup (distinct_from seen ids).
Proof.
  revert seen. induction ids as [|y ids IH]; intros seen; simpl; [constructor|].
  case_bool_decide as Hy; [apply IH|]. constructor; [|apply IH].
  rewrite elem_of_distinct_from, elem_of_cons. tauto.
Qed.

Lemma elem_of_distinct ids x : x ∈ distinct ids ↔ x ∈ ids.
Proof.
  unfold distinct. rewrite elem_of_distinct_from. split; [tauto|].
  intros H. split; [done|]. apply not_elem_of_nil.
Qed.

Lemma resolve_author_uid db now author u :
  resolve_author db now author = Some u → uid u = author.
Proof.
  unfold resolve_author, select_user. case_bool_decide as Hb.
  - intros [= <-]. by subst.
  - intros Hh. apply head_Some_elem_of in Hh.
    apply list_elem_of_filter in Hh. tauto.
Qed.

Lemma NoDup_omap_resolve db now (ids : list string) :
  NoDup ids → NoDup (uid <$> omap (resolve_author db now) ids).
Proof.
  induction 1 as [|x l Hx Hl IH]; csimpl; [constructor|].
  destruct (resolve_author db now x) as [u|] eqn:Hu; [|exact IH].
  csimpl. constructor; [|exact IH].
  rewrite (resolve_author_uid _ _ _ _ Hu).
  intros Hin. apply list_elem_of_fmap in Hin as (v & -> & Hv).
  apply list_elem_of_omap in Hv as (y & Hy & Hres).
  apply resolve_author_uid in Hres. by subst.
Qed.

(** The authors bundled with a page of messages: distinct, and exactly the
    authors of the page that resolve to a record. *)
Lemma resolve_authors_spec db now (page : list Message) :
  NoDup (uid <$> resolve_authors db now page) ∧
  ∀ u, u ∈ resolve_authors db now page
       ↔ ∃ m, m ∈ page ∧ resolve_author db now (user_id m) = Some u.
Proof.
  unfold resolve_authors. split.
  - apply NoDup_omap_resolve, NoDup_distinct_from.
  - intros u. rewrite list_elem_of_omap. split.
    + intros (a & Ha & Hres). apply elem_of_distinct, list_elem_of_fmap in Ha
        as (m & -> & Hm). eauto.
    + intros (m & Hm & Hres). exists (user_id m). split; [|done].
      apply elem_of_distinct, list_elem_of_fmap. eauto.
Qed.

Lemma select_membership_nil db room user :
  select_membership db room user = [] ↔ ¬ isMember db room user.
Proof.
  unfold select_membership, isMember. split.
  - intros Hnil (m & Hm & Hr & Hu).
    assert (H : m ∈ filter (λ m, member_room_id m = room ∧ member_user_id m = user)
                      (room_members db)) by (apply list_elem_of_filter; auto).
    rewrite Hnil in H. inversion H.
  - intros Hno.
    destruct (filter _ (room_members db)) as [|m rest] eqn:Hf; [done|].
    exfalso. apply Hno. exists m.
    assert (H : m ∈ filter (λ m, member_room_id m = room ∧ member_user_id m = user)
                      (room_members db)) by (rewrite Hf; left).
    apply list_elem_of_filter in H. tauto.
Qed.

Lemma head_filter_Some {A} (P : A → Prop) `{!∀ x, Decision (P x)} (l : list A) (x : A) :
  head (filter P l) = Some x
  ↔ ∃ before after, l = before ++ x :: after ∧ P x ∧ ∀ y, y ∈ before → ¬ P y.
Proof.
  induction l as [|y l IH].
  - split; [done|]. intros (b & a & Heq & _). by destruct b.
  - rewrite filter_cons. destruct (decide (P y)) as [Hy|Hy]; simpl.
    + split.
      * intros [= ->]. exists [], l. split; [done|]. split; [done|].
        intros ? Hin. inversion Hin.
      * intros ([|z b] & a & Heq & Hx & Hb); simplify_eq/=; [done|].
        destruct (Hb z); [left|done].
    + rewrite IH. split.
      * intros (b & a & -> & Hx & Hb). exists (y :: b), a.
        split; [done|]. split; [done|]. intros z [->|Hz]%elem_of_cons; auto.
      * intros ([|z b] & a & Heq & Hx & Hb); simplify_eq/=; [done|].
        exists b, a. split; [done|]. split; [done|].
        intros w Hw. apply Hb. by right.
Qed.

(** What [resolve_author] pushes, read off the table [users] *)
Lemma resolve_author_record db now author u :
  resolve_author db now author = Some u ↔ author_record db now author u.
Proof.
  unfold resolve_author, author_record, select_user. case_bool_decide as Hbot.
  - split; [intros [= <-]; by left|]. intros [[_ ->]|[Hne _]]; done.
  - rewrite head_filter_Some. split.
    + intros (b & a & Heq & Hu & Hb). right. split; [done|]. by exists b, a.
    + intros [[Hb _]|(_ & b & a & Heq & Hu & Hb)]; [done|]. by exists b, a.
Qed.

(** C4, on the code. User [A] is a member of room [r1] only; room [r2]
    holds a message of [B]. The connection of [A] sends [join_room] with
    the room id [x' OR '1'='1], the identifier of no room. The membership
    query reads [room_id = 'x' OR '1'='1' AND user_id = 'A'] and finds the
    membership of [A] in [r1]; the history query reads
    [room_id = 'x' OR '1'='1'] and returns the messages of every room. The
    request is not rejected: the forged id is pushed on [joinedRooms] and
    [A] is sent the message of [r2], where the claim has an [error] frame
    and the attachment unchanged. *)
Lemma forged_room_id_is_joined :
  let alice := mkUser "A" "alice" None "user" None 1 in
  let bob := mkUser "B" "bob" None "user" None 2 in
  let m1 := mkMessage "m1" "r1" "A" "hi" "text" 7 (Some SrcUser) None (Some 0) in
  let m2 := mkMessage "m2" "r2" "B" "secret" "text" 8 (Some SrcUser) None (Some 0) in
  let db := mkStore [alice; bob] [m1; m2]
              [mkRoomMember "r1" "A" 1; mkRoomMember "r2" "B" 2] []
              [mkRoom "r1" "one" "group" None 1; mkRoom "r2" "two" "group" None 2] in
  ¬ isMember db "x' OR '1'='1" "A" ∧ ¬ isMember db "r2" "A" ∧
  onMessage 0 (Some (In_join_room "x' OR '1'='1")) 9 "id"
    (mkState db [mkConnection (Some (UserAttachment "A" [] 5)) [] false] None)
  = Some (mkState db
            [mkConnection (Some (UserAttachment "A" ["x' OR '1'='1"] 5))
               [room_joined "x' OR '1'='1";
                room_messages "x' OR '1'='1" [m1; m2] [bob; alice]] false] None).
Proof.
  cbv zeta. split; [|split; [|vm_compute; reflexivity]].
  - intros (m & Hm & Hr & _). simpl in Hm.
    apply elem_of_cons in Hm as [->|Hm]; [discriminate|].
    apply list_elem_of_singleton in Hm as ->. discriminate.
  - intros (m & Hm & Hr & Hu). simpl in Hm.
    apply elem_of_cons in Hm as [->|Hm]; [discriminate|].
    apply list_elem_of_singleton in Hm as ->. discriminate.
Qed.

(** X29. A [join_room] frame from an authenticated user connection, for a
    room id that holds no apostrophe. When the identity of the connection
    is not a persistent member of the room, the request is answered with
    one [error] frame and nothing else changes: the [joinedRooms] of the
    connection are as before. When it is a member, the room is added to
    [joinedRooms] (once), [room_joined] is sent, and then a [room_messages]
    frame with the history: at most 50 messages of the room, oldest first,
    none older than a message of the room left out, together with their
    distinct authors: for the author id [bot] the static bot record,
    whatever the store holds, and for any other id the row of [users] with
    that id, when there is one. *)
Theorem join_room_history (srv : State) (i : nat) (c : Connection)
  (userId : string) (joinedRooms : list string) (ping : Z) (roomId : string) (now : Z) :
  connections srv !! i = Some c →
  attachment c = Some (UserAttachment userId joinedRooms ping) →
  sql_quote_free roomId = true →
  (¬ isMember (storage srv) roomId userId →
   ∃ srv', handleJoinRoom i roomId now srv = Some (Completes srv') ∧
     storage srv' = storage srv ∧
     connections srv' !! i
       = Some (mkConnection (Some (UserAttachment userId joinedRooms ping))
                 (outbox c ++ [error "Not a member of this room"]) (closed c)) ∧
     ∀ j, j ≠ i → connections srv' !! j = connections srv !! j) ∧
  (isMember (storage srv) roomId userId →
   ∃ srv' history authors older,
     handleJoinRoom i roomId now srv = Some (Completes srv') ∧
     storage srv' = storage srv ∧
     connections srv' !! i
       = Some (mkConnection
                 (Some (UserAttachment userId
                          (if bool_decide (roomId ∈ joinedRooms) then joinedRooms
                           else joinedRooms ++ [roomId]) ping))
                 (outbox c ++ [room_joined roomId; room_messages roomId history authors])
                 (closed c)) ∧
     (∀ j, j ≠ i → connections srv' !! j = connections srv !! j) ∧
     (length history ≤ 50)%nat ∧
     Sorted created_asc history ∧
     older ++ history ≡ₚ filter (λ m, room_id m = roomId) (messages (storage srv)) ∧
     (∀ a b, a ∈ older → b ∈ history → created_at a ≤ created_at b) ∧
     (older ≠ [] → length history = 50%nat) ∧
     NoDup (uid <$> authors) ∧
     (∀ u, u ∈ authors
           ↔ ∃ m, m ∈ history ∧ author_record (storage srv) now (user_id m) u)).
Proof.
  intros Hc Ha Hq.
  assert (Hd : deserializeAttachment i srv
               = Some (UserAttachment userId joinedRooms ping))
    by (unfold deserializeAttachment; rewrite Hc; exact Ha).
  unfold handleJoinRoom. rewrite Hd. simpl.
  rewrite !(statement_quote_free _ _ _ _ _ Hq). simpl. split.
  - intros Hno. apply select_membership_nil in Hno. rewrite Hno.
    eexists. split; [reflexivity|]. split; [reflexivity|]. split.
    + erewrite lookup_on_connection by exact Hc. unfold send. simpl. by rewrite Ha.
    + intros j Hj. by apply lookup_on_connection_ne.
  - intros Hmem.
    destruct (select_membership (storage srv) roomId userId) as [|row rows] eqn:Hsel.
    { apply select_membership_nil in Hsel. done. }
    set (rows50 := order_by created_desc
                     (filter (λ m, room_id m = roomId) (messages (storage srv)))).
    destruct (order_limit created_desc 50
                (filter (λ m, room_id m = roomId) (messages (storage srv))))
      as (Hperm & Hsorted & Hle & Hlen & Hfull).
    fold rows50 in Hperm, Hsorted, Hle, Hlen, Hfull.
    assert (Hstore : ∀ f (s : State),
              storage (if bool_decide (roomId ∈ joinedRooms) then s
                       else on_connection i f s) = storage s)
      by (intros; case_bool_decide; reflexivity).
    eexists _, (reverse (take 50 rows50)),
      (resolve_authors (storage srv) now (take 50 rows50)), (reverse (drop 50 rows50)).
    rewrite ?(statement_quote_free _ _ _ _ _ Hq). simpl.
    split.
    { unfold select_recent. rewrite ?storage_on_connection, ?Hstore. reflexivity. }
    split; [by rewrite ?storage_on_connection, ?Hstore|]. split.
    { unfold on_connection. simpl. rewrite !list_lookup_alter_eq.
      case_bool_decide.
      - rewrite Hc. simpl. unfold send. simpl. rewrite Ha, <- (assoc_L (++)). done.
      - simpl. rewrite list_lookup_alter_eq, Hc. simpl. unfold send. simpl.
        rewrite <- (assoc_L (++)). done. }
    split.
    { intros j Hj. rewrite !lookup_on_connection_ne by done.
      case_bool_decide; [done|]. by rewrite lookup_on_connection_ne. }
    split; [by rewrite length_reverse|].
    split; [by apply Sorted_reverse_desc|].
    split.
    { rewrite <- Hperm, !reverse_Permutation. apply Permutation_app_comm. }
    split.
    { intros a b Ha' Hb. rewrite elem_of_reverse in Ha'. rewrite elem_of_reverse in Hb.
      exact (Hle b a Hb Ha'). }
    split.
    { intros Hold. rewrite length_reverse. apply Hfull. intros Hnil.
      apply Hold. rewrite Hnil. reflexivity. }
    destruct (resolve_authors_spec (storage srv) now (take 50 rows50)) as [Hnd Hin].
    split; [exact Hnd|].
    intros u. rewrite Hin. split; intros (m & Hm & Hr); exists m;
      (split; [by apply elem_of_reverse|]); by apply resolve_author_record.
Qed.

Lemma join_room_history_witness :
  (∃ srv',
     handleJoinRoom 0 "r2" 9
       (mkState (mkStore [] [] [mkRoomMember "r1" "A" 1] [] [])
          [mkConnection (Some (UserAttachment "A" [] 5)) [] false] None)
     = Some (Completes srv') ∧
     connections srv' !! 0%nat
     = Some (mkConnection (Some (UserAttachment "A" [] 5))
               [error "Not a member of this room"] false)) ∧
  (∃ srv',
     handleJoinRoom 0 "r1" 9
       (mkState
          (mkStore [mkUser "A" "alice" None "user" None 1]
             [mkMessage "m2" "r1" "bot" "ok" "text" 8 (Some SrcBot) None (Some 0);
              mkMessage "m1" "r1" "A" "hi" "text" 7 (Some SrcUser) None (Some 0);
              mkMessage "m3" "r2" "B" "no" "text" 6 (Some SrcUser) None (Some 0)]
             [mkRoomMember "r1" "A" 1] [] [])
          [mkConnection (Some (UserAttachment "A" [] 5)) [] false] None)
     = Some (Completes srv') ∧
     connections srv' !! 0%nat
     = Some (mkConnection (Some (UserAttachment "A" ["r1"] 5))
               [room_joined "r1";
                room_messages "r1"
                  [mkMessage "m1" "r1" "A" "hi" "text" 7 (Some SrcUser) None (Some 0);
                   mkMessage "m2" "r1" "bot" "ok" "text" 8 (Some SrcBot) None (Some 0)]
                  [bot_user 9; mkUser "A" "alice" None "user" None 1]]
               false)).
Proof.
  split.
  - destruct (join_room_history
        (mkState (mkStore [] [] [mkRoomMember "r1" "A" 1] [] [])
           [mkConnection (Some (UserAttachment "A" [] 5)) [] false] None)
        0%nat _ "A" [] 5 "r2" 9 eq_refl eq_refl eq_refl) as [Hreject _].
    destruct Hreject as (srv' & Hrun & _ & Hi & _).
    + intros (m & Hm & Hr & _). apply list_elem_of_singleton in Hm. subst m.
      discriminate Hr.
    + exists srv'. split; [exact Hrun|exact Hi].
  - destruct (join_room_history
        (mkState
           (mkStore [mkUser "A" "alice" None "user" None 1]
              [mkMessage "m2" "r1" "bot" "ok" "text" 8 (Some SrcBot) None (Some 0);
               mkMessage "m1" "r1" "A" "hi" "text" 7 (Some SrcUser) None (Some 0);
               mkMessage "m3" "r2" "B" "no" "text" 6 (Some SrcUser) None (Some 0)]
              [mkRoomMember "r1" "A" 1] [] [])
           [mkConnection (Some (UserAttachment "A" [] 5)) [] false] None)
        0%nat _ "A" [] 5 "r1" 9 eq_refl eq_refl eq_refl) as [_ Hjoin].
    destruct Hjoin as (srv' & history & authors & older & Hrun & _).
    + exists (mkRoomMember "r1" "A" 1). split; [left|]. by split.
    + exists srv'. split; [exact Hrun|].
      vm_compute in Hrun. injection Hrun as <-. reflexivity.
Defined.

Lemma elem_of_select_rooms_of db user room :
  room ∈ select_rooms_of db user ↔ isMember db room user.
Proof.
  unfold select_rooms_of, isMember. rewrite list_elem_of_fmap. split.
  - intros (m & -> & Hm). apply list_elem_of_filter in Hm as [Hu Hm]. eauto.
  - intros (m & Hm & Hr & Hu). exists m. split; [done|].
    apply list_elem_of_filter. auto.
Qed.

Lemma select_message_None db message_id :
  select_message db message_id = None ↔ ∀ m, m ∈ messages db → mid m ≠ message_id.
Proof.
  unfold select_message. rewrite head_None. split.
  - intros Hnil m Hm Heq.
    assert (H : m ∈ filter (λ m, mid m = message_id) (messages db))
      by (apply list_elem_of_filter; auto).
    rewrite Hnil in H. inversion H.
  - intros Hno. destruct (filter _ (messages db)) as [|m rest] eqn:Hf; [done|].
    assert (H : m ∈ filter (λ m, mid m = message_id) (messages db))
      by (rewrite Hf; left).
    apply list_elem_of_filter in H as [Heq Hm]. by destruct (Hno m Hm).
Qed.

Lemma select_message_Some db message_id m :
  select_message db message_id = Some m → m ∈ messages db ∧ mid m = message_id.
Proof.
  unfold select_message. intros H. apply head_Some_elem_of in H.
  apply list_elem_of_filter in H. tauto.
Qed.

(** C3, on the code. User [A] is a member of room [r1], which holds one
    message, [m1]. A [sync_request] without [last_message_id] is answered
    with [m1]. A [sync_request] whose [last_message_id] is [x' OR '1'='1],
    the identifier of no message, makes the condition of the lookup read
    [id = 'x' OR '1'='1']: the lookup returns [m1], its [created_at] becomes
    the bound, and the response is empty, where the claim has no filter.
    A [sync_request] whose [last_message_id] is one apostrophe leaves a
    string literal open: [exec] throws and the [catch] of [onMessage]
    answers with an [error] frame and no [sync_response], where the claim
    has no error. *)
Lemma forged_last_message_id_is_a_bound :
  let alice := mkUser "A" "alice" None "user" None 1 in
  let m1 := mkMessage "m1" "r1" "A" "hi" "text" 7 (Some SrcUser) None (Some 0) in
  let db := mkStore [alice] [m1] [mkRoomMember "r1" "A" 1] []
              [mkRoom "r1" "one" "group" None 1] in
  let srv frames :=
    mkState db [mkConnection (Some (UserAttachment "A" [] 5)) frames false] None in
  named_bound db (Some "x' OR '1'='1") = None ∧
  named_bound db (Some "'") = None ∧
  onMessage 0 (Some (In_sync_request None)) 9 "id" (srv [])
  = Some (srv [sync_response [m1] [alice]]) ∧
  onMessage 0 (Some (In_sync_request (Some "x' OR '1'='1"))) 9 "id" (srv [])
  = Some (srv [sync_response [] []]) ∧
  onMessage 0 (Some (In_sync_request (Some "'"))) 9 "id" (srv [])
  = Some (srv [error "Invalid message format"]).
Proof. cbv zeta. repeat split; vm_compute; reflexivity. Qed.

(** X30. Resync, for a [last_message_id] that holds no apostrophe, in a
    store where no message has the empty identifier (a [last_message_id]
    that is empty is falsy, and is read as absent). A
    [sync_request] from an authenticated user connection is answered with
    exactly one [sync_response]; nothing else changes. Its messages are
    those of the rooms the identity is a persistent member of whose
    [created_at] is strictly greater than that of the message named by
    [last_message_id] (no bound when the identifier is absent or names no
    stored message, which is not an error), in ascending order of
    [created_at], the 100 first of them; its users are the distinct authors
    of these messages: for the author id [bot] the static bot record, and
    for any other id the row of [users] with that id, when there is one. *)
Theorem sync_response_delta (srv : State) (i : nat) (c : Connection)
  (userId : string) (joinedRooms : list string) (ping : Z)
  (lastMessageId : option string) (now : Z) :
  connections srv !! i = Some c →
  attachment c = Some (UserAttachment userId joinedRooms ping) →
  from_option (λ last, sql_quote_free last = true) True lastMessageId →
  (∀ m, m ∈ messages (storage srv) → mid m ≠ EmptyString) →
  ∃ srv' page authors later,
    handleSyncRequest i lastMessageId now srv = Some (Completes srv') ∧
    storage srv' = storage srv ∧
    connections srv' !! i
      = Some (mkConnection (attachment c)
                (outbox c ++ [sync_response page authors]) (closed c)) ∧
    (∀ j, j ≠ i → connections srv' !! j = connections srv !! j) ∧
    (length page ≤ 100)%nat ∧
    Sorted created_asc page ∧
    (∀ m, m ∈ page ++ later ↔
          m ∈ messages (storage srv) ∧ isMember (storage srv) (room_id m) userId ∧
          match named_bound (storage srv) lastMessageId with
          | Some t => t < created_at m
          | None => True
          end) ∧
    page ++ later
      ≡ₚ filter (sync_filter (select_rooms_of (storage srv) userId)
                   (named_bound (storage srv) lastMessageId))
           (messages (storage srv)) ∧
    (∀ a b, a ∈ page → b ∈ later → created_at a ≤ created_at b) ∧
    (later ≠ [] → length page = 100%nat) ∧
    ((∀ m, m ∈ messages (storage srv) → Some (mid m) ≠ lastMessageId) →
     named_bound (storage srv) lastMessageId = None) ∧
    NoDup (uid <$> authors) ∧
    (∀ u, u ∈ authors
          ↔ ∃ m, m ∈ page ∧ author_record (storage srv) now (user_id m) u).
Proof.
  intros Hc Ha Hq Hids.
  assert (Hd : deserializeAttachment i srv
               = Some (UserAttachment userId joinedRooms ping))
    by (unfold deserializeAttachment; rewrite Hc; exact Ha).
  assert (Hbound : sync_bound (storage srv) lastMessageId
                   = Some (Runs (named_bound (storage srv) lastMessageId))).
  { unfold sync_bound, named_bound. destruct lastMessageId as [last|]; [|done].
    simpl in *. case_bool_decide as He.
    - subst last. do 2 f_equal. symmetry.
      assert (Hn : select_message (storage srv) EmptyString = None)
        by (apply select_message_None; exact Hids).
      by rewrite Hn.
    - by rewrite (statement_quote_free _ _ _ _ _ Hq). }
  unfold handleSyncRequest. rewrite Hd, Hbound. simpl.
  set (after := named_bound (storage srv) lastMessageId).
  set (wanted := filter (sync_filter (select_rooms_of (storage srv) userId) after)
                   (messages (storage srv))).
  destruct (order_limit created_asc 100 wanted)
    as (Hperm & Hsorted & Hle & Hlen & Hfull).
  eexists _, (take 100 (order_by created_asc wanted)), _,
    (drop 100 (order_by created_asc wanted)).
  split; [reflexivity|]. split; [reflexivity|]. split.
  { by erewrite lookup_on_connection by exact Hc. }
  split; [intros j Hj; by apply lookup_on_connection_ne|].
  split; [exact Hlen|]. split; [exact Hsorted|]. split.
  { intros m. rewrite Hperm. unfold wanted. rewrite list_elem_of_filter.
    unfold sync_filter. rewrite elem_of_select_rooms_of.
    fold after. destruct after; simpl; tauto. }
  split; [exact Hperm|]. split; [exact Hle|]. split; [exact Hfull|]. split.
  { intros Hno. unfold after, named_bound. destruct lastMessageId as [last|]; [|done].
    simpl. assert (Hn : select_message (storage srv) last = None).
    { apply select_message_None. intros m Hm Heq. apply (Hno m Hm). by subst. }
    by rewrite Hn. }
  destruct (resolve_authors_spec (storage srv) now
              (take 100 (order_by created_asc wanted))) as [Hnd Hin].
  split; [exact Hnd|].
  intros u. etransitivity; [apply Hin|].
  split; intros (m & Hm & Hr); exists m;
    (split; [done|]); by apply resolve_author_record.
Qed.

Lemma sync_response_delta_witness :
  ∃ srv',
    handleSyncRequest 0 (Some "m1") 9
      (mkState
         (mkStore [mkUser "A" "alice" None "user" None 1]
            [mkMessage "m1" "r1" "A" "hi" "text" 7 (Some SrcUser) None (Some 0);
             mkMessage "m2" "r1" "bot" "ok" "text" 8 (Some SrcBot) None (Some 0);
             mkMessage "m3" "r1" "A" "so" "text" 9 (Some SrcUser) None (Some 0)]
            [mkRoomMember "r1" "A" 1] [] [])
         [mkConnection (Some (UserAttachment "A" [] 5)) [] false] None)
    = Some (Completes srv') ∧
    outbox <$> connections srv' !! 0%nat
    = Some [sync_response
              [mkMessage "m2" "r1" "bot" "ok" "text" 8 (Some SrcBot) None (Some 0);
               mkMessage "m3" "r1" "A" "so" "text" 9 (Some SrcUser) None (Some 0)]
              [bot_user 9; mkUser "A" "alice" None "user" None 1]].
Proof.
  destruct (sync_response_delta
      (mkState
         (mkStore [mkUser "A" "alice" None "user" None 1]
            [mkMessage "m1" "r1" "A" "hi" "text" 7 (Some SrcUser) None (Some 0);
             mkMessage "m2" "r1" "bot" "ok" "text" 8 (Some SrcBot) None (Some 0);
             mkMessage "m3" "r1" "A" "so" "text" 9 (Some SrcUser) None (Some 0)]
            [mkRoomMember "r1" "A" 1] [] [])
         [mkConnection (Some (UserAttachment "A" [] 5)) [] false] None)
      0%nat _ "A" [] 5 (Some "m1") 9 eq_refl eq_refl eq_refl)
    as (srv' & page & authors & later & Hrun & _).
  - intros m Hm. simpl in Hm.
    apply elem_of_cons in Hm as [->|Hm]; [discriminate|].
    apply elem_of_cons in Hm as [->|Hm]; [discriminate|].
    apply list_elem_of_singleton in Hm as ->. discriminate.
  - exists srv'. split; [exact Hrun|].
    vm_compute in Hrun. injection Hrun as <-. reflexivity.
Defined.

End ServerProperties.

(** ** Properties of the client controller (current variant) *)
Section HookProperties.
Import Hook.

Lemma with_sockets_same h : with_sockets (sockets h) h = h.
Proof. by destruct h. Qed.

Lemma socket_same (k : Socket) : mkSocket (readyState k) (sent k ++ []) = k.
Proof. destruct k. simpl. by rewrite app_nil_r. Qed.

(** Sending a series of frames on one socket *)
Lemma foldl_socket_send {A} (f : A → Frame) (s : nat) (l : list A) (h : Hook) :
  foldl (λ h x, socket_send s (f x) h) h l
  = with_sockets
      (alter (λ k, mkSocket (readyState k) (sent k ++ (f <$> l))) s (sockets h)) h.
Proof.
  revert h. induction l as [|x l IH]; intros h; simpl.
  - rewrite list_alter_id by (intros; apply socket_same). by rewrite with_sockets_same.
  - rewrite IH. unfold socket_send, with_sockets. simpl. f_equal.
    rewrite list_alter_alter_eq. apply list_alter_ext; [|done].
    intros k _. simpl. by rewrite <- (assoc_L (++)).
Qed.

Lemma readyState_of_alter_sent (g : Socket → list Frame) s s' h :
  readyState <$> alter (λ k, mkSocket (readyState k) (g k)) s (sockets h) !! s'
  = readyState_of s' h.
Proof.
  unfold readyState_of. destruct (decide (s = s')) as [->|Hne].
  - rewrite list_lookup_alter_eq. by destruct (sockets h !! s').
  - by rewrite list_lookup_alter_ne.
Qed.

Lemma ackMessage_buffers ack h :
  current_is OPEN h = false →
  ackMessage ack h = with_pendingAcksRef (pendingAcksRef h ++ [ack]) h.
Proof. intros H. unfold ackMessage. rewrite H. by destruct (socketRef h). Qed.

Lemma ackMessage_sends ack s h :
  socketRef h = Some s → current_is OPEN h = true →
  ackMessage ack h = socket_send s (message_ack ack.1 ack.2) h.
Proof. intros Hs H. unfold ackMessage. by rewrite Hs, H. Qed.

Lemma foldl_ackMessage_buffers acks h :
  current_is OPEN h = false →
  foldl (λ h ack, ackMessage ack h) h acks
  = with_pendingAcksRef (pendingAcksRef h ++ acks) h.
Proof.
  revert h. induction acks as [|ack acks IH]; intros h Hclosed; simpl.
  - rewrite app_nil_r. by destruct h.
  - rewrite (ackMessage_buffers _ _ Hclosed), IH by exact Hclosed.
    unfold with_pendingAcksRef. simpl. by rewrite <- (assoc_L (++)).
Qed.

Lemma foldl_ackMessage_sends acks s h :
  socketRef h = Some s → current_is OPEN h = true →
  foldl (λ h ack, ackMessage ack h) h acks
  = foldl (λ h ack, socket_send s (message_ack ack.1 ack.2) h) h acks.
Proof.
  revert h. induction acks as [|ack acks IH]; intros h Hs Hopen; simpl; [done|].
  rewrite (ackMessage_sends _ _ _ Hs Hopen). apply IH; [exact Hs|].
  unfold current_is, socket_send in *. simpl. rewrite Hs in *. simpl in *.
  unfold readyState_of in *. simpl.
  by rewrite (readyState_of_alter_sent (λ k, sent k ++ [message_ack ack.1 ack.2])).
Qed.

Lemma on_open_effect s h :
  let h' := on_open s h in
  mounted h' = mounted h ∧ rendered h' = rendered h ∧
  pendingAcksRef h' = pendingAcksRef h ∧ socketRef h' = socketRef h ∧
  isClosedRef h' = isClosedRef h ∧ joinedRoomsRef h' = joinedRoomsRef h ∧
  reconnectTimeoutRef h' = reconnectTimeoutRef h ∧ timeouts h' = timeouts h ∧
  reconnectAttemptRef h' = 0%nat ∧ isConnectingRef h' = false ∧
  (mounted h = true → connectionState h' = connected ∧ reconnectAttempt h' = 0%nat) ∧
  sockets h'
  = alter (λ k, mkSocket (readyState k)
                  (sent k ++ auth (default EmptyString (sessionId h))
                          :: (join_room <$> joinedRoomsRef h)))
      s (sockets h).
Proof.
  unfold on_open. rewrite foldl_socket_send.
  unfold startHeartbeat, clearHeartbeat, setInterval, clearInterval, socket_send,
    setReconnectAttempt, setConnectionState.
  destruct h as [sid mnt cs ra rd sr hb rt jr rar ic icl pa ss ts iv nt].
  destruct mnt, hb; simpl; repeat split; try done;
    rewrite list_alter_alter_eq; apply list_alter_ext; try done;
    intros k _; simpl; by rewrite <- (assoc_L (++)).
Qed.

Ltac unfold_hook :=
  unfold on_message, on_close, on_reconnect_timeout, on_heartbeat_interval,
    handleVisibilityChange, connect, mount, unmount, cleanup, startHeartbeat,
    clearHeartbeat, setInterval, clearInterval, setTimeout, clearTimeout,
    new_socket, socket_close, socket_send, set_readyState, setReconnectAttempt,
    setConnectionState, has_session in *.

Ltac crunch_hook :=
  unfold_hook; simpl in *;
  repeat (first [case_match | case_bool_decide]; simpl in *; simplify_eq);
  try done.

Lemma connect_keeps h :
  pendingAcksRef (connect h) = pendingAcksRef h ∧
  reconnectAttemptRef (connect h) = reconnectAttemptRef h ∧
  reconnectAttempt (connect h) = reconnectAttempt h ∧
  joinedRoomsRef (connect h) = joinedRoomsRef h ∧
  mounted (connect h) = mounted h ∧ rendered (connect h) = rendered h ∧
  isClosedRef (connect h) = isClosedRef h ∧
  heartbeatIntervalRef (connect h) = heartbeatIntervalRef h ∧
  intervals (connect h) = intervals h.
Proof. destruct h. crunch_hook. Qed.

Lemma on_close_keeps h :
  pendingAcksRef (on_close h) = pendingAcksRef h ∧
  joinedRoomsRef (on_close h) = joinedRoomsRef h ∧
  mounted (on_close h) = mounted h ∧ rendered (on_close h) = rendered h ∧
  isClosedRef (on_close h) = isClosedRef h ∧
  socketRef (on_close h) = socketRef h ∧
  sockets (on_close h) = sockets h.
Proof. destruct h. crunch_hook. Qed.

Lemma current_is_Some state h :
  current_is state h = true → ∃ s, socketRef h = Some s ∧ readyState_of s h = Some state.
Proof.
  unfold current_is. intros H. apply bool_decide_eq_true in H.
  destruct (socketRef h) as [s|]; [|done]. eauto.
Qed.

Lemma sent_on_alter_sent (frames : list Frame) s h :
  is_Some (sockets h !! s) →
  default [] (sent <$> alter (λ k, mkSocket (readyState k) (sent k ++ frames)) s
                         (sockets h) !! s)
  = sent_on s h ++ frames.
Proof.
  intros [k Hk]. unfold sent_on. rewrite list_lookup_alter_eq, Hk. done.
Qed.

(** The effect on [connectionState]: either the queue is sent, whole and
    in order, on the open socket, or nothing changes. *)
Lemma flush_pending_acks_effect h :
  let h' := flush_pending_acks h in
  (h' = h) ∨
  (connectionState h = connected ∧ pendingAcksRef h' = [] ∧
   ∃ s, socketRef h = Some s ∧ readyState_of s h = Some OPEN ∧
     h' = with_sockets
            (alter (λ k, mkSocket (readyState k)
                           (sent k ++ ((λ ack, message_ack ack.1 ack.2)
                                         <$> pendingAcksRef h)))
               s (sockets h))
            (with_pendingAcksRef [] h)).
Proof.
  unfold flush_pending_acks. simpl.
  case_bool_decide as Hc; simpl; [|by left].
  case_bool_decide as Hp; simpl; [|by left].
  destruct (current_is OPEN h) eqn:Hopen.
  - right. destruct (current_is_Some _ _ Hopen) as (s & Hs & Hst).
    split; [done|].
    rewrite (foldl_ackMessage_sends _ s) by done.
    rewrite foldl_socket_send. simpl. split; [done|]. eauto.
  - left. rewrite foldl_ackMessage_buffers by done. simpl. by destruct h.
Qed.

Lemma step_pending e h h' :
  step e h = Some h' →
  pendingAcksRef h' = pendingAcksRef h ∨
  (e = Commit ∧ pendingAcksRef h' = [] ∧
   ∃ s, socketRef h = Some s ∧
     sent_on s h' = sent_on s h ++ ((λ ack, message_ack ack.1 ack.2) <$> pendingAcksRef h)).
Proof.
  destruct e; simpl; intros Hstep.
  - injection Hstep as <-. unfold commit.
    destruct (mounted h && bool_decide (connectionState h ≠ rendered h)); [|by left].
    destruct (flush_pending_acks_effect (with_rendered (connectionState h) h))
      as [->|(_ & Hnil & s & Hs & Hst & ->)]; [by left|].
    right. split; [done|]. split; [done|]. exists s. split; [done|].
    simpl in *. unfold readyState_of in Hst. simpl in Hst.
    unfold sent_on at 1. simpl. apply sent_on_alter_sent.
    destruct (sockets h !! s); [eauto|done].
  - case_bool_decide; [|done]. injection Hstep as <-. left.
    destruct (on_open_effect s (set_readyState s OPEN h)) as (_ & _ & -> & _). done.
  - case_bool_decide; [|done]. injection Hstep as <-. left. by destruct m; crunch_hook.
  - case_bool_decide; [|done]. injection Hstep as <-. by left.
  - left. destruct (readyState_of s h) as [[]|]; simplify_eq;
      by destruct (on_close_keeps (set_readyState s CLOSED h)) as [-> _].
  - case_bool_decide; [|done]. injection Hstep as <-. by left.
  - case_bool_decide; [|done]. injection Hstep as <-. left.
    unfold on_reconnect_timeout.
    by destruct (connect_keeps (with_reconnectTimeoutRef None (clearTimeout t h)))
      as [-> _].
  - left. destruct (list_find _ _) as [[? [? s]]|]; simplify_eq.
    unfold on_heartbeat_interval. by case_bool_decide.
  - left. destruct (mounted h) eqn:Hm; simplify_eq. unfold handleVisibilityChange.
    repeat case_match; try done. by destruct (connect_keeps h) as [-> _].
Qed.

(** *** Teardown *)

Lemma sent_alter_readyState (g : Socket → ReadyState) s (ss : list Socket) :
  sent <$> alter (λ k, mkSocket (g k) (sent k)) s ss = sent <$> ss.
Proof.
  apply list_eq. intros i. rewrite !list_lookup_fmap.
  destruct (decide (s = i)) as [->|Hne].
  - rewrite list_lookup_alter_eq. by destruct (ss !! i).
  - by rewrite list_lookup_alter_ne.
Qed.

Lemma sent_socket_close s (ss : list Socket) :
  sent <$> alter (λ k, match readyState k with
                       | CONNECTING | OPEN => mkSocket CLOSING (sent k)
                       | CLOSING | CLOSED => k
                       end) s ss = sent <$> ss.
Proof.
  apply list_eq. intros i. rewrite !list_lookup_fmap.
  destruct (decide (s = i)) as [->|Hne].
  - rewrite list_lookup_alter_eq. by destruct (ss !! i) as [[[] ?]|].
  - by rewrite list_lookup_alter_ne.
Qed.

Lemma closing_after_close s s' (ss : list Socket) k :
  alter (λ k, match readyState k with
              | CONNECTING | OPEN => mkSocket CLOSING (sent k)
              | CLOSING | CLOSED => k
              end) s ss !! s' = Some k →
  (s' = s ∧ closing (readyState k)) ∨ (s' ≠ s ∧ ss !! s' = Some k).
Proof.
  destruct (decide (s = s')) as [->|Hne].
  - rewrite list_lookup_alter_eq. destruct (ss !! s') as [[[] ?]|]; intros [= <-];
      left; (split; [done|]); unfold closing; simpl; auto.
  - rewrite list_lookup_alter_ne by done. intros. right. auto.
Qed.

Lemma filter_subseteq_timeouts (P : nat * Z → Prop) `{!∀ p, Decision (P p)}
  (ts : list (nat * Z)) : filter P ts ⊆ ts.
Proof. intros p Hp. apply list_elem_of_filter in Hp. tauto. Qed.

Lemma filter_tracked (iv : list (nat * nat)) (t : nat) :
  iv.*1 = [t] → filter (λ p, p.1 ≠ t) iv = [].
Proof.
  destruct iv as [|[a b] [|? ?]]; intros [= <-].
  rewrite filter_cons. simpl. by rewrite decide_False by tauto.
Qed.

(** The cleanup of a well-formed hook leaves it torn down: the heartbeat
    timer and the reconnect timer it held are cleared, the socket it held is
    closing, and no socket is connecting or open. *)
Lemma unmount_torn_down h :
  well_formed h →
  torn_down (unmount h) ∧
  (∀ t, reconnectTimeoutRef h = Some t → t ∉ (timeouts (unmount h)).*1) ∧
  timeouts (unmount h) ⊆ timeouts h ∧
  sent <$> sockets (unmount h) = sent <$> sockets h ∧
  length (sockets (unmount h)) = length (sockets h).
Proof.
  intros [Hhb Hoc]. unfold heartbeat_tracked, others_closing, readyState_of in *.
  unfold torn_down, unmount, cleanup, clearHeartbeat, clearInterval, clearTimeout,
    socket_close, readyState_of.
  destruct h as [sid mnt cs ra rd [s0|] [t0|] [t1|] jr rar ic icl pa ss ts iv nt];
    simpl in *; repeat split; try done;
    try (by rewrite ?sent_socket_close);
    try (by rewrite ?length_alter);
    try (by apply filter_subseteq_timeouts);
    try (by apply filter_tracked);
    try (by apply fmap_nil_inv in Hhb);
    try (intros t [= <-] Hin; apply list_elem_of_fmap in Hin as (p & Hp & Hin);
         apply list_elem_of_filter in Hin as [? ?]; done);
    intros s st Hst;
    try (destruct (alter _ s0 ss !! s) as [k|] eqn:Hk; simplify_eq/=;
         apply closing_after_close in Hk as [[-> ?]|[Hne Hk]]; [done|];
         apply (Hoc s); [by rewrite Hk|congruence]);
    try (apply (Hoc s); [done|congruence]).
Qed.

Lemma torn_down_no state s h :
  torn_down h → ¬ closing state → readyState_of s h ≠ Some state.
Proof. intros (_ & _ & _ & _ & _ & _ & _ & Hall) Hn Hs. apply Hn, (Hall s), Hs. Qed.

(** Whatever the browser still raises on a hook that is torn down changes
    neither the React state nor a ref; no socket is created, no frame is sent
    and no timer is set. *)
Lemma torn_down_step e h h' :
  torn_down h → step e h = Some h' →
  torn_down h' ∧ controller h' = controller h ∧
  sent <$> sockets h' = sent <$> sockets h ∧
  timeouts h' ⊆ timeouts h.
Proof.
  intros Htd Hstep.
  assert (Hno : ∀ s, readyState_of s h ≠ Some CONNECTING ∧ readyState_of s h ≠ Some OPEN).
  { intros s. split; apply torn_down_no; try done; intros [?|?]; done. }
  destruct Htd as (Hm & Hcl & Hic & Hsr & Hhb & Hrt & Hiv & Hall).
  destruct e; simpl in Hstep.
  - injection Hstep as <-. unfold commit. rewrite Hm. simpl. by repeat split.
  - case_bool_decide as Hs; [by destruct (Hno s)|done].
  - case_bool_decide as Hs; [by destruct (Hno s)|done].
  - case_bool_decide as Hs; [by destruct (Hno s)|done].
  - destruct (readyState_of s h) as [st|] eqn:Hst; [|done].
    assert (Hrun : h' = with_isConnectingRef false (set_readyState s CLOSED h)).
    { destruct st; simplify_eq; unfold on_close, setConnectionState, clearHeartbeat,
        set_readyState; simpl; rewrite Hm; simpl; rewrite Hhb; simpl; by rewrite Hcl. }
    destruct st; try done; rewrite Hrun; unfold torn_down, controller, readyState_of;
      simpl; rewrite Hic, sent_alter_readyState; repeat split; try done;
      intros s' st'; destruct (decide (s = s')) as [->|Hne];
      rewrite ?list_lookup_alter_eq, ?list_lookup_alter_ne by done;
      try (apply (Hall s'));
      destruct (sockets h !! s'); intros [= <-]; right; done.
  - case_bool_decide; [|done]. injection Hstep as <-.
    unfold torn_down. by repeat split.
  - case_bool_decide; [|done]. injection Hstep as <-.
    assert (Hrun : on_reconnect_timeout (clearTimeout t h)
                   = with_reconnectTimeoutRef None (clearTimeout t h)).
    { unfold on_reconnect_timeout, connect. simpl. rewrite Hic, Hcl.
      by destruct (negb _). }
    rewrite Hrun. unfold torn_down, controller, clearTimeout. simpl.
    rewrite Hrt. repeat split; try done. apply filter_subseteq_timeouts.
  - rewrite Hiv in Hstep. done.
  - by rewrite Hm in Hstep.
Qed.

Lemma torn_down_run events h h' :
  torn_down h → run events h = Some h' →
  torn_down h' ∧ controller h' = controller h ∧
  sent <$> sockets h' = sent <$> sockets h ∧
  timeouts h' ⊆ timeouts h.
Proof.
  revert h. induction events as [|e events IH]; intros h Htd; simpl.
  - intros [= <-]. destruct Htd as (? & ? & ? & ? & ? & ? & ? & ?).
    unfold torn_down. by repeat split.
  - destruct (step e h) as [h1|] eqn:Hstep; [|done]. simpl. intros Hrun.
    destruct (torn_down_step _ _ _ Htd Hstep) as (Htd1 & Hc1 & Hs1 & Ht1).
    destruct (IH _ Htd1 Hrun) as (Htd2 & Hc2 & Hs2 & Ht2).
    split; [done|]. split; [congruence|]. split; [congruence|].
    by etrans.
Qed.

(** *** Every reachable state is well formed *)

Lemma others_closing_oc h : others_closing h ↔ oc (sockets h) (socketRef h).
Proof.
  unfold others_closing, oc, readyState_of. split.
  - intros H s k Hk Hne. apply (H s); [by rewrite Hk|done].
  - intros H s st Hst Hne. destruct (sockets h !! s) as [k|] eqn:Hk; [|done].
    injection Hst as <-. by apply (H s).
Qed.

Lemma oc_alter (f : Socket → Socket) s ss ref ref' :
  oc ss ref →
  (∀ k, ss !! s = Some k → ref' ≠ Some s → closing (readyState (f k))) →
  (∀ s', s' ≠ s → ref = Some s' → ref' = Some s') →
  oc (alter f s ss) ref'.
Proof.
  intros Hoc Hf Href s' k Hk Hne. destruct (decide (s = s')) as [->|Hs].
  - rewrite list_lookup_alter_eq in Hk. destruct (ss !! s') as [k'|] eqn:Hk'; [|done].
    injection Hk as <-. by apply Hf.
  - rewrite list_lookup_alter_ne in Hk by done. apply (Hoc s' k Hk).
    intros Href'. apply Hne, Href; done.
Qed.

Lemma oc_send (g : Socket → list Frame) s ss ref :
  oc ss ref → oc (alter (λ k, mkSocket (readyState k) (g k)) s ss) ref.
Proof.
  intros Hoc. apply (oc_alter _ _ _ ref); [done| |done].
  intros k Hk Hne. simpl. by apply (Hoc s).
Qed.

Lemma oc_set (state : ReadyState) s ss ref :
  oc ss ref → (ref ≠ Some s → closing state) →
  oc (alter (λ k, mkSocket state (sent k)) s ss) ref.
Proof. intros Hoc Hst. apply (oc_alter _ _ _ ref); [done| |done]. intros. by apply Hst. Qed.

Lemma oc_close s ss ref ref' :
  oc ss ref → (∀ s', s' ≠ s → ref = Some s' → ref' = Some s') →
  oc (alter (λ k, match readyState k with
                  | CONNECTING | OPEN => mkSocket CLOSING (sent k)
                  | CLOSING | CLOSED => k
                  end) s ss) ref'.
Proof.
  intros Hoc Href. apply (oc_alter _ _ _ ref); [done| |done].
  intros k _ _. unfold closing. destruct (readyState k) eqn:Hk; simpl; rewrite ?Hk; auto.
Qed.

Lemma oc_new ss :
  oc ss None → oc (ss ++ [mkSocket CONNECTING []]) (Some (length ss)).
Proof.
  intros Hoc s k Hk Hne. apply (Hoc s); [|done].
  apply lookup_app_Some in Hk as [Hk|[Hge Hk]]; [done|].
  apply list_lookup_singleton_Some in Hk as [Hz _].
  exfalso. apply Hne. f_equal. lia.
Qed.

Lemma oc_drop ss s :
  oc ss (Some s) → (∀ k, ss !! s = Some k → closing (readyState k)) → oc ss None.
Proof.
  intros Hoc Hs s' k Hk _. destruct (decide (s' = s)) as [->|Hne]; [by apply Hs|].
  apply (Hoc s' k Hk). congruence.
Qed.

Lemma oc_any ss ref : oc ss None → oc ss ref.
Proof. intros Hoc s k Hk _. by apply (Hoc s). Qed.

Lemma connect_others_closing h : others_closing h → others_closing (connect h).
Proof.
  rewrite !others_closing_oc. intros Hoc. unfold connect.
  destruct (negb (has_session h)); [done|].
  destruct (isConnectingRef h); [done|]. destruct (isClosedRef h); [done|].
  unfold new_socket, setConnectionState, clearTimeout, socket_close, readyState_of.
  assert (Hnone : oc (sockets match socketRef h with
                     | Some s =>
                         if bool_decide (readyState <$> sockets h !! s ≠ Some CLOSED)
                         then with_socketRef None
                                (with_sockets
                                   (alter (λ k, match readyState k with
                                                | CONNECTING | OPEN => mkSocket CLOSING (sent k)
                                                | CLOSING | CLOSED => k
                                                end) s (sockets h)) h)
                         else h
                     | None => h
                     end) None).
  { destruct (socketRef h) as [s|] eqn:Hs; [|done]. case_bool_decide as Hc; simpl.
    - apply (oc_close _ _ (Some s)); [done|]. congruence.
    - apply (oc_drop _ s); [done|]. intros k Hk. right.
      rewrite Hk in Hc. by injection Hc. }
  revert Hnone. generalize (match socketRef h with
                            | Some s =>
                                if bool_decide (readyState <$> sockets h !! s ≠ Some CLOSED)
                                then with_socketRef None
                                       (with_sockets
                                          (alter (λ k, match readyState k with
                                                       | CONNECTING | OPEN =>
                                                           mkSocket CLOSING (sent k)
                                                       | CLOSING | CLOSED => k
                                                       end) s (sockets h)) h)
                                else h
                            | None => h
                            end).
  intros h1 Hnone. destruct h1 as [sid mnt cs ra rd sr hb [t|] jr rar ic icl pa ss ts iv nt];
    destruct mnt; simpl in *; by apply oc_new.
Qed.

Lemma connect_heartbeat_tracked h : heartbeat_tracked h → heartbeat_tracked (connect h).
Proof.
  unfold heartbeat_tracked.
  destruct (connect_keeps h) as (_ & _ & _ & _ & _ & _ & _ & -> & ->). done.
Qed.

Lemma on_close_well_formed h : well_formed h → well_formed (on_close h).
Proof.
  intros [Hhb Hoc]. split.
  - unfold heartbeat_tracked, on_close, setTimeout, setReconnectAttempt,
      setConnectionState, clearHeartbeat, clearInterval in *.
    destruct h as [sid mnt cs ra rd sr [t0|] rt jr rar ic [] pa ss ts iv nt];
      destruct mnt; simpl in *; try done; by rewrite filter_tracked.
  - apply others_closing_oc. apply others_closing_oc in Hoc.
    by destruct (on_close_keeps h) as (_ & _ & _ & _ & _ & -> & ->).
Qed.

Lemma on_open_well_formed s h : well_formed h → well_formed (on_open s h).
Proof.
  intros [Hhb Hoc]. split.
  - unfold heartbeat_tracked, on_open in *. rewrite foldl_socket_send.
    unfold startHeartbeat, clearHeartbeat, setInterval, clearInterval, socket_send,
      setReconnectAttempt, setConnectionState in *.
    destruct h as [sid mnt cs ra rd sr [t0|] rt jr rar ic icl pa ss ts iv nt];
      destruct mnt; simpl in *; try (by rewrite filter_tracked);
      by rewrite (fmap_nil_inv _ _ Hhb).
  - apply others_closing_oc. apply others_closing_oc in Hoc.
    destruct (on_open_effect s h) as (_ & _ & _ & -> & _ & _ & _ & _ & _ & _ & _ & ->).
    by apply oc_send.
Qed.

Lemma set_readyState_well_formed s state h :
  well_formed h → (socketRef h ≠ Some s → closing state) →
  well_formed (set_readyState s state h).
Proof.
  intros [Hhb Hoc] Hst. split; [done|].
  apply others_closing_oc. apply others_closing_oc in Hoc. simpl. by apply oc_set.
Qed.

Lemma socket_send_well_formed s frame h :
  well_formed h → well_formed (socket_send s frame h).
Proof.
  intros [Hhb Hoc]. split; [done|].
  apply others_closing_oc. apply others_closing_oc in Hoc. simpl.
  by apply (oc_send (λ k, sent k ++ [frame])).
Qed.

Lemma connect_well_formed h : well_formed h → well_formed (connect h).
Proof.
  intros [Hhb Hoc]. split;
    [by apply connect_heartbeat_tracked|by apply connect_others_closing].
Qed.

Lemma commit_well_formed h : well_formed h → well_formed (commit h).
Proof.
  intros Hwf. unfold commit.
  destruct (mounted h && bool_decide (connectionState h ≠ rendered h)); [|done].
  destruct (flush_pending_acks_effect (with_rendered (connectionState h) h))
    as [->|(_ & _ & s & _ & _ & ->)]; [done|].
  destruct Hwf as [Hhb Hoc]. split; [done|].
  apply others_closing_oc. apply others_closing_oc in Hoc. simpl.
  by apply (oc_send (λ k, sent k ++ _)).
Qed.

Lemma step_well_formed e h h' : well_formed h → step e h = Some h' → well_formed h'.
Proof.
  intros Hwf Hstep. destruct e; simpl in Hstep.
  - injection Hstep as <-. by apply commit_well_formed.
  - case_bool_decide as Hs; [|done]. injection Hstep as <-.
    apply on_open_well_formed, set_readyState_well_formed; [done|].
    intros Hne. destruct Hwf as [_ Hoc].
    destruct (Hoc s CONNECTING Hs Hne); done.
  - case_bool_decide; [|done]. injection Hstep as <-.
    destruct Hwf. by destruct m; crunch_hook.
  - case_bool_decide; [|done]. injection Hstep as <-.
    apply set_readyState_well_formed; [done|]. intros _. by left.
  - destruct (readyState_of s h) as [[]|]; simplify_eq;
      apply on_close_well_formed, set_readyState_well_formed; try done;
      intros _; by right.
  - case_bool_decide; [|done]. by injection Hstep as <-.
  - case_bool_decide; [|done]. injection Hstep as <-.
    apply connect_well_formed. by destruct Hwf.
  - destruct (list_find _ _) as [[? [? s]]|]; simplify_eq.
    unfold on_heartbeat_interval. case_bool_decide; [|done].
    by apply socket_send_well_formed.
  - destruct (mounted h); simplify_eq. unfold handleVisibilityChange.
    repeat case_match; try done. by apply connect_well_formed.
Qed.

Lemma call_well_formed c h : well_formed h → well_formed (call c h).
Proof.
  intros Hwf. destruct c; simpl;
    unfold joinRoom, leaveRoom, sendMessage, syncMessages, ackMessage;
    repeat case_match; try done; try (by apply socket_send_well_formed);
    try (by destruct Hwf).
  all: apply socket_send_well_formed; by destruct Hwf.
Qed.

Lemma torn_down_well_formed h : torn_down h → well_formed h.
Proof.
  intros (_ & _ & _ & Hsr & Hhb & _ & Hiv & Hall). split.
  - unfold heartbeat_tracked. by rewrite Hiv, Hhb.
  - intros s st Hst _. by apply (Hall s).
Qed.

(** Every state of a hook, from its first render on, is well formed. *)
Lemma reachable_well_formed h : reachable h → well_formed h.
Proof.
  induction 1 as [session|e h h' _ IH Hstep|c h _ IH|h _ IH].
  - unfold mount. simpl. assert (Hinit : well_formed
        (with_isClosedRef false (with_mounted true (useWebSocket session)))).
    { split; [done|]. intros s st Hst. by destruct s. }
    destruct (has_session _); [by apply connect_well_formed|done].
  - by eapply step_well_formed.
  - by apply call_well_formed.
  - apply torn_down_well_formed. by apply unmount_torn_down.
Qed.

(** *** Backoff *)

Lemma on_close_counter h :
  reconnectAttemptRef (on_close h)
  = if isClosedRef h then reconnectAttemptRef h else S (reconnectAttemptRef h).
Proof.
  unfold on_close, setTimeout, setReconnectAttempt, setConnectionState, clearHeartbeat,
    clearInterval.
  destruct h as [sid mnt cs ra rd sr [t0|] rt jr rar ic [] pa ss ts iv nt];
    destruct mnt; simpl; lia.
Qed.

Lemma on_close_effect h :
  isClosedRef h = false →
  let h' := on_close h in
  timeouts h' = timeouts h ++ [(next_timer h, backoff_delay (reconnectAttemptRef h))] ∧
  reconnectTimeoutRef h' = Some (next_timer h) ∧
  isConnectingRef h' = false ∧ isClosedRef h' = false ∧
  sessionId h' = sessionId h ∧ mounted h' = mounted h ∧
  socketRef h' = socketRef h ∧ sockets h' = sockets h.
Proof.
  intros Hcl.
  unfold on_close, setTimeout, setReconnectAttempt, setConnectionState, clearHeartbeat,
    clearInterval, backoff_delay.
  destruct h as [sid mnt cs ra rd sr [t0|] rt jr rar ic icl pa ss ts iv nt];
    simpl in Hcl; subst icl; destruct mnt; simpl; repeat split; try done;
    by replace (Z.of_nat (rar + 1) - 1) with (Z.of_nat rar) by lia.
Qed.

Lemma connect_effect h :
  has_session h = true → isConnectingRef h = false → isClosedRef h = false →
  reconnectTimeoutRef h = None →
  (∀ s, socketRef h = Some s → readyState_of s h = Some CLOSED) →
  let h' := connect h in
  sockets h' = sockets h ++ [mkSocket CONNECTING []] ∧
  socketRef h' = Some (length (sockets h)) ∧
  isClosedRef h' = false ∧ sessionId h' = sessionId h ∧ mounted h' = mounted h ∧
  reconnectAttemptRef h' = reconnectAttemptRef h ∧
  timeouts h' = timeouts h.
Proof.
  intros Hs Hic Hcl Hrt Hsock.
  assert (Hskip : match socketRef h with
                  | Some s =>
                      if bool_decide (readyState_of s h ≠ Some CLOSED)
                      then with_socketRef None (socket_close s h) else h
                  | None => h
                  end = h).
  { destruct (socketRef h) as [s|]; [|done].
    by rewrite bool_decide_false by (rewrite (Hsock s eq_refl); tauto). }
  unfold connect. rewrite Hs, Hic, Hcl. simpl. rewrite Hskip, Hrt.
  unfold new_socket, setConnectionState.
  destruct h as [sid mnt cs ra rd sr hb rt jr rar ic icl pa ss ts iv nt].
  destruct mnt; simpl in *; by repeat split.
Qed.

(** One failed attempt: the delay waited is the one of the specification
    for the number of failures so far, the counter goes up by one, and the
    next attempt is under way. *)
Lemma fail_attempting h :
  attempting h →
  ∃ h', fail h = Some (backoff_delay (reconnectAttemptRef h), h') ∧
    attempting h' ∧ reconnectAttemptRef h' = S (reconnectAttemptRef h).
Proof.
  intros (Hm & Hs & Hcl & s & Hsr & Hst).
  unfold fail. rewrite Hsr. simpl. rewrite Hst. simpl.
  set (h0 := set_readyState s CLOSED h).
  assert (Hst0 : readyState_of s h0 = Some CLOSED).
  { unfold h0, readyState_of, set_readyState. simpl. rewrite list_lookup_alter_eq.
    unfold readyState_of in Hst. by destruct (sockets h !! s). }
  destruct (on_close_effect h0 Hcl)
    as (Hts & Hrt & Hic1 & Hcl1 & Hsid1 & Hm1 & Hsr1 & Hss1).
  pose proof (on_close_counter h0) as Hcount. simpl in Hcount. rewrite Hcl in Hcount.
  assert (Hst1 : readyState_of s (on_close h0) = Some CLOSED).
  { unfold readyState_of. rewrite Hss1. exact Hst0. }
  generalize dependent (on_close h0). intros h1 Hts Hrt Hic1 Hcl1 Hsid1 Hm1 Hsr1 Hss1 Hcount Hst1.
  rewrite Hts, last_snoc. rewrite Hrt, bool_decide_true by done. simpl.
  rewrite bool_decide_true by (rewrite fmap_app; apply elem_of_app; right; left).
  simpl.
  set (h2 := with_reconnectTimeoutRef None (clearTimeout (next_timer h0) h1)).
  exists (connect h2). split; [reflexivity|].
  assert (Hs2 : has_session h2 = true).
  { unfold has_session in *. simpl. rewrite Hsid1. exact Hs. }
  destruct (connect_effect h2 Hs2 Hic1 Hcl1 eq_refl)
    as (Hss3 & Hsr3 & Hcl3 & Hsid3 & Hm3 & Hcount3 & _).
  { simpl. rewrite Hsr1. simpl. intros s' Hs'. rewrite Hsr in Hs'.
    injection Hs' as <-. exact Hst1. }
  split.
  - unfold attempting. rewrite Hm3, Hcl3. simpl. rewrite Hm1. simpl.
    split; [exact Hm|]. split.
    + unfold has_session in *. by rewrite Hsid3.
    + split; [done|]. eexists. split; [exact Hsr3|].
      unfold readyState_of. rewrite Hss3. simpl.
      by rewrite lookup_app_r, Nat.sub_diag by lia.
  - rewrite Hcount3. simpl. exact Hcount.
Qed.

Lemma failures_attempting n h :
  attempting h →
  ∃ h', failures n h = Some (backoff_delay <$> seq (reconnectAttemptRef h) n, h') ∧
    attempting h' ∧ reconnectAttemptRef h' = (reconnectAttemptRef h + n)%nat.
Proof.
  revert h. induction n as [|n IH]; intros h Hatt; simpl.
  - exists h. split; [done|]. split; [done|]. lia.
  - destruct (fail_attempting h Hatt) as (h1 & -> & Hatt1 & Hc1). simpl.
    destruct (IH h1 Hatt1) as (h2 & -> & Hatt2 & Hc2). simpl.
    exists h2. rewrite Hc1. split; [done|]. split; [done|]. lia.
Qed.

Lemma backoff_delay_capped k : (4 ≤ k)%nat → backoff_delay k = 30000.
Proof.
  intros Hk. unfold backoff_delay, RECONNECT_BASE_DELAY, MAX_RECONNECT_DELAY.
  assert (2 ^ 4 ≤ 2 ^ Z.of_nat k) by (apply Z.pow_le_mono_r; lia).
  change (2 ^ 4) with 16 in *. lia.
Qed.

Lemma step_counter e h h' :
  step e h = Some h' →
  reconnectAttemptRef h' = reconnectAttemptRef h ∨
  (∃ s, e = SocketClose s ∧ isClosedRef h = false ∧
        reconnectAttemptRef h' = S (reconnectAttemptRef h)) ∨
  (∃ s, e = SocketOpen s ∧ reconnectAttemptRef h' = 0%nat).
Proof.
  destruct e; simpl; intros Hstep.
  - injection Hstep as <-. left. unfold commit.
    destruct (mounted h && _); [|done].
    by destruct (flush_pending_acks_effect (with_rendered (connectionState h) h))
      as [->|(_ & _ & s & _ & _ & ->)].
  - case_bool_decide; [|done]. injection Hstep as <-. right. right. exists s.
    split; [done|].
    by destruct (on_open_effect s (set_readyState s OPEN h))
      as (_ & _ & _ & _ & _ & _ & _ & _ & -> & _).
  - case_bool_decide; [|done]. injection Hstep as <-. left. by destruct m; crunch_hook.
  - case_bool_decide; [|done]. injection Hstep as <-. by left.
  - assert (Hrun : h' = on_close (set_readyState s CLOSED h))
      by (destruct (readyState_of s h) as [[]|]; by simplify_eq).
    rewrite Hrun, on_close_counter. simpl.
    destruct (isClosedRef h) eqn:Hcl; [by left|]. right. left. eauto.
  - case_bool_decide; [|done]. injection Hstep as <-. by left.
  - case_bool_decide; [|done]. injection Hstep as <-. left.
    unfold on_reconnect_timeout.
    by destruct (connect_keeps (with_reconnectTimeoutRef None (clearTimeout t h)))
      as (_ & -> & _).
  - left. destruct (list_find _ _) as [[? [? s]]|]; simplify_eq.
    unfold on_heartbeat_interval. by case_bool_decide.
  - left. destruct (mounted h) eqn:Hm; simplify_eq. unfold handleVisibilityChange.
    repeat case_match; try done. by destruct (connect_keeps h) as (_ & -> & _).
Qed.

(** X1. Reconnect backoff in the current variant. While connection attempts
    fail one after the other, the delay waited before the next attempt is
    [min(base_delay * 2^attempt, max_delay)], [attempt] being the number of
    failures so far: 3000, 6000, 12000, 24000 and then 30000 ms from a
    counter of zero. The counter goes up by one at a [close] event (unless
    the hook has been torn down), is set to zero by the [open] listener, and
    changes at no other event; [connect] itself, the retry, leaves it as it
    is. *)
Theorem backoff_sequence (h : Hook) (n : nat) :
  attempting h →
  (∃ h', failures n h = Some (backoff_delay <$> seq (reconnectAttemptRef h) n, h') ∧
     attempting h' ∧ reconnectAttemptRef h' = (reconnectAttemptRef h + n)%nat) ∧
  backoff_delay <$> seq 0 6 = [3000; 6000; 12000; 24000; 30000; 30000] ∧
  (∀ k, (4 ≤ k)%nat → backoff_delay k = MAX_RECONNECT_DELAY) ∧
  (∀ e h1 h2, step e h1 = Some h2 →
     reconnectAttemptRef h2 = reconnectAttemptRef h1 ∨
     (∃ s, e = SocketClose s ∧ isClosedRef h1 = false ∧
           reconnectAttemptRef h2 = S (reconnectAttemptRef h1)) ∨
     (∃ s, e = SocketOpen s ∧ reconnectAttemptRef h2 = 0%nat)) ∧
  (∀ h1, reconnectAttemptRef (connect h1) = reconnectAttemptRef h1).
Proof.
  intros Hatt. split; [by apply failures_attempting|]. split; [reflexivity|].
  split; [apply backoff_delay_capped|]. split; [apply step_counter|].
  intros h1. by destruct (connect_keeps h1) as (_ & -> & _).
Qed.

Lemma backoff_sequence_witness :
  ∃ h', failures 5 (mount (useWebSocket (Some "sess")))
        = Some ([3000; 6000; 12000; 24000; 30000], h') ∧
        reconnectAttemptRef h' = 5%nat.
Proof.
  destruct (backoff_sequence (mount (useWebSocket (Some "sess"))) 5)
    as ((h' & Hrun & _ & Hcount) & _).
  - unfold attempting. do 3 (split; [reflexivity|]). exists 0%nat. by split.
  - exists h'. split; [exact Hrun|exact Hcount].
Defined.

(** X2. Teardown in the current variant. The cleanup of the initial-connection
    effect clears the heartbeat timer and the reconnect timer the hook
    holds and closes the socket it holds, at once; from then on, whatever
    events the browser still raises (the [close] event of that socket
    among them), the React state and the refs of the hook stay as the
    cleanup left them, no socket is created, no frame is sent and no timer
    is set. *)
Theorem teardown_is_final (h : Hook) (events : list Event) (h' : Hook) :
  reachable h →
  run events (unmount h) = Some h' →
  heartbeatIntervalRef (unmount h) = None ∧ intervals (unmount h) = [] ∧
  reconnectTimeoutRef (unmount h) = None ∧
  (∀ t, reconnectTimeoutRef h = Some t → t ∉ (timeouts (unmount h)).*1) ∧
  socketRef (unmount h) = None ∧
  (∀ s state, readyState_of s (unmount h) = Some state → closing state) ∧
  controller h' = controller (unmount h) ∧
  sent <$> sockets h' = sent <$> sockets h ∧
  timeouts h' ⊆ timeouts h ∧
  intervals h' = [].
Proof.
  intros Hreach Hrun. apply reachable_well_formed in Hreach.
  destruct (unmount_torn_down h Hreach) as (Htd & Hcleared & Hts & Hsent & _).
  destruct (torn_down_run _ _ _ Htd Hrun) as (Htd' & Hctl & Hsent' & Hts').
  pose proof Htd as (_ & _ & _ & Hsr & Hhb & Hrt & Hiv & Hall).
  destruct Htd' as (_ & _ & _ & _ & _ & _ & Hiv' & _).
  repeat split; try done.
  - congruence.
  - by etrans.
Qed.

Lemma teardown_is_final_witness :
  let live := commit (on_open 0 (set_readyState 0 OPEN (mount (useWebSocket (Some "sess"))))) in
  connectionState live = connected ∧
  ∃ h', run [SocketClose 0] (unmount live) = Some h' ∧
    controller h' = controller (unmount live) ∧ timeouts h' ⊆ timeouts live ∧
    intervals h' = [].
Proof.
  intros live. split; [reflexivity|].
  assert (Hreach : reachable live).
  { apply (reachable_step Commit
             (on_open 0 (set_readyState 0 OPEN (mount (useWebSocket (Some "sess"))))));
      [|vm_compute; reflexivity].
    apply (reachable_step (SocketOpen 0) (mount (useWebSocket (Some "sess"))));
      [apply reachable_mount|vm_compute; reflexivity]. }
  assert (Hrun : ∃ h', run [SocketClose 0] (unmount live) = Some h')
    by (eexists; vm_compute; reflexivity).
  destruct Hrun as [h' Hrun]. exists h'. split; [exact Hrun|].
  destruct (teardown_is_final live [SocketClose 0] h' Hreach Hrun)
    as (_ & _ & _ & _ & _ & _ & Hctl & _ & Hts & Hiv).
  split; [exact Hctl|]. split; [exact Hts|exact Hiv].
Defined.

(** *** Pending acknowledgments *)

Lemma commit_flushes ho s :
  mounted ho = true → connectionState ho = connected → rendered ho ≠ connected →
  socketRef ho = Some s → readyState_of s ho = Some OPEN →
  sent_on s (commit ho)
  = sent_on s ho ++ ((λ ack, message_ack ack.1 ack.2) <$> pendingAcksRef ho) ∧
  pendingAcksRef (commit ho) = [] ∧
  commit (commit ho) = commit ho.
Proof.
  intros Hm Hc Hr Hs Hopen.
  assert (Hex : is_Some (sockets ho !! s)).
  { unfold readyState_of in Hopen. by destruct (sockets ho !! s). }
  assert (Hcur : current_is OPEN ho = true).
  { unfold current_is. rewrite Hs. simpl. rewrite Hopen. by apply bool_decide_eq_true. }
  assert (Hdone : ∀ h2, connectionState h2 = connected → rendered h2 = connected →
            commit h2 = h2).
  { intros h2 H1 H2. unfold commit. rewrite H1, H2.
    rewrite bool_decide_false by (intros H; by apply H). by rewrite andb_false_r. }
  assert (Hcommit : commit ho = flush_pending_acks (with_rendered connected ho)).
  { unfold commit. rewrite Hm, Hc. by rewrite bool_decide_true by congruence. }
  assert (Hflush : flush_pending_acks (with_rendered connected ho)
            = with_sockets
                (alter (λ k, mkSocket (readyState k)
                               (sent k ++ ((λ ack, message_ack ack.1 ack.2)
                                             <$> pendingAcksRef ho)))
                   s (sockets ho))
                (with_pendingAcksRef [] (with_rendered connected ho))).
  { unfold flush_pending_acks. simpl. rewrite Hc.
    rewrite bool_decide_true by done. simpl.
    destruct (pendingAcksRef ho) as [|a l] eqn:Hp; simpl.
    - rewrite list_alter_id by (intros; apply socket_same).
      destruct ho; simpl in *. by subst.
    - rewrite (ackMessage_sends _ s) by done.
      rewrite (foldl_ackMessage_sends _ s).
      + rewrite foldl_socket_send. simpl. rewrite list_alter_alter_eq.
        unfold with_sockets. simpl. f_equal. apply list_alter_ext; [|done].
        intros k _. simpl. by rewrite <- (assoc_L (++)).
      + done.
      + unfold current_is, socket_send. apply bool_decide_eq_true.
        simpl. rewrite Hs. simpl. unfold readyState_of at 1. simpl.
        rewrite (readyState_of_alter_sent (λ k, sent k ++ [message_ack a.1 a.2]) s s ho).
        exact Hopen. }
  rewrite Hcommit, Hflush. split; [|split].
  - unfold sent_on at 1. simpl. by apply sent_on_alter_sent.
  - done.
  - by apply Hdone.
Qed.

(** A socket that opens is the one the hook holds. *)
Lemma open_is_current h s h' :
  reachable h → step (SocketOpen s) h = Some h' → socketRef h = Some s.
Proof.
  intros Hreach Hstep. simpl in Hstep. case_bool_decide as Hs; [|done].
  destruct (reachable_well_formed h Hreach) as [_ Hoc].
  destruct (decide (socketRef h = Some s)) as [|Hne]; [done|].
  destruct (Hoc s CONNECTING Hs Hne); done.
Qed.

(** C9. Pending acknowledgments. An acknowledgment requested while the
    socket the hook holds is not open is appended to the queue and nothing
    is sent; the only socket that can open is the one the hook holds; no
    event changes the queue except the effect that sends it, whole and in
    order, on that socket; and when that socket opens, the next render (the
    state has become [connected]) sends every queued acknowledgment once,
    in the order of the requests, and leaves the queue empty, so that a
    later render sends none of them again. *)
Theorem pending_acks_flushed (h : Hook) (s : nat) (acks : list (string * string)) :
  mounted h = true →
  socketRef h = Some s →
  readyState_of s h = Some CONNECTING →
  rendered h ≠ connected →
  let queued := foldl (λ h ack, ackMessage ack h) h acks in
  (∀ h0 ack, current_is OPEN h0 = false →
     ackMessage ack h0 = with_pendingAcksRef (pendingAcksRef h0 ++ [ack]) h0) ∧
  queued = with_pendingAcksRef (pendingAcksRef h ++ acks) h ∧
  (∀ h0 s0 h1, reachable h0 → step (SocketOpen s0) h0 = Some h1 →
     socketRef h0 = Some s0) ∧
  (∀ e h1 h2, step e h1 = Some h2 →
     pendingAcksRef h2 = pendingAcksRef h1 ∨
     (e = Commit ∧ pendingAcksRef h2 = [] ∧
      ∃ s, socketRef h1 = Some s ∧
        sent_on s h2
        = sent_on s h1 ++ ((λ ack, message_ack ack.1 ack.2) <$> pendingAcksRef h1))) ∧
  ∃ opened,
    step (SocketOpen s) queued = Some opened ∧
    connectionState opened = connected ∧
    pendingAcksRef opened = pendingAcksRef h ++ acks ∧
    sent_on s (commit opened)
    = sent_on s opened
        ++ ((λ ack, message_ack ack.1 ack.2) <$> (pendingAcksRef h ++ acks)) ∧
    pendingAcksRef (commit opened) = [] ∧
    commit (commit opened) = commit opened.
Proof.
  intros Hm Hs Hst Hr queued.
  assert (Hclosed : current_is OPEN h = false).
  { unfold current_is. rewrite Hs. simpl. rewrite Hst. by apply bool_decide_eq_false. }
  assert (Hq : queued = with_pendingAcksRef (pendingAcksRef h ++ acks) h)
    by (apply foldl_ackMessage_buffers; exact Hclosed).
  split; [intros h0 ack; apply ackMessage_buffers|].
  split; [exact Hq|]. split; [apply open_is_current|]. split; [apply step_pending|].
  rewrite Hq. clear Hq queued.
  set (hq := with_pendingAcksRef (pendingAcksRef h ++ acks) h).
  assert (Hstq : readyState_of s hq = Some CONNECTING) by exact Hst.
  unfold step. rewrite bool_decide_true by exact Hstq.
  eexists. split; [reflexivity|].
  set (h0 := set_readyState s OPEN hq).
  destruct (on_open_effect s h0)
    as (Hmo & Hro & Hpo & Hso & _ & _ & _ & _ & _ & _ & Hco & Hsockets).
  destruct (Hco Hm) as [Hconn _].
  assert (Hopen : readyState_of s (on_open s h0) = Some OPEN).
  { unfold readyState_of. rewrite Hsockets.
    rewrite (readyState_of_alter_sent (λ k, sent k ++ _ :: _) s s h0).
    unfold h0, readyState_of, set_readyState, with_sockets. simpl.
    rewrite list_lookup_alter_eq. unfold readyState_of in Hst.
    by destruct (sockets h !! s). }
  generalize dependent (on_open s h0). intros ho Hmo Hro Hpo Hso _ _ Hconn Hopen.
  split; [exact Hconn|]. split; [exact Hpo|].
  change (pendingAcksRef h ++ acks) with (pendingAcksRef h0). rewrite <- Hpo.
  apply commit_flushes; try done.
  - by rewrite Hmo.
  - by rewrite Hro.
  - by rewrite Hso.
Qed.

Lemma pending_acks_flushed_witness :
  ∃ opened,
    step (SocketOpen 0)
      (foldl (λ h ack, ackMessage ack h) (mount (useWebSocket (Some "sess")))
         [("m1", "delivered"); ("m2", "read")]) = Some opened ∧
    sent_on 0 (commit opened)
    = [auth "sess"; message_ack "m1" "delivered"; message_ack "m2" "read"].
Proof.
  destruct (pending_acks_flushed (mount (useWebSocket (Some "sess"))) 0
              [("m1", "delivered"); ("m2", "read")] eq_refl eq_refl eq_refl)
    as (_ & _ & _ & _ & opened & Hopen & _ & _ & Hsent & _).
  - discriminate.
  - exists opened. split; [exact Hopen|]. rewrite Hsent.
    vm_compute in Hopen. injection Hopen as <-. reflexivity.
Defined.

End HookProperties.

(** ** Properties of the client controller (earlier variant) *)
Section EarlyHookProperties.
Import HookV1.

(** The [close] listener of the earlier variant schedules the reconnect
    with the delay of the specification for the attempt count its closure
    saw, and asks React for one more attempt. *)
Lemma early_on_close_schedules attempt h :
  let h' := on_close attempt h in
  reconnectTimeoutRef h' = Some (next_timer h) ∧
  mkTimeout (next_timer h)
    (Z.min (RECONNECT_BASE_DELAY * 2 ^ Z.of_nat attempt) MAX_RECONNECT_DELAY) attempt
    ∈ timeouts h' ∧
  (mounted h = true → reconnectAttempt h' = S (reconnectAttempt h)).
Proof.
  unfold on_close, setTimeout, setReconnectAttempt, setConnectionState, clearHeartbeat,
    clearInterval.
  destruct h as [sid mnt cs ra rd sr hb rt jr ss ts iv nt].
  destruct mnt, hb; simpl; (split; [done|]); (split; [|intros; lia]);
    apply elem_of_app; right; left.
Qed.

Lemma early_cleanup_effect h :
  let h' := cleanup h in
  timeouts h'
  = match reconnectTimeoutRef h with
    | Some t => filter (λ p, timeout_id p ≠ t) (timeouts h)
    | None => timeouts h
    end ∧
  length (sockets h') = length (sockets h) ∧
  sessionId h' = sessionId h ∧ mounted h' = mounted h ∧ rendered h' = rendered h ∧
  reconnectAttempt h' = reconnectAttempt h ∧
  reconnectTimeoutRef h' = reconnectTimeoutRef h.
Proof.
  unfold cleanup, clearHeartbeat, clearInterval, clearTimeout, socket_close.
  destruct h as [sid mnt cs ra rd [s0|] [t0|] [t|] jr ss ts iv nt]; cbn;
    repeat split; by rewrite ?length_alter.
Qed.

Lemma early_connect_effect attempt h :
  has_session h = true →
  let h' := connect attempt h in
  sockets h' = sockets h ++ [mkSocket CONNECTING [] attempt] ∧
  socketRef h' = Some (length (sockets h)) ∧
  timeouts h'
  = match reconnectTimeoutRef h with
    | Some t => filter (λ p, timeout_id p ≠ t) (timeouts h)
    | None => timeouts h
    end.
Proof.
  intros Hs. unfold connect. rewrite Hs. simpl.
  unfold new_socket, setConnectionState, clearTimeout.
  destruct h as [sid mnt cs ra rd sr hb [t|] jr ss ts iv nt]; destruct mnt; cbn;
    by repeat split.
Qed.

(** At the next render the initial-connection effect runs again, because
    [connect] depends on [reconnectAttempt]: its cleanup clears the timer
    the [close] listener has just set, and its body connects at once. *)
Lemma early_commit_reconnects h t :
  mounted h = true → has_session h = true →
  reconnectAttempt h ≠ rendered h →
  reconnectTimeoutRef h = Some t →
  let h' := commit h in
  (t ∉ (timeout_id <$> timeouts h')) ∧
  sockets h' !! length (sockets h) = Some (mkSocket CONNECTING [] (reconnectAttempt h)) ∧
  socketRef h' = Some (length (sockets h)).
Proof.
  intros Hm Hs Hne Ht. unfold commit. rewrite Hm.
  rewrite bool_decide_true by done. simpl.
  set (h0 := with_rendered (reconnectAttempt h) h).
  destruct (early_cleanup_effect h0) as (Hts & Hlen & Hsid & _ & Hrd & _ & Hrt).
  assert (Hs1 : has_session (cleanup h0) = true)
    by (unfold has_session in *; by rewrite Hsid).
  unfold effect. rewrite Hs1, Hrd.
  destruct (early_connect_effect (rendered h0) (cleanup h0) Hs1) as (Hss & Hsr & Hts').
  rewrite Hss, Hsr, Hts', Hrt, Hts, Hlen. simpl. rewrite Ht. split; [|split].
  - intros Hin. apply list_elem_of_fmap in Hin as (p & Hp & Hin).
    repeat (apply list_elem_of_filter in Hin as [? Hin]). done.
  - by rewrite lookup_app_r, Hlen, Nat.sub_diag by (rewrite Hlen; simpl; lia).
  - done.
Qed.

(** C6 on the earlier variant. The first connection attempt of a mounted
    hook fails: the [close] listener sets a reconnect timer of 1000 ms. At
    the next render the timer is gone and a second socket is connecting: the
    second attempt has begun and no delay was waited. *)
Lemma early_variant_skips_backoff :
  ∃ failed retried,
    step (SocketClose 0) (mount (useWebSocket (Some "sess"))) = Some failed ∧
    timeouts failed = [mkTimeout 1 1000 0] ∧
    reconnectTimeoutRef failed = Some 1%nat ∧
    reconnectAttempt failed = 1%nat ∧
    step Commit failed = Some retried ∧
    timeouts retried = [] ∧
    connectionState retried = reconnecting ∧
    sockets retried = [mkSocket CLOSED [] 0; mkSocket CONNECTING [] 1].
Proof.
  eexists _, _. split; [vm_compute; reflexivity|].
  split; [reflexivity|]. split; [reflexivity|]. split; [reflexivity|].
  split; [vm_compute; reflexivity|]. split; [reflexivity|]. split; reflexivity.
Qed.

(** C7 on the earlier variant. A connected hook is unmounted; the socket
    the cleanup closed then raises its [close] event: the listener sets a
    reconnect timer, and when the timer fires a new socket is opened by a
    hook that has been torn down. *)
Lemma early_variant_reconnects_after_teardown :
  ∃ live closed again,
    run [SocketOpen 0; Commit] (mount (useWebSocket (Some "sess"))) = Some live ∧
    connectionState live = connected ∧
    readyState_of 0 (unmount live) = Some CLOSING ∧
    timeouts (unmount live) = [] ∧
    step (SocketClose 0) (unmount live) = Some closed ∧
    timeouts closed = [mkTimeout 2 1000 0] ∧
    step (TimeoutFires 2) closed = Some again ∧
    mounted again = false ∧
    sockets again = [mkSocket CLOSED [auth "sess"] 0; mkSocket CONNECTING [] 0].
Proof.
  eexists _, _, _. split; [vm_compute; reflexivity|].
  split; [reflexivity|]. split; [vm_compute; reflexivity|].
  split; [vm_compute; reflexivity|]. split; [vm_compute; reflexivity|].
  split; [reflexivity|]. split; [vm_compute; reflexivity|]. split; reflexivity.
Qed.

End EarlyHookProperties.

(** ** Runs of the server *)
Section ServerRuns.
Import Server Runs.

Lemma lookup_heartbeatCheck_fresh srv i c a now :
  connections srv !! i = Some c → closed c = false → attachment c = Some a →
  now - lastPing a ≤ HEARTBEAT_TIMEOUT →
  connections (heartbeatCheck now srv) !! i = Some c.
Proof.
  intros Hc Hopen Ha Hfresh. unfold heartbeatCheck.
  rewrite lookup_for_each_socket, Hc. simpl. rewrite Hopen, Ha.
  by rewrite bool_decide_false by lia.
Qed.

Lemma lastPing_set t a : lastPing (set_lastPing t a) = t.
Proof. by destruct a. Qed.

Lemma set_lastPing_twice t t' a : set_lastPing t (set_lastPing t' a) = set_lastPing t a.
Proof. by destruct a. Qed.

Lemma set_lastPing_same a : set_lastPing (lastPing a) a = a.
Proof. by destruct a. Qed.

(** X3. Liveness on the server. Take a live, authenticated connection and any
    sequence of its ping frames, its heartbeat frames and sweeps of the
    heartbeat monitor in which every sweep comes at most 60000 ms after the
    frame before it (or after the lastPing the connection started with). The
    connection is never closed; its lastPing ends as the time of the last
    frame and the rest of its attachment is unchanged; it has been sent
    exactly one pong for each ping, in order, each carrying the time of the
    server. *)
Theorem liveness_signals_keep_alive (srv : State) (i : nat) (c : Connection)
  (a : ConnectionAttachment) (l : list Signal) :
  connections srv !! i = Some c →
  closed c = false →
  attachment c = Some a →
  timely (lastPing a) l →
  connections (signals i l srv) !! i
  = Some (mkConnection (Some (set_lastPing (last_signal (lastPing a) l) a))
            (outbox c ++ pongs l) false).
Proof.
  revert srv c a. induction l as [|s l IH]; intros srv c a Hc Hopen Ha Htimely.
  - simpl. rewrite set_lastPing_same, app_nil_r, Hc. f_equal.
    destruct c; simpl in *; by subst.
  - destruct s as [timestamp now|now|now]; simpl in Htimely |- *.
    + erewrite (IH _ (mkConnection (Some (set_lastPing now a)) (outbox c ++ [pong now]) false)
                  (set_lastPing now a)); try done.
      * rewrite lastPing_set, set_lastPing_twice. simpl.
        by rewrite <- app_assoc.
      * unfold handlePing, deserializeAttachment, on_connection. rewrite Hc. simpl.
        rewrite Ha. simpl. rewrite !list_lookup_alter_eq, Hc. simpl. unfold send, serializeAttachment. simpl. by rewrite Hopen.
      * by rewrite lastPing_set.
    + erewrite (IH _ (mkConnection (Some (set_lastPing now a)) (outbox c) false)
                  (set_lastPing now a)); try done.
      * by rewrite lastPing_set, set_lastPing_twice.
      * unfold handleHeartbeat, deserializeAttachment, on_connection. rewrite Hc. simpl.
        rewrite Ha. simpl. rewrite list_lookup_alter_eq, Hc. simpl. unfold serializeAttachment. by rewrite Hopen.
      * by rewrite lastPing_set.
    + destruct Htimely as [Hfresh Htimely].
      apply IH; try done. by eapply lookup_heartbeatCheck_fresh.
Qed.

(** A user who pings within the minute outlives three sweeps. *)
Lemma liveness_signals_keep_alive_witness :
  connections
    (signals 0
       [Sweep 50000; Ping 1 55000; Sweep 110000; Heartbeat 115000; Sweep 170000]
       (mkState (mkStore [] [] [] [] [])
          [mkConnection (Some (UserAttachment "A" ["r1"] 0)) [] false] None)) !! 0%nat
  = Some (mkConnection (Some (UserAttachment "A" ["r1"] 115000)) [pong 55000] false).
Proof.
  apply (liveness_signals_keep_alive
           (mkState (mkStore [] [] [] [] [])
              [mkConnection (Some (UserAttachment "A" ["r1"] 0)) [] false] None)
           0%nat (mkConnection (Some (UserAttachment "A" ["r1"] 0)) [] false)
           (UserAttachment "A" ["r1"] 0)
           [Sweep 50000; Ping 1 55000; Sweep 110000; Heartbeat 115000; Sweep 170000]);
    try reflexivity.
  vm_compute. repeat split; discriminate.
Defined.

Lemma lookup_broadcastUserStatus u status srv j c :
  connections srv !! j = Some c →
  connections (broadcastUserStatus u status srv) !! j
  = Some (if hears_of u c
          then send (match status with
                     | online => user_online u
                     | offline => user_offline u
                     end) c
          else c).
Proof.
  intros Hc. unfold broadcastUserStatus, hears_of.
  rewrite lookup_for_each_socket, Hc. simpl.
  destruct (closed c); [done|].
  by destruct (attachment c) as [[v rooms t|b rooms t]|].
Qed.

Lemma elem_of_select_sessions db token now s :
  s ∈ select_sessions db token now ↔
  s ∈ sessions db ∧ session_id s = token ∧ now < expires_at s.
Proof. unfold select_sessions. rewrite list_elem_of_filter. tauto. Qed.

(** X4. Presence. A connection that authenticates with a session that is valid
    now is attached as the user of that session, with no joined rooms and
    lastPing now, and is sent auth_success; the store is unchanged;
    user_online is sent to exactly the other connections that are live and
    attached to a different user (not to other connections of the same user,
    to bots or to unauthenticated connections). When the connection of a user
    closes, user_offline is sent to exactly the live connections of other
    users, whether or not the same user still has another connection open;
    when the connection of a bot or an unauthenticated one closes, nothing
    changes. *)
Theorem presence_is_announced_to_other_users (srv : State) (i : nat) (c : Connection)
  (now : Z) :
  connections srv !! i = Some c →
  (∀ sessionId,
     sql_quote_free sessionId = true →
     valid_session (storage srv) sessionId now →
     ∃ srv' s,
       handleUserAuth i sessionId now srv = Some (Completes srv') ∧
       s ∈ sessions (storage srv) ∧ session_id s = sessionId ∧ now < expires_at s ∧
       storage srv' = storage srv ∧
       connections srv' !! i
       = Some (mkConnection (Some (UserAttachment (session_user_id s) [] now))
                 (outbox c ++ [auth_success (Some (session_user_id s))]) (closed c)) ∧
       ∀ j cj, j ≠ i → connections srv !! j = Some cj →
         connections srv' !! j
         = Some (if hears_of (session_user_id s) cj
                 then send (user_online (session_user_id s)) cj else cj)) ∧
  (∀ u rooms ping,
     attachment c = Some (UserAttachment u rooms ping) →
     storage (onClose i srv) = storage srv ∧
     ∀ j cj, connections srv !! j = Some cj →
       connections (onClose i srv) !! j
       = Some (if hears_of u cj then send (user_offline u) cj else cj)) ∧
  ((∀ u rooms ping, attachment c ≠ Some (UserAttachment u rooms ping)) →
   onClose i srv = srv).
Proof.
  intros Hc. split; [|split].
  - intros sessionId Hq (s0 & Hs0 & Hid & Hexp). unfold handleUserAuth.
    rewrite (statement_quote_free _ _ _ _ _ Hq). simpl.
    destruct (select_sessions (storage srv) sessionId now) as [|s rest] eqn:Hsel.
    { assert (Hin : s0 ∈ select_sessions (storage srv) sessionId now)
        by by apply elem_of_select_sessions.
      rewrite Hsel in Hin. by apply elem_of_nil in Hin. }
    assert (Hs : s ∈ select_sessions (storage srv) sessionId now)
      by (rewrite Hsel; left).
    apply elem_of_select_sessions in Hs as (Hs & Hsid & Hsexp).
    eexists _, s. split; [reflexivity|]. repeat split; try done.
    + erewrite lookup_broadcastUserStatus;
        [|erewrite lookup_on_connection;
          [reflexivity|by erewrite lookup_on_connection by exact Hc]].
      unfold hears_of. simpl. rewrite bool_decide_false by (by intros []).
      by rewrite andb_false_r.
    + intros j cj Hj Hcj. apply lookup_broadcastUserStatus.
      by rewrite !lookup_on_connection_ne.
  - intros u rooms ping Ha. unfold onClose, deserializeAttachment. rewrite Hc. simpl.
    rewrite Ha. split; [done|]. intros j cj Hcj. by apply lookup_broadcastUserStatus.
  - intros Hnot. unfold onClose, deserializeAttachment. rewrite Hc. simpl.
    destruct (attachment c) as [[u rooms ping|b rooms ping]|] eqn:Ha; try done.
    by destruct (Hnot u rooms ping).
Qed.

Lemma presence_is_announced_to_other_users_witness :
  connections
    (onClose 0
       (mkState (mkStore [] [] [] [] [])
          [mkConnection (Some (UserAttachment "A" [] 5)) [] false;
           mkConnection (Some (UserAttachment "A" [] 6)) [] false;
           mkConnection (Some (UserAttachment "B" [] 7)) [] false;
           mkConnection (Some (BotAttachment "bot" [] 8)) [] false] None))
  = [mkConnection (Some (UserAttachment "A" [] 5)) [] false;
     mkConnection (Some (UserAttachment "A" [] 6)) [] false;
     mkConnection (Some (UserAttachment "B" [] 7)) [user_offline "A"] false;
     mkConnection (Some (BotAttachment "bot" [] 8)) [] false].
Proof.
  destruct (presence_is_announced_to_other_users
      (mkState (mkStore [] [] [] [] [])
         [mkConnection (Some (UserAttachment "A" [] 5)) [] false;
          mkConnection (Some (UserAttachment "A" [] 6)) [] false;
          mkConnection (Some (UserAttachment "B" [] 7)) [] false;
          mkConnection (Some (BotAttachment "bot" [] 8)) [] false] None)
      0%nat _ 9 eq_refl) as (_ & Hclose & _).
  destruct (Hclose "A" [] 5 eq_refl) as [_ Hothers].
  apply list_eq. intros [|[|[|[|j]]]]; [| | | |reflexivity];
    (erewrite Hothers by reflexivity); reflexivity.
Defined.

(** *** What a frame can change *)

Lemma deserializeAttachment_attachments i srv :
  deserializeAttachment i srv = attachments srv !! i ≫= id.
Proof.
  unfold deserializeAttachment, attachments. rewrite list_lookup_fmap.
  by destruct (connections srv !! i).
Qed.

Lemma attachments_on_connection i f srv :
  (∀ c, attachment (f c) = attachment c) →
  attachments (on_connection i f srv) = attachments srv.
Proof.
  intros Hf. unfold attachments, on_connection. simpl.
  rewrite (list_fmap_alter attachment f id).
  - by apply list_alter_id.
  - by apply Forall_forall.
Qed.

Lemma attachments_serialize i a srv :
  attachments (on_connection i (serializeAttachment a) srv)
  = alter (λ _, Some a) i (attachments srv).
Proof.
  unfold attachments, on_connection. simpl.
  apply list_fmap_alter. by apply Forall_forall.
Qed.

Lemma attachments_for_each_socket body srv :
  (∀ c, attachment (body c) = attachment c) →
  attachments (for_each_socket body srv) = attachments srv.
Proof.
  intros Hbody. unfold attachments, for_each_socket. simpl.
  rewrite <- list_fmap_compose. apply list_fmap_ext.
  intros k c _. simpl. by destruct (closed c).
Qed.

Lemma attachments_broadcastUserStatus u status srv :
  attachments (broadcastUserStatus u status srv) = attachments srv.
Proof.
  apply attachments_for_each_socket. intros c.
  destruct (attachment c) as [[v rooms t|b rooms t]|] eqn:Ha; try done.
  by case_bool_decide.
Qed.

Lemma broadcastToRoom_keeps R m srv srv' :
  broadcastToRoom R m srv = Some srv' →
  attachments srv' = attachments srv ∧ storage srv' = storage srv.
Proof.
  unfold broadcastToRoom. destruct (sql_text R) as [room|]; [|done]. simpl.
  intros [= <-]. split; [|done].
  apply attachments_for_each_socket. intros c.
  destruct (attachment c) as [[v rooms t|b rooms t]|] eqn:Ha; try done.
  - by case_bool_decide.
  - destruct m; try done. by destruct (source message) as [[|]|].
Qed.

Lemma broadcastToRoom_others R m srv srv' j :
  broadcastToRoom R m srv = Some srv' →
  connections srv' !! j
  = (λ c, if closed c then c
          else match attachment c with
               | None => c
               | Some (UserAttachment u _ _) =>
                   if bool_decide (u ∈ select_room_members (storage srv) R)
                   then send m c else c
               | Some (BotAttachment _ _ _) =>
                   match m with
                   | new_message row _ =>
                       match source row with
                       | Some SrcUser =>
                           send (plugin_message R (user_id row) (content row)
                                   (created_at row)) c
                       | _ => c
                       end
                   | _ => c
                   end
               end) <$> connections srv !! j.
Proof.
  unfold broadcastToRoom. destruct (sql_text R) as [room|] eqn:HR; [|done]. simpl.
  assert (room = R) as ->.
  { unfold sql_text in HR. destruct (sql_quote_free R); by simplify_eq. }
  intros [= <-]. rewrite lookup_for_each_socket.
  destruct (connections srv !! j) as [c|]; [|done]. simpl. f_equal.
  destruct (closed c); [done|].
  destruct (attachment c) as [[v rooms t|b rooms t]|]; try done.
  repeat case_bool_decide; try done.
  - by rewrite elem_of_list_to_set in H.
  - by rewrite elem_of_list_to_set in H.
Qed.

Lemma broadcastToRoom_Some R m srv :
  sql_quote_free R = true → ∃ srv', broadcastToRoom R m srv = Some srv'.
Proof.
  intros Hq. unfold broadcastToRoom. rewrite (sql_text_quote_free _ Hq). simpl. eauto.
Qed.

(** The frames the embedding describes in full: those none of whose
    identifiers holds an apostrophe, a message of a bot being sent to a room
    that has a row, the user [bot] having one (the [FOREIGN KEY]s of
    [messages]). *)
Lemma plain_frames_are_described srv i parsed now fresh :
  plain parsed →
  (∀ room, addressed parsed = Some room →
     room ∈ rid <$> rooms (storage srv) ∧ "bot" ∈ uid <$> users (storage srv)) →
  ∃ srv', onMessage i (Some parsed) now fresh srv = Some srv'.
Proof.
  intros Hplain Hrow. simpl.
  enough (∃ completion, dispatch i parsed now fresh srv = Some completion)
    as (completion & ->) by (simpl; eauto).
  destruct parsed; simpl in *; try by eauto.
  - unfold handleUserAuth. rewrite (statement_quote_free _ _ _ _ _ Hplain). simpl.
    destruct (select_sessions _ _ _); eauto.
  - unfold handleJoinRoom.
    destruct (deserializeAttachment i srv) as [[u joined t|b subscribed t]|]; eauto.
    rewrite !(statement_quote_free _ _ _ _ _ Hplain). simpl.
    destruct (select_membership _ _ _); [by eauto|].
    rewrite ?(statement_quote_free _ _ _ _ _ Hplain). simpl. eauto.
  - unfold handleSyncRequest.
    destruct (deserializeAttachment i srv) as [[u joined t|b subscribed t]|]; eauto.
    destruct last_message_id as [last|]; simpl in *; [|by eauto].
    case_bool_decide; simpl; [by eauto|].
    rewrite (statement_quote_free _ _ _ _ _ Hplain). simpl. eauto.
  - unfold handleMessageAck. rewrite (statement_quote_free _ _ _ _ _ Hplain).
    simpl. eauto.
  - destruct Hplain as [Hq Hqe]. destruct (Hrow room eq_refl) as [Hroom Hbot].
    unfold handleBotSendMessage.
    destruct (deserializeAttachment i srv) as [[u joined t|b subscribed t]|]; eauto.
    rewrite (sql_text_quote_free _ Hq), (sql_text_quote_free _ Hqe). simpl.
    unfold insert_message. simpl. case_bool_decide; simpl; [by eauto|].
    rewrite !bool_decide_true by done. simpl.
    edestruct (broadcastToRoom_Some room) as (srv1 & ->); [done|]. simpl. eauto.
  - destruct payload as [[room text]|]; [|by eauto].
    destruct (Hrow room eq_refl) as [Hroom Hbot].
    unfold handlePluginMessage.
    destruct (deserializeAttachment i srv) as [[u joined t|b subscribed t]|]; eauto.
    rewrite (sql_text_quote_free _ Hplain). simpl.
    assert (Hst : ∀ f, storage (if bool_decide (room ∈ subscribed) then srv
                                else on_connection i f srv) = storage srv).
    { intros f. by case_bool_decide. }
    unfold insert_message. rewrite Hst. simpl.
    destruct (bool_decide (fresh ∈ mid <$> messages (storage srv))); [by eauto|].
    rewrite (bool_decide_true (room ∈ rid <$> rooms (storage srv))) by done.
    rewrite (bool_decide_true ("bot" ∈ uid <$> users (storage srv))) by done. simpl.
    edestruct (broadcastToRoom_Some room) as (srv1 & ->); [done|]. simpl. eauto.
Qed.

Lemma attachments_caught i completion :
  attachments (caught i completion) = attachments (left_by completion).
Proof. destruct completion; [done|]. by apply attachments_on_connection. Qed.

Lemma storage_caught i completion :
  storage (caught i completion) = storage (left_by completion).
Proof. by destruct completion. Qed.

(** How a statement with a value of the client runs: as written, or on a
    condition that its text came to hold. *)
Lemma statement_Runs {A R} (columns : string → option (Column A)) value text
  (written : R) read result :
  statement columns value text written read = Some (Runs result) →
  sql_quote_free value = true ∧ result = written ∨
  sql_quote_free value = false ∧ ∃ holds, read holds = Some result.
Proof.
  unfold statement. destruct (sql_quote_free value); [intros [= <-]; by left|].
  destruct (lex text Outside) as [ts| |]; try done.
  destruct (condition columns ts) as [holds|]; [|done]. simpl.
  destruct (read holds) as [r|] eqn:Hr; [|done]. intros [= <-]. right. eauto.
Qed.

Lemma statement_Fails {A R} (columns : string → option (Column A)) value text
  (written : R) read :
  statement columns value text written read = Some Fails →
  sql_quote_free value = false ∧ lex text Outside = Unterminated.
Proof.
  unfold statement. destruct (sql_quote_free value); [done|].
  destruct (lex text Outside) as [ts| |]; try done.
  destruct (condition columns ts) as [holds|]; [|done]. simpl.
  by destruct (read holds).
Qed.

Lemma insert_message_Runs db row db' :
  insert_message db row = Some (Runs db') →
  db' = store_with_messages (messages db ++ [row]) db ∧
  (mid row ∉ mid <$> messages db) ∧
  room_id row ∈ rid <$> rooms db ∧ user_id row ∈ uid <$> users db.
Proof.
  unfold insert_message. case_bool_decide as Hkey; [done|].
  destruct (bool_decide (room_id row ∈ rid <$> rooms db)) eqn:Hroom; [|done].
  destruct (bool_decide (user_id row ∈ uid <$> users db)) eqn:Huser; [|done].
  simpl. intros [= <-].
  apply bool_decide_eq_true in Hroom, Huser. done.
Qed.

(** The change a frame makes to the attachments: none, or the attachment
    of the connection it came on is replaced, and then its list of rooms is
    empty (authentication), the same (liveness), one room longer (a room
    not yet listed), or filtered. *)
Lemma dispatch_attachments srv i parsed now fresh completion :
  dispatch i parsed now fresh srv = Some completion →
  attachments (left_by completion) = attachments srv ∨
  ∃ a', attachments (left_by completion) = alter (λ _, Some a') i (attachments srv) ∧
    (rooms_of a' = [] ∨
     ∃ a, deserializeAttachment i srv = Some a ∧
       (rooms_of a' = rooms_of a ∨
        (∃ R, (R ∉ rooms_of a) ∧ rooms_of a' = rooms_of a ++ [R]) ∨
        (∃ R, rooms_of a' = filter (λ r, r ≠ R) (rooms_of a)))).
Proof.
  intros Hrun. destruct parsed; simpl in Hrun.
  - (* auth, bot *)
    simplify_eq. simpl. unfold handleBotAuth. case_bool_decide.
    + left. by rewrite !attachments_on_connection.
    + right. eexists. rewrite attachments_on_connection by done.
      split; [apply attachments_serialize|]. by left.
  - (* auth, user *)
    unfold handleUserAuth in Hrun.
    destruct (statement _ _ _ _ _) as [[[|s rest]|]|]; simplify_eq/=.
    + left. by apply attachments_on_connection.
    + right. eexists. rewrite attachments_broadcastUserStatus.
      rewrite attachments_on_connection by done.
      split; [apply attachments_serialize|]. by left.
    + by left.
  - (* ping *)
    simplify_eq. simpl. unfold handlePing.
    rewrite attachments_on_connection by done.
    destruct (deserializeAttachment i srv) as [a|] eqn:Ha; [|by left].
    right. eexists. split; [apply attachments_serialize|].
    right. exists a. split; [done|]. left. by destruct a.
  - (* heartbeat *)
    simplify_eq. simpl. unfold handleHeartbeat.
    destruct (deserializeAttachment i srv) as [a|] eqn:Ha; [|by left].
    right. eexists. split; [apply attachments_serialize|].
    right. exists a. split; [done|]. left. by destruct a.
  - (* join_room *)
    unfold handleJoinRoom in Hrun.
    destruct (deserializeAttachment i srv) as [[u rooms t|b rooms t]|] eqn:Ha;
      simplify_eq/=; try (left; by apply attachments_on_connection).
    destruct (statement room_members_columns _ _ _ _) as [[[|row rows]|]|];
      simplify_eq/=.
    { left. by apply attachments_on_connection. }
    2:{ by left. }
    assert (Hjoined :
      attachments
        (on_connection i (send (room_joined room))
           (if bool_decide (room ∈ rooms) then srv
            else on_connection i
                   (serializeAttachment (UserAttachment u (rooms ++ [room]) t)) srv))
      = attachments srv ∨
      ∃ a', attachments
              (on_connection i (send (room_joined room))
                 (if bool_decide (room ∈ rooms) then srv
                  else on_connection i
                         (serializeAttachment (UserAttachment u (rooms ++ [room]) t))
                         srv))
            = alter (λ _, Some a') i (attachments srv) ∧
            (rooms_of a' = [] ∨
             ∃ a, Some (UserAttachment u rooms t) = Some a ∧
               (rooms_of a' = rooms_of a ∨
                (∃ R, (R ∉ rooms_of a) ∧ rooms_of a' = rooms_of a ++ [R]) ∨
                (∃ R, rooms_of a' = filter (λ r, r ≠ R) (rooms_of a))))).
    { rewrite attachments_on_connection by done.
      case_bool_decide as Hin; [by left|].
      right. eexists. split; [apply attachments_serialize|].
      right. eexists. split; [done|]. right. left. by exists room. }
    destruct (statement _ _ _ _ _) as [[recent|]|]; simplify_eq/=; [|done].
    by rewrite attachments_on_connection.
  - (* leave_room *)
    simplify_eq. simpl. unfold handleLeaveRoom.
    rewrite attachments_on_connection by done.
    destruct (deserializeAttachment i srv) as [[u rooms t|b rooms t]|] eqn:Ha;
      try by left.
    right. eexists. split; [apply attachments_serialize|].
    right. eexists. split; [done|]. right. right. by exists room.
  - (* sync_request *)
    unfold handleSyncRequest in Hrun.
    destruct (deserializeAttachment i srv) as [[u rooms t|b rooms t]|] eqn:Ha;
      simplify_eq/=; try by left.
    destruct (sync_bound (storage srv) last_message_id) as [[after|]|];
      simplify_eq/=; [|by left].
    left. by apply attachments_on_connection.
  - (* message_ack *)
    unfold handleMessageAck in Hrun.
    destruct (statement _ _ _ _ _) as [[db|]|]; simplify_eq/=; by left.
  - (* subscribe *)
    simplify_eq. simpl. unfold handleBotSubscribe.
    destruct (deserializeAttachment i srv) as [[u rooms t|b rooms t]|] eqn:Ha;
      try (left; by apply attachments_on_connection).
    case_bool_decide as Hin; [by left|].
    right. eexists. split; [apply attachments_serialize|].
    right. eexists. split; [done|]. right. left. by exists room.
  - (* unsubscribe *)
    simplify_eq. simpl. unfold handleBotUnsubscribe.
    destruct (deserializeAttachment i srv) as [[u rooms t|b rooms t]|] eqn:Ha;
      try by left.
    right. eexists. split; [apply attachments_serialize|].
    right. eexists. split; [done|]. right. right. by exists room.
  - (* send_message *)
    unfold handleBotSendMessage in Hrun.
    destruct (deserializeAttachment i srv) as [[u rooms t|b rooms t]|] eqn:Ha;
      simplify_eq/=; try (left; by apply attachments_on_connection).
    destruct (sql_text room) as [R|]; [|done]. simpl in Hrun.
    destruct (sql_text (default EmptyString external)) as [ext|]; [|done].
    simpl in Hrun.
    destruct (insert_message _ _) as [[db|]|]; simplify_eq/=; [|by left].
    destruct (broadcastToRoom _ _ _) as [srv1|] eqn:Hb; [|done].
    simpl in Hrun. simplify_eq. simpl.
    apply broadcastToRoom_keeps in Hb as [Hb _].
    left. rewrite attachments_on_connection by done. by rewrite Hb.
  - (* message *)
    destruct payload as [[room text]|]; simplify_eq/=; [|by left].
    unfold handlePluginMessage in Hrun.
    destruct (deserializeAttachment i srv) as [[u rooms t|b rooms t]|] eqn:Ha;
      simplify_eq/=; try (left; by apply attachments_on_connection).
    assert (Hpushed :
      attachments
        (if bool_decide (room ∈ rooms) then srv
         else on_connection i
                (serializeAttachment (BotAttachment b (rooms ++ [room]) t)) srv)
      = attachments srv ∨
      ∃ a', attachments
              (if bool_decide (room ∈ rooms) then srv
               else on_connection i
                      (serializeAttachment (BotAttachment b (rooms ++ [room]) t)) srv)
            = alter (λ _, Some a') i (attachments srv) ∧
            (rooms_of a' = [] ∨
             ∃ a, Some (BotAttachment b rooms t) = Some a ∧
               (rooms_of a' = rooms_of a ∨
                (∃ R, (R ∉ rooms_of a) ∧ rooms_of a' = rooms_of a ++ [R]) ∨
                (∃ R, rooms_of a' = filter (λ r, r ≠ R) (rooms_of a))))).
    { case_bool_decide as Hin; [by left|].
      right. eexists. split; [apply attachments_serialize|].
      right. eexists. split; [done|]. right. left. by exists room. }
    destruct (sql_text room) as [R|]; [|done]. simpl in Hrun.
    destruct (insert_message _ _) as [[db|]|]; simplify_eq/=; [|done].
    destruct (broadcastToRoom _ _ _) as [srv1|] eqn:Hb; [|done].
    simpl in Hrun. simplify_eq. simpl.
    apply broadcastToRoom_keeps in Hb as [Hb _].
    rewrite attachments_on_connection by done. rewrite Hb. exact Hpushed.
  - (* unknown *)
    simplify_eq. by left.
Qed.

Lemma onMessage_attachments srv i frame now fresh srv' :
  onMessage i frame now fresh srv = Some srv' →
  attachments srv' = attachments srv ∨
  ∃ a', attachments srv' = alter (λ _, Some a') i (attachments srv) ∧
    (rooms_of a' = [] ∨
     ∃ a, deserializeAttachment i srv = Some a ∧
       (rooms_of a' = rooms_of a ∨
        (∃ R, (R ∉ rooms_of a) ∧ rooms_of a' = rooms_of a ++ [R]) ∨
        (∃ R, rooms_of a' = filter (λ r, r ≠ R) (rooms_of a)))).
Proof.
  intros Hrun. destruct frame as [parsed|]; simpl in Hrun.
  2:{ left. simplify_eq. by apply attachments_on_connection. }
  destruct (dispatch i parsed now fresh srv) as [completion|] eqn:Hd; [|done].
  simpl in Hrun. simplify_eq. rewrite attachments_caught.
  by eapply dispatch_attachments.
Qed.

Lemma no_room_twice_attachments srv :
  no_room_twice srv ↔
  ∀ i a, attachments srv !! i = Some (Some a) → NoDup (rooms_of a).
Proof.
  unfold no_room_twice. setoid_rewrite deserializeAttachment_attachments. split.
  - intros H i a Hi. apply (H i). by rewrite Hi.
  - intros H i a Hi. apply (H i).
    destruct (attachments srv !! i) as [[a'|]|]; simpl in Hi; by simplify_eq.
Qed.

(** X5. The room lists of the attachments are sets. If no attachment lists
    a room twice in joinedRooms or subscribedRooms, this is still so after
    any close, after any sweep of the heartbeat monitor, and after every
    frame that the embedding describes: every frame none of whose
    identifiers holds an apostrophe (a message of a bot being sent to a room
    that has a row, the user 'bot' having one: lemma
    plain_frames_are_described), and the frames with an apostrophe whose
    statement the embedding reads. A frame that makes a statement throw is
    among them. *)
Theorem room_lists_hold_no_room_twice (srv : State) :
  no_room_twice srv →
  (∀ i frame now fresh srv',
     onMessage i frame now fresh srv = Some srv' → no_room_twice srv') ∧
  (∀ i, no_room_twice (onClose i srv)) ∧
  (∀ now, no_room_twice (heartbeatCheck now srv)).
Proof.
  intros Hinv. split; [|split].
  - intros i frame now fresh srv' Hrun.
    pose proof Hinv as Hat. rewrite no_room_twice_attachments in Hat.
    apply no_room_twice_attachments. intros j a' Hj.
    apply onMessage_attachments in Hrun as [Hsame|(a1 & Hset & Hrooms)].
    { rewrite Hsame in Hj. eauto. }
    rewrite Hset in Hj. rewrite list_lookup_alter in Hj.
    destruct (decide (i = j)) as [<-|Hne]; [|eauto].
    destruct (attachments srv !! i) as [oa|] eqn:Hi; simpl in Hj; simplify_eq.
    destruct Hrooms as [Hnil|(a & Ha & Hcase)].
    { rewrite Hnil. constructor. }
    specialize (Hinv i a Ha).
    destruct Hcase as [Heq|[(R & HR & Heq)|(R & Heq)]]; rewrite Heq.
    + done.
    + rewrite list.NoDup_app. split; [done|]. split; [|apply NoDup_singleton].
      intros x Hx Hx'. apply list_elem_of_singleton in Hx' as ->. done.
    + by apply list.NoDup_filter.
  - intros i. unfold onClose.
    destruct (deserializeAttachment i srv) as [[u rooms t|b rooms t]|]; try done.
    apply no_room_twice_attachments. rewrite attachments_broadcastUserStatus.
    by apply no_room_twice_attachments.
  - intros now. apply no_room_twice_attachments. unfold heartbeatCheck.
    rewrite attachments_for_each_socket; [by apply no_room_twice_attachments|].
    intros c. destruct (attachment c) as [a|] eqn:Ha; [|done].
    by case_bool_decide.
Qed.

(** A bot sends the same [message] frame twice with the same generated id:
    the second [INSERT] throws after the room was looked up in
    [subscribedRooms], and the list still holds the room once. *)
Lemma room_lists_hold_no_room_twice_witness :
  ∃ srv1 srv2,
    let srv :=
      mkState
        (mkStore [bot_user 0] [] [] [] [mkRoom "r1" "one" "bot" None 1])
        [mkConnection (Some (BotAttachment "bot" [] 5)) [] false] None in
    onMessage 0 (Some (In_message (Some ("r1", "hi")))) 9 "id" srv = Some srv1 ∧
    onMessage 0 (Some (In_message (Some ("r1", "hi")))) 9 "id" srv1 = Some srv2 ∧
    connections srv2 !! 0%nat
    = Some (mkConnection (Some (BotAttachment "bot" ["r1"] 5))
              [message_sent "id" None; error "Invalid message format"] false) ∧
    no_room_twice srv2.
Proof.
  eexists _, _. cbv zeta.
  split; [vm_compute; reflexivity|]. split; [vm_compute; reflexivity|].
  split; [reflexivity|].
  assert (Hinit : no_room_twice
            (mkState
               (mkStore [bot_user 0] [] [] [] [mkRoom "r1" "one" "bot" None 1])
               [mkConnection (Some (BotAttachment "bot" [] 5)) [] false] None)).
  { intros [|i] a Ha; vm_compute in Ha; simplify_eq. constructor. }
  destruct (room_lists_hold_no_room_twice _ Hinit) as [Hstep _].
  pose proof (Hstep 0%nat (Some (In_message (Some ("r1", "hi")))) 9 "id" _ eq_refl)
    as Hone.
  destruct (room_lists_hold_no_room_twice _ Hone) as [Hstep' _].
  exact (Hstep' 0%nat (Some (In_message (Some ("r1", "hi")))) 9 "id" _ eq_refl).
Defined.

(** X6. What a WebSocket frame can do to the store, for every frame that
    the embedding describes: every frame none of whose identifiers holds an
    apostrophe (a message of a bot being sent to a room that has a row, the
    user 'bot' having one: lemma plain_frames_are_described), and the frames
    with an apostrophe whose statement the embedding reads. The tables
    users, room_members, sessions and rooms are unchanged. The table
    messages is unchanged too, with two exceptions. A message_ack frame (of
    any connection, authenticated or not) changes nothing but the
    acknowledged column, which it sets to 1 on the rows its statement
    selects: for an id without apostrophe, the messages with that id. A
    send_message or message frame of a connection attached as a bot appends
    one row, with the generated id (which no message carried), user_id
    'bot', source 'bot', created_at now and acknowledged 0, for a room that
    has a row. *)
Theorem websocket_frames_spare_the_store (srv srv' : State) (i : nat)
  (frame : option Inbound) (now : Z) (fresh : string) :
  onMessage i frame now fresh srv = Some srv' →
  users (storage srv') = users (storage srv) ∧
  room_members (storage srv') = room_members (storage srv) ∧
  sessions (storage srv') = sessions (storage srv) ∧
  rooms (storage srv') = rooms (storage srv) ∧
  (messages (storage srv') = messages (storage srv) ∨
   (∃ id status (selects : Message → bool),
      frame = Some (In_message_ack id status) ∧
      messages (storage srv')
      = (λ m, if selects m then acknowledged_row m else m) <$> messages (storage srv) ∧
      (sql_quote_free id = true → ∀ m, selects m = bool_decide (mid m = id))) ∨
   (∃ row botId subscribed ping,
      deserializeAttachment i srv = Some (BotAttachment botId subscribed ping) ∧
      messages (storage srv') = messages (storage srv) ++ [row] ∧
      mid row = fresh ∧ (fresh ∉ mid <$> messages (storage srv)) ∧
      room_id row ∈ rid <$> rooms (storage srv) ∧
      user_id row = "bot" ∧ source row = Some SrcBot ∧
      created_at row = now ∧ acknowledged row = Some 0)).
Proof.
  intros Hrun. destruct frame as [parsed|]; simpl in Hrun.
  2:{ simplify_eq. repeat split; by left. }
  destruct (dispatch i parsed now fresh srv) as [completion|] eqn:Hd; [|done].
  simpl in Hrun. simplify_eq.
  rewrite storage_caught.
  destruct parsed; simpl in Hd.
  - simplify_eq. simpl. unfold handleBotAuth. case_bool_decide; repeat split; by left.
  - unfold handleUserAuth in Hd.
    destruct (statement _ _ _ _ _) as [[[|s rest]|]|]; simplify_eq/=;
      repeat split; by left.
  - simplify_eq. simpl. unfold handlePing.
    destruct (deserializeAttachment i srv); repeat split; by left.
  - simplify_eq. simpl. unfold handleHeartbeat.
    destruct (deserializeAttachment i srv); repeat split; by left.
  - unfold handleJoinRoom in Hd.
    destruct (deserializeAttachment i srv) as [[u joined t|b subscribed t]|];
      simplify_eq/=; try (repeat split; by left).
    destruct (statement room_members_columns _ _ _ _) as [[[|row rows]|]|];
      simplify_eq/=; try (repeat split; by left).
    destruct (statement _ _ _ _ _) as [[recent|]|]; simplify_eq/=;
      case_bool_decide; repeat split; by left.
  - simplify_eq. simpl. unfold handleLeaveRoom.
    destruct (deserializeAttachment i srv) as [[u joined t|b subscribed t]|];
      repeat split; by left.
  - unfold handleSyncRequest in Hd.
    destruct (deserializeAttachment i srv) as [[u joined t|b subscribed t]|];
      simplify_eq/=; try (repeat split; by left).
    destruct (sync_bound (storage srv) last_message_id) as [[after|]|];
      simplify_eq/=; repeat split; by left.
  - unfold handleMessageAck in Hd.
    destruct (statement _ _ _ _ _) as [[db|]|] eqn:Hs; simplify_eq/=;
      [|repeat split; by left].
    apply statement_Runs in Hs as [[Hq ->]|[Hq (holds & [= <-])]].
    + repeat split. right. left.
      exists message_id, status, (λ m, bool_decide (mid m = message_id)).
      by repeat split.
    + repeat split. right. left. exists message_id, status, holds.
      split; [done|]. split; [done|]. by rewrite Hq.
  - simplify_eq. simpl. unfold handleBotSubscribe.
    destruct (deserializeAttachment i srv) as [[u joined t|b subscribed t]|];
      try (repeat split; by left).
    case_bool_decide; repeat split; by left.
  - simplify_eq. simpl. unfold handleBotUnsubscribe.
    destruct (deserializeAttachment i srv) as [[u joined t|b subscribed t]|];
      repeat split; by left.
  - unfold handleBotSendMessage in Hd.
    destruct (deserializeAttachment i srv) as [[u joined t|b subscribed t]|] eqn:Ha;
      simplify_eq/=; try (repeat split; by left).
    destruct (sql_text room) as [R|]; [|done]. simpl in Hd.
    destruct (sql_text (default EmptyString external)) as [ext|]; [|done].
    simpl in Hd.
    destruct (insert_message _ _) as [[db|]|] eqn:Hi; simplify_eq/=;
      [|repeat split; by left].
    apply insert_message_Runs in Hi as (-> & Hkey & Hroom & Huser).
    destruct (broadcastToRoom _ _ _) as [srv1|] eqn:Hb; [|done].
    simpl in Hd. simplify_eq. simpl.
    apply broadcastToRoom_keeps in Hb as [_ Hb]. rewrite Hb. simpl.
    repeat split. right. right. eexists _, _, _, _.
    repeat split; try done.
  - destruct payload as [[room text]|]; simplify_eq/=; [|repeat split; by left].
    unfold handlePluginMessage in Hd.
    destruct (deserializeAttachment i srv) as [[u joined t|b subscribed t]|] eqn:Ha;
      simplify_eq/=; try (repeat split; by left).
    destruct (sql_text room) as [R|]; [|done]. simpl in Hd.
    destruct (insert_message _ _) as [[db|]|] eqn:Hi; simplify_eq/=.
    2:{ case_bool_decide; repeat split; by left. }
    apply insert_message_Runs in Hi as (-> & Hkey & Hroom & Huser).
    destruct (broadcastToRoom _ _ _) as [srv1|] eqn:Hb; [|done].
    simpl in Hd. simplify_eq. simpl.
    apply broadcastToRoom_keeps in Hb as [_ Hb]. rewrite Hb. simpl.
    simpl in Hkey, Hroom.
    case_bool_decide; simpl in *; repeat split; right; right;
      eexists _, _, _, _; repeat split; try done.
  - simplify_eq. repeat split; by left.
Qed.

(** A bot sends a message to a room that exists: one row is appended. *)
Lemma websocket_frames_spare_the_store_witness :
  ∃ srv',
    onMessage 0 (Some (In_send_message "r1" "hi" None)) 9 "id"
      (mkState (mkStore [bot_user 0] [] [] [] [mkRoom "r1" "one" "bot" None 1])
         [mkConnection (Some (BotAttachment "bot" [] 5)) [] false] None) = Some srv' ∧
    messages (storage srv')
    = [mkMessage "id" "r1" "bot" "hi" "text" 9 (Some SrcBot) (Some EmptyString) (Some 0)] ∧
    users (storage srv') = [bot_user 0].
Proof.
  eexists. split; [vm_compute; reflexivity|]. split; [reflexivity|].
  match goal with
  | |- users (storage ?s') = _ =>
      destruct (websocket_frames_spare_the_store
        (mkState (mkStore [bot_user 0] [] [] [] [mkRoom "r1" "one" "bot" None 1])
           [mkConnection (Some (BotAttachment "bot" [] 5)) [] false] None)
        s' 0%nat (Some (In_send_message "r1" "hi" None)) 9 "id" eq_refl)
        as (Husers & _)
  end.
  exact Husers.
Defined.

(** X7. A connection that has not authenticated and sends a frame other
    than auth or auth_bot stays unauthenticated, and nothing is sent to any
    other connection. It is answered pong for a ping, the error 'Not
    authenticated' for join_room, room_left for leave_room (it never
    joined), the error 'Not authenticated as bot' for subscribe,
    send_message and a message frame with a payload, and nothing for the
    other frames, with one exception: a message_ack whose message_id holds
    an apostrophe that leaves a string literal of its statement open is
    answered the error 'Invalid message format'. The store is unchanged
    unless the frame is a
    message_ack. (Among the frames of such a connection the embedding
    leaves out only a message_ack whose message_id holds an apostrophe and
    makes a statement it does not read.) *)
Theorem unauthenticated_connection_is_confined (srv srv' : State) (i : nat)
  (c : Connection) (parsed : Inbound) (now : Z) (fresh : string) :
  connections srv !! i = Some c →
  attachment c = None →
  (∀ key, parsed ≠ In_auth_bot key) →
  (∀ session, parsed ≠ In_auth_user session) →
  onMessage i (Some parsed) now fresh srv = Some srv' →
  (∀ j, j ≠ i → connections srv' !! j = connections srv !! j) ∧
  (∃ replies,
     connections srv' !! i = Some (mkConnection None (outbox c ++ replies) (closed c)) ∧
     match parsed with
     | In_ping _ => replies = [pong now]
     | In_join_room _ => replies = [error "Not authenticated"]
     | In_leave_room room => replies = [room_left room]
     | In_subscribe _ | In_send_message _ _ _ | In_message (Some _) =>
         replies = [error "Not authenticated as bot"]
     | In_message_ack id _ =>
         replies = [] ∨
         sql_quote_free id = false ∧
         lex (raw "id = '" ++ raw id ++ raw "'") Outside = Unterminated ∧
         replies = [error "Invalid message format"]
     | _ => replies = []
     end) ∧
  (storage srv' = storage srv ∨ ∃ id status, parsed = In_message_ack id status).
Proof.
  intros Hc Ha Hbot Huser Hrun.
  assert (Hd : deserializeAttachment i srv = None).
  { unfold deserializeAttachment. rewrite Hc. simpl. exact Ha. }
  assert (Hsame : ∀ srv0, connections srv0 = connections srv →
            connections srv0 !! i = Some (mkConnection None (outbox c ++ []) (closed c))).
  { intros ? ->. rewrite Hc, app_nil_r. f_equal. destruct c; simpl in *; by subst. }
  assert (Hsend : ∀ m, connections (on_connection i (send m) srv) !! i
                       = Some (mkConnection None (outbox c ++ [m]) (closed c))).
  { intros m. erewrite lookup_on_connection by exact Hc. unfold send. by rewrite Ha. }
  simpl in Hrun.
  destruct (dispatch i parsed now fresh srv) as [completion|] eqn:Hrun'; [|done].
  simpl in Hrun. simplify_eq.
  destruct parsed; simpl in Hrun'.
  - by destruct (Hbot api_key).
  - by destruct (Huser session).
  - simplify_eq. simpl. unfold handlePing. rewrite Hd. split; [|split].
    + intros j Hj. by apply lookup_on_connection_ne.
    + eexists. split; [apply Hsend|done].
    + by left.
  - simplify_eq. simpl. unfold handleHeartbeat. rewrite Hd.
    split; [done|]. split; [|by left].
    eexists. split; [by apply Hsame|done].
  - unfold handleJoinRoom in Hrun'. rewrite Hd in Hrun'. simplify_eq. simpl.
    split; [|split].
    + intros j Hj. by apply lookup_on_connection_ne.
    + eexists. split; [apply Hsend|done].
    + by left.
  - simplify_eq. simpl. unfold handleLeaveRoom. rewrite Hd. split; [|split].
    + intros j Hj. by apply lookup_on_connection_ne.
    + eexists. split; [apply Hsend|done].
    + by left.
  - unfold handleSyncRequest in Hrun'. rewrite Hd in Hrun'. simplify_eq. simpl.
    split; [done|]. split; [|by left]. eexists. split; [by apply Hsame|done].
  - unfold handleMessageAck in Hrun'.
    destruct (statement _ _ _ _ _) as [[db|]|] eqn:Hs; simplify_eq/=.
    + split; [done|]. split; [|right; by eexists _, _].
      eexists. split; [by apply Hsame|by left].
    + apply statement_Fails in Hs as [Hq Hlex].
      split; [|split; [|right; by eexists _, _]].
      * intros j Hj. by apply lookup_on_connection_ne.
      * eexists. split; [apply Hsend|]. right. by repeat split.
  - simplify_eq. simpl. unfold handleBotSubscribe. rewrite Hd. split; [|split].
    + intros j Hj. by apply lookup_on_connection_ne.
    + eexists. split; [apply Hsend|done].
    + by left.
  - simplify_eq. simpl. unfold handleBotUnsubscribe. rewrite Hd.
    split; [done|]. split; [|by left]. eexists. split; [by apply Hsame|done].
  - unfold handleBotSendMessage in Hrun'. rewrite Hd in Hrun'. simplify_eq. simpl.
    split; [|split].
    + intros j Hj. by apply lookup_on_connection_ne.
    + eexists. split; [apply Hsend|done].
    + by left.
  - destruct payload as [[room text]|]; simplify_eq/=.
    + unfold handlePluginMessage in Hrun'. rewrite Hd in Hrun'. simplify_eq. simpl.
      split; [|split].
      * intros j Hj. by apply lookup_on_connection_ne.
      * eexists. split; [apply Hsend|done].
      * by left.
    + split; [done|]. split; [|by left]. eexists. split; [by apply Hsame|done].
  - simplify_eq. simpl. split; [done|]. split; [|by left].
    eexists. split; [by apply Hsame|done].
Qed.

(** A connection that has not authenticated acknowledges the id made of one
    apostrophe. *)
Lemma unauthenticated_connection_is_confined_witness :
  ∃ srv',
    onMessage 0 (Some (In_message_ack "'" "read")) 9 "id"
      (mkState (mkStore [] [] [mkRoomMember "r1" "A" 1] [] [])
         [fresh_connection; mkConnection (Some (UserAttachment "A" [] 5)) [] false]
         None) = Some srv' ∧
    connections srv' !! 0%nat
    = Some (mkConnection None [error "Invalid message format"] false) ∧
    connections srv' !! 1%nat
    = Some (mkConnection (Some (UserAttachment "A" [] 5)) [] false).
Proof.
  eexists. split; [vm_compute; reflexivity|]. split; [reflexivity|].
  destruct (unauthenticated_connection_is_confined
      (mkState (mkStore [] [] [mkRoomMember "r1" "A" 1] [] [])
         [fresh_connection; mkConnection (Some (UserAttachment "A" [] 5)) [] false] None)
      (mkState (mkStore [] [] [mkRoomMember "r1" "A" 1] [] [])
         [mkConnection None [error "Invalid message format"] false;
          mkConnection (Some (UserAttachment "A" [] 5)) [] false] None)
      0%nat fresh_connection (In_message_ack "'" "read") 9 "id" eq_refl eq_refl
      ltac:(discriminate) ltac:(discriminate) ltac:(vm_compute; reflexivity))
    as (Hothers & _).
  exact (Hothers 1%nat ltac:(lia)).
Defined.

(** *** Joining and leaving *)

Lemma filter_ne_not_in (R : string) (rooms : list string) :
  R ∉ rooms → filter (λ r, r ≠ R) rooms = rooms.
Proof.
  induction rooms as [|r rooms IH]; intros Hnot; [done|].
  rewrite filter_cons. apply not_elem_of_cons in Hnot as [Hne Hnot].
  rewrite decide_True by done. by rewrite IH.
Qed.

Lemma filter_ne_snoc (R : string) (rooms : list string) :
  R ∉ rooms → filter (λ r, r ≠ R) (rooms ++ [R]) = rooms.
Proof.
  intros Hnot. rewrite list.filter_app, filter_ne_not_in by done.
  rewrite filter_cons, decide_False by (by intros []).
  by rewrite filter_nil, app_nil_r.
Qed.

Lemma filter_ne_not_elem (R : string) (rooms : list string) :
  R ∉ filter (λ r, r ≠ R) rooms.
Proof. rewrite list_elem_of_filter. by intros []. Qed.

Lemma select_membership_cons db room user :
  isMember db room user → ∃ m ms, select_membership db room user = m :: ms.
Proof.
  intros (m & Hm & Hr & Hu).
  destruct (select_membership db room user) as [|m' ms] eqn:Hsel; [|by eauto].
  assert (Hin : m ∈ select_membership db room user).
  { unfold select_membership. apply list_elem_of_filter. auto. }
  rewrite Hsel in Hin. by apply elem_of_nil in Hin.
Qed.

(** X8. leave_room removes the room from joinedRooms of the user's attachment
    and is answered room_left, whether or not the room had been joined (then
    the list is unchanged). For a member of the room, join_room of a room
    already joined leaves the attachment as it is; join_room of a room not yet
    joined appends it to joinedRooms, and a leave_room that follows restores
    the attachment as it was before. *)
Theorem leaving_undoes_joining (srv : State) (i : nat) (c : Connection)
  (u : string) (rooms : list string) (ping : Z) (R : string) :
  connections srv !! i = Some c →
  attachment c = Some (UserAttachment u rooms ping) →
  (connections (handleLeaveRoom i R srv) !! i
   = Some (mkConnection (Some (UserAttachment u (filter (λ r, r ≠ R) rooms) ping))
             (outbox c ++ [room_left R]) (closed c)) ∧
   (R ∉ filter (λ r, r ≠ R) rooms) ∧
   (R ∉ rooms → filter (λ r, r ≠ R) rooms = rooms)) ∧
  (∀ now,
     sql_quote_free R = true →
     isMember (storage srv) R u →
     ∃ srv',
       handleJoinRoom i R now srv = Some (Completes srv') ∧
       (R ∈ rooms → deserializeAttachment i srv' = Some (UserAttachment u rooms ping)) ∧
       (R ∉ rooms →
        deserializeAttachment i srv' = Some (UserAttachment u (rooms ++ [R]) ping) ∧
        deserializeAttachment i (handleLeaveRoom i R srv')
        = Some (UserAttachment u rooms ping))).
Proof.
  intros Hc Ha.
  assert (Hd : deserializeAttachment i srv = Some (UserAttachment u rooms ping)).
  { unfold deserializeAttachment. rewrite Hc. simpl. exact Ha. }
  split; [split; [|split]|].
  - unfold handleLeaveRoom. rewrite Hd.
    erewrite lookup_on_connection; [|by erewrite lookup_on_connection by exact Hc].
    done.
  - apply filter_ne_not_elem.
  - apply filter_ne_not_in.
  - intros now Hq Hmem. unfold handleJoinRoom. rewrite Hd.
    rewrite (statement_quote_free _ _ _ _ _ Hq). simpl.
    destruct (select_membership_cons _ _ _ Hmem) as (m & ms & ->).
    rewrite ?(statement_quote_free _ _ _ _ _ Hq). simpl.
    eexists. split; [reflexivity|]. split.
    + intros Hin. rewrite bool_decide_true by done.
      unfold deserializeAttachment.
      erewrite lookup_on_connection; [|by erewrite lookup_on_connection by exact Hc].
      done.
    + intros Hnot. rewrite bool_decide_false by done.
      set (srv1 := on_connection i _ (on_connection i _ (on_connection i _ srv))).
      assert (Hc1 : ∃ out, connections srv1 !! i
                = Some (mkConnection (Some (UserAttachment u (rooms ++ [R]) ping))
                          out (closed c))).
      { eexists. subst srv1.
        erewrite lookup_on_connection;
          [|erewrite lookup_on_connection;
            [|by erewrite lookup_on_connection by exact Hc]; reflexivity].
        done. }
      destruct Hc1 as (out & Hc1). split.
      * unfold deserializeAttachment. by rewrite Hc1.
      * unfold handleLeaveRoom, deserializeAttachment at 2. rewrite Hc1. simpl.
        unfold deserializeAttachment.
        erewrite lookup_on_connection;
          [|by erewrite lookup_on_connection by exact Hc1].
        simpl. by rewrite filter_ne_snoc.
Qed.

Lemma leaving_undoes_joining_witness :
  ∃ srv',
    handleJoinRoom 0 "r1" 9
      (mkState (mkStore [] [] [mkRoomMember "r1" "A" 1] [] [])
         [mkConnection (Some (UserAttachment "A" ["r0"] 5)) [] false] None)
    = Some (Completes srv') ∧
    deserializeAttachment 0 srv' = Some (UserAttachment "A" ["r0"; "r1"] 5) ∧
    deserializeAttachment 0 (handleLeaveRoom 0 "r1" srv')
    = Some (UserAttachment "A" ["r0"] 5).
Proof.
  destruct (leaving_undoes_joining
      (mkState (mkStore [] [] [mkRoomMember "r1" "A" 1] [] [])
         [mkConnection (Some (UserAttachment "A" ["r0"] 5)) [] false] None)
      0%nat _ "A" ["r0"] 5 "r1" eq_refl eq_refl) as [_ Hjoin].
  destruct (Hjoin 9 eq_refl) as (srv' & Hrun & _ & Hnew).
  { exists (mkRoomMember "r1" "A" 1). split; [left|]. by split. }
  exists srv'. split; [exact Hrun|]. apply Hnew.
  intros Hin. apply list_elem_of_singleton in Hin. discriminate Hin.
Defined.

(** X9. Subscriptions of a bot. subscribe adds the room at the end of
    subscribedRooms unless it is there, sends nothing, and doing it twice is
    the same as doing it once; unsubscribe removes the room and sends nothing;
    unsubscribe after subscribe of a room that was not subscribed restores the
    server exactly. From a connection that is not attached as a bot, subscribe
    is answered with the error 'Not authenticated as bot' and unsubscribe does
    nothing, without an answer. *)
Theorem unsubscribing_undoes_subscribing (srv : State) (i : nat) (c : Connection)
  (R : string) :
  connections srv !! i = Some c →
  (∀ b rooms ping,
     attachment c = Some (BotAttachment b rooms ping) →
     handleBotSubscribe i R (handleBotSubscribe i R srv) = handleBotSubscribe i R srv ∧
     (∃ rooms',
        connections (handleBotSubscribe i R srv) !! i
        = Some (mkConnection (Some (BotAttachment b rooms' ping)) (outbox c) (closed c)) ∧
        R ∈ rooms' ∧ (R ∈ rooms → rooms' = rooms) ∧ (R ∉ rooms → rooms' = rooms ++ [R])) ∧
     connections (handleBotUnsubscribe i R srv) !! i
     = Some (mkConnection (Some (BotAttachment b (filter (λ r, r ≠ R) rooms) ping))
               (outbox c) (closed c)) ∧
     (R ∉ rooms → handleBotUnsubscribe i R (handleBotSubscribe i R srv) = srv)) ∧
  ((∀ b rooms ping, attachment c ≠ Some (BotAttachment b rooms ping)) →
   connections (handleBotSubscribe i R srv) !! i
   = Some (send (error "Not authenticated as bot") c) ∧
   handleBotUnsubscribe i R srv = srv).
Proof.
  intros Hc. split.
  - intros b rooms ping Ha.
    assert (Hd : deserializeAttachment i srv = Some (BotAttachment b rooms ping)).
    { unfold deserializeAttachment. rewrite Hc. simpl. exact Ha. }
    assert (Hsub : R ∉ rooms →
              connections (handleBotSubscribe i R srv) !! i
              = Some (mkConnection (Some (BotAttachment b (rooms ++ [R]) ping))
                        (outbox c) (closed c))).
    { intros Hnot. unfold handleBotSubscribe. rewrite Hd.
      rewrite bool_decide_false by done. by erewrite lookup_on_connection by exact Hc. }
    assert (Hkeep : R ∈ rooms → handleBotSubscribe i R srv = srv).
    { intros Hin. unfold handleBotSubscribe. rewrite Hd. by rewrite bool_decide_true. }
    split; [|split; [|split]].
    + destruct (decide (R ∈ rooms)) as [Hin|Hnot].
      * by rewrite !Hkeep.
      * unfold handleBotSubscribe at 1. unfold deserializeAttachment.
        rewrite (Hsub Hnot). simpl. rewrite bool_decide_true; [done|].
        apply elem_of_app. right. left.
    + destruct (decide (R ∈ rooms)) as [Hin|Hnot].
      * exists rooms. rewrite (Hkeep Hin). split; [|by auto].
        rewrite Hc. f_equal. destruct c; simpl in *; by subst.
      * exists (rooms ++ [R]). split; [by apply Hsub|]. split; [|by auto].
        apply elem_of_app. right. left.
    + unfold handleBotUnsubscribe. rewrite Hd.
      by erewrite lookup_on_connection by exact Hc.
    + intros Hnot. unfold handleBotUnsubscribe, deserializeAttachment.
      rewrite (Hsub Hnot). simpl. rewrite filter_ne_snoc by done.
      unfold handleBotSubscribe. rewrite Hd, bool_decide_false by done.
      unfold on_connection. simpl. rewrite list_alter_alter_eq.
      destruct srv as [db cs key]. simpl in *. f_equal.
      apply list_eq. intros j. rewrite list_lookup_alter.
      destruct (decide (i = j)) as [<-|Hne]; [|done].
      rewrite Hc. simpl. f_equal. destruct c; simpl in *; by subst.
  - intros Hnot.
    assert (Hd : ∀ b rooms ping,
              deserializeAttachment i srv ≠ Some (BotAttachment b rooms ping)).
    { intros b rooms ping. unfold deserializeAttachment. rewrite Hc. simpl. apply Hnot. }
    split.
    + unfold handleBotSubscribe.
      destruct (deserializeAttachment i srv) as [[u rooms t|b rooms t]|] eqn:Ha;
        try by erewrite lookup_on_connection by exact Hc.
      by destruct (Hd b rooms t).
    + unfold handleBotUnsubscribe.
      destruct (deserializeAttachment i srv) as [[u rooms t|b rooms t]|] eqn:Ha;
        try done.
      by destruct (Hd b rooms t).
Qed.

Lemma unsubscribing_undoes_subscribing_witness :
  handleBotUnsubscribe 0 "r1"
    (handleBotSubscribe 0 "r1"
       (mkState (mkStore [] [] [] [] [])
          [mkConnection (Some (BotAttachment "bot" ["r0"] 5)) [] false] None))
  = mkState (mkStore [] [] [] [] [])
      [mkConnection (Some (BotAttachment "bot" ["r0"] 5)) [] false] None.
Proof.
  destruct (unsubscribing_undoes_subscribing
      (mkState (mkStore [] [] [] [] [])
         [mkConnection (Some (BotAttachment "bot" ["r0"] 5)) [] false] None)
      0%nat _ "r1" eq_refl) as [Hbot _].
  destruct (Hbot "bot" ["r0"] 5 eq_refl) as (_ & _ & _ & Hundo).
  apply Hundo. intros Hin. apply list_elem_of_singleton in Hin. discriminate Hin.
Defined.

End ServerRuns.

(** ** Passwords *)
Section PasswordProperties.
Import Server Http.

Lemma ToInt32_ex z : ∃ k, ToInt32 z = z + k * 2 ^ 32.
Proof.
  exists (- ((z + 2 ^ 31) `div` 2 ^ 32)). unfold ToInt32.
  rewrite Z.mod_eq by lia. lia.
Qed.

Lemma ToInt32_shift z k : ToInt32 (z + k * 2 ^ 32) = ToInt32 z.
Proof.
  unfold ToInt32. replace (z + k * 2 ^ 32 + 2 ^ 31) with (z + 2 ^ 31 + k * 2 ^ 32) by lia.
  by rewrite Z_mod_plus_full.
Qed.

Lemma ToInt32_range z : - 2 ^ 31 ≤ ToInt32 z < 2 ^ 31.
Proof.
  unfold ToInt32. pose proof (Z.mod_pos_bound (z + 2 ^ 31) (2 ^ 32) ltac:(lia)). lia.
Qed.

Lemma ToInt32_small z : - 2 ^ 31 ≤ z < 2 ^ 31 → ToInt32 z = z.
Proof. intros Hz. unfold ToInt32. rewrite Z.mod_small by lia. lia. Qed.

Lemma ToInt32_eq_iff a b : ToInt32 a = ToInt32 b ↔ (a - b) `mod` 2 ^ 32 = 0.
Proof.
  split.
  - intros Heq. destruct (ToInt32_ex a) as [k Hk]. destruct (ToInt32_ex b) as [k' Hk'].
    replace (a - b) with (0 + (k' - k) * 2 ^ 32) by lia.
    by rewrite Z_mod_plus_full.
  - intros Hmod. apply Z.mod_divide in Hmod as [k Hk]; [|lia].
    replace a with (b + k * 2 ^ 32) by lia. apply ToInt32_shift.
Qed.

Lemma hash_step_polynomial h c : hash_step h c = ToInt32 (31 * h + c).
Proof.
  unfold hash_step. rewrite Z.land_diag, Z.shiftl_mul_pow2 by lia.
  destruct (ToInt32_ex h) as [k1 Hk1]. rewrite Hk1.
  destruct (ToInt32_ex ((h + k1 * 2 ^ 32) * 2 ^ 5)) as [k2 Hk2]. rewrite Hk2.
  replace ((h + k1 * 2 ^ 32) * 2 ^ 5 + k2 * 2 ^ 32 - h + c)
    with (31 * h + c + (32 * k1 + k2) * 2 ^ 32) by lia.
  apply ToInt32_shift.
Qed.

Lemma foldl_hash_step h h' p :
  ToInt32 h = ToInt32 h' →
  ToInt32 (foldl hash_step h p) = ToInt32 (foldl (λ h c, 31 * h + c) h' p).
Proof.
  revert h h'. induction p as [|c p IH]; intros h h' Hh; [done|]. simpl.
  apply IH. rewrite hash_step_polynomial.
  destruct (ToInt32_ex (31 * h + c)) as [k Hk]. rewrite Hk, ToInt32_shift.
  apply ToInt32_eq_iff. apply ToInt32_eq_iff in Hh.
  replace (31 * h + c - (31 * h' + c)) with (31 * (h - h')) by lia.
  apply Z.mod_divide in Hh as [m Hm]; [|lia]. rewrite Hm.
  replace (31 * (m * 2 ^ 32)) with (0 + (31 * m) * 2 ^ 32) by lia.
  by rewrite Z_mod_plus_full.
Qed.

Lemma hash_code_int32 p : ToInt32 (hash_code p) = hash_code p.
Proof.
  unfold hash_code. induction p as [|c p IH] using rev_ind; [done|].
  rewrite foldl_app. simpl. rewrite hash_step_polynomial.
  apply ToInt32_small, ToInt32_range.
Qed.

Lemma hash_code_polynomial p : hash_code p = ToInt32 (polynomial p).
Proof. rewrite <- hash_code_int32. by apply foldl_hash_step. Qed.

Lemma to_hex_int_nonnil z :
  Z.to_hex_int z ≠ Hexadecimal.Pos Hexadecimal.Nil ∧
  Z.to_hex_int z ≠ Hexadecimal.Neg Hexadecimal.Nil.
Proof.
  destruct z as [|p|p]; simpl; split; try discriminate;
    intros [= H]; by apply HexadecimalPos.Unsigned.to_uint_nonnil in H.
Qed.

Lemma toString16_inj a b : toString16 a = toString16 b → a = b.
Proof.
  unfold toString16. intros Heq. apply HexadecimalZ.to_int_inj.
  destruct (to_hex_int_nonnil a) as [Ha Ha']. destruct (to_hex_int_nonnil b) as [Hb Hb'].
  pose proof (HexadecimalString.NilZero.isi _ Ha Ha') as Hia.
  pose proof (HexadecimalString.NilZero.isi _ Hb Hb') as Hib.
  rewrite Heq, Hib in Hia. by injection Hia.
Qed.

Lemma toString16_nonempty z : toString16 z ≠ EmptyString.
Proof.
  unfold toString16. destruct (to_hex_int_nonnil z) as [Hp Hn].
  destruct (Z.to_hex_int z) as [d|d]; [|done].
  by destruct d.
Qed.

(** X10. hashPassword is the polynomial c0*31^(n-1) + ... + c(n-1) of the
    UTF-16 code units of the password, cut to a signed 32-bit integer and
    written in base 16. verifyPassword accepts a password for a stored hash of
    another exactly when the two polynomials agree modulo 2^32; so two
    passwords that differ by 'Aa' in place of 'BB' at any position are
    accepted for one another. The hash is never the empty string. *)
Theorem hashPassword_is_a_32_bit_polynomial :
  (∀ p, hash_code p = ToInt32 (polynomial p) ∧ - 2 ^ 31 ≤ hash_code p < 2 ^ 31) ∧
  (∀ p q,
     verifyPassword p (hashPassword q) = true ↔
     (polynomial p - polynomial q) `mod` 2 ^ 32 = 0) ∧
  (∀ s t, hashPassword (s ++ [65; 97] ++ t) = hashPassword (s ++ [66; 66] ++ t)) ∧
  (∀ p, hashPassword p ≠ EmptyString).
Proof.
  split; [|split; [|split]].
  - intros p. split; [apply hash_code_polynomial|].
    rewrite <- hash_code_int32. apply ToInt32_range.
  - intros p q. unfold verifyPassword, hashPassword.
    rewrite bool_decide_eq_true, <- ToInt32_eq_iff, <- !hash_code_polynomial.
    split; [apply toString16_inj|by intros ->].
  - intros s t. unfold hashPassword. f_equal. unfold hash_code.
    rewrite !foldl_app. f_equal. simpl. rewrite !hash_step_polynomial.
    apply ToInt32_eq_iff.
    destruct (ToInt32_ex (31 * foldl hash_step 0 s + 65)) as [k ->].
    destruct (ToInt32_ex (31 * foldl hash_step 0 s + 66)) as [k' ->].
    replace (31 * (31 * foldl hash_step 0 s + 65 + k * 2 ^ 32) + 97
             - (31 * (31 * foldl hash_step 0 s + 66 + k' * 2 ^ 32) + 66))
      with (0 + (31 * k - 31 * k') * 2 ^ 32) by lia.
    by rewrite Z_mod_plus_full.
  - intros p. apply toString16_nonempty.
Qed.

End PasswordProperties.

(** ** Sessions over HTTP *)
Section HttpProperties.
Import Server Http Sessions Runs.

Lemma bind_returns {A B} (m : Handler A) (f : A → Handler B) w a w' :
  m w = Some (Returns a w') → (m ≫= f) w = f a w'.
Proof. intros H. unfold mbind, Handler_bind. by rewrite H. Qed.

Lemma bind_ret {A B} (a : A) (f : A → Handler B) w : (mret a ≫= f) w = f a w.
Proof. reflexivity. Qed.

Lemma json_returns request w :
  body request ≠ NotJSON → json request w = Some (Returns (body request) w).
Proof. unfold json. by destruct (body request). Qed.

Lemma query_returns {A} (q : Tables → A) w : query q w = Some (Returns (q (tables w)) w).
Proof. reflexivity. Qed.

Lemma exec_returns f w : exec f w = Some (Returns () (with_tables (f (tables w)) w)).
Proof. reflexivity. Qed.

Lemma spliced_quote_free s w :
  sql_quote_free s = true → spliced s w = Some (Returns s w).
Proof. intros H. unfold spliced. by rewrite (sql_text_quote_free _ H). Qed.

Lemma substring_all s : String.substring 0 (String.length s) s = s.
Proof. induction s as [|a s IH]; [done|]. simpl. by rewrite IH. Qed.

Lemma prefix_app p s :
  String.prefix p s = true →
  s = (p +:+ String.substring (String.length p) (String.length s - String.length p) s)%string.
Proof.
  revert s. induction p as [|a p IH]; intros s Hp.
  - simpl. rewrite Nat.sub_0_r. by rewrite substring_all.
  - destruct s as [|b s]; [done|]. simpl in Hp.
    destruct (ascii_dec a b) as [->|]; [|done].
    simpl. change (String b p +:+ ?x)%string with (String b (p +:+ x)).
    f_equal. by apply IH.
Qed.

Lemma bearer_parts token :
  truthy (Some ("Bearer " +:+ token)%string) = Some ("Bearer " +:+ token)%string ∧
  String.prefix "Bearer " ("Bearer " +:+ token) = true ∧
  String.substring 7 (String.length ("Bearer " +:+ token) - 7) ("Bearer " +:+ token)
  = token.
Proof.
  change ("Bearer " +:+ token)%string
    with (String "B" (String "e" (String "a" (String "r" (String "e"
           (String "r" (String " " token))))))).
  split; [done|]. split.
  - simpl. by destruct token.
  - simpl. rewrite Nat.sub_0_r. apply substring_all.
Qed.

Lemma validateSession_signed_in request now w u :
  signed_in request now (tables w) u →
  validateSession request now w = Some (Returns (Some u) w) ∧ truthy (Some u) = Some u.
Proof.
  intros (token & session & rest & Hp & Hq & Hsel & Hu & Hne).
  split; [|by destruct u].
  destruct (bearer_parts token) as (Htruthy & Hprefix & Hsub).
  unfold validateSession. rewrite Hp, Htruthy, Hprefix, Hsub. simpl.
  rewrite (bind_returns _ _ _ _ _ (spliced_quote_free _ _ Hq)).
  unfold mbind, Handler_bind, query, ask. simpl. rewrite Hsel. by rewrite Hu.
Qed.

Lemma validateSession_signed_out request now w :
  signed_out request now (tables w) →
  validateSession request now w = Some (Returns None w).
Proof.
  intros Hout. unfold validateSession.
  destruct (truthy (Authorization request)) as [authHeader|] eqn:Hauth; [|done].
  destruct (String.prefix "Bearer " authHeader) eqn:Hprefix; [|done]. simpl.
  assert (Ha : Authorization request = Some authHeader).
  { destruct (Authorization request) as [[|a h]|]; simpl in Hauth; by simplify_eq. }
  apply prefix_app in Hprefix. simpl String.length in Hprefix.
  destruct (Hout (String.substring 7 (String.length authHeader - 7) authHeader))
    as [Hq Hsel].
  { unfold presents. by rewrite Ha, <- Hprefix. }
  rewrite (bind_returns _ _ _ _ _ (spliced_quote_free _ _ Hq)).
  unfold mbind, Handler_bind, query, ask. simpl. by rewrite Hsel.
Qed.

(** X11. Every HTTP request other than POST /api/login whose Authorization
    header is missing, is not a Bearer header, or names (without an
    apostrophe) no session that is unexpired now, is answered 401
    'Unauthorized' (or 404 'Not found' when the route is unknown), and the
    store and the connections are left as they were. *)
Theorem requests_without_a_session_are_refused (request : Request) (now : Z)
  (fresh : string) (w : World) :
  ¬ (pathname request = "/api/login" ∧ method request = "POST") →
  signed_out request now (tables w) →
  onRequest request now fresh w = Some (Returns (failure 401 "Unauthorized") w) ∨
  onRequest request now fresh w = Some (Returns (failure 404 "Not found") w).
Proof.
  intros Hlogin Hout. apply validateSession_signed_out in Hout.
  unfold onRequest.
  destruct (bool_decide (pathname request = "/api/login")
            && bool_decide (method request = "POST")) eqn:H1.
  { apply andb_true_iff in H1 as [?%bool_decide_eq_true ?%bool_decide_eq_true].
    by destruct Hlogin. }
  repeat (lazymatch goal with
          | |- (if ?b then _ else _) _ = _ ∨ _ => destruct b
          end;
          [left;
           unfold handleGetUsers, handleCreateUser, handleGetRooms, handleCreateRoom,
             handleGetRoomMessages, handleDeleteRoom, handleSendMessage,
             handleChangePassword, handleChangeNickname;
           by rewrite (bind_returns _ _ _ _ _ Hout)|]).
  by right.
Qed.

Lemma requests_without_a_session_are_refused_witness :
  onRequest (mkRequest "DELETE" "/api/rooms/r1" (Some "Bearer gone") NotJSON) 9 "id"
    (mkWorld
       (mkTables [] [mkRoom "r1" "helper" "bot" None 1] [] []
          [mkSession "gone" "A" 0 5] [])
       [] None)
  = Some (Returns (failure 401 "Unauthorized")
            (mkWorld
               (mkTables [] [mkRoom "r1" "helper" "bot" None 1] [] []
                  [mkSession "gone" "A" 0 5] [])
               [] None)).
Proof.
  destruct (requests_without_a_session_are_refused
      (mkRequest "DELETE" "/api/rooms/r1" (Some "Bearer gone") NotJSON) 9 "id"
      (mkWorld
         (mkTables [] [mkRoom "r1" "helper" "bot" None 1] [] []
            [mkSession "gone" "A" 0 5] [])
         [] None)) as [H401|H404].
  - intros [Hpath _]. discriminate Hpath.
  - intros token Hp. vm_compute in Hp. injection Hp as <-. split; reflexivity.
  - exact H401.
  - vm_compute in H404. discriminate H404.
Defined.

(** *** Logging in *)

Lemma filter_none {A} (P : A → Prop) `{∀ x, Decision (P x)} (l : list A) :
  (∀ x, x ∈ l → ¬ P x) → filter P l = [].
Proof.
  induction l as [|x l IH]; intros Hnone; [done|].
  rewrite filter_cons, decide_False by (apply Hnone; left).
  apply IH. intros y Hy. apply Hnone. by right.
Qed.

Lemma insert_session_returns row w :
  session_id row ∉ session_ids (tables w) →
  session_user_id row ∈ user_ids (tables w) →
  insert_session row w
  = Some (Returns () (with_tables (with_sessions (sessions (tables w) ++ [row]) (tables w)) w)).
Proof.
  intros Hnew Href.
  unfold insert_session, unique, references, query, ask, exec, mbind, Handler_bind.
  simpl. rewrite bool_decide_false by done. simpl. by rewrite bool_decide_true by done.
Qed.

Lemma elem_of_select_by_username name t user :
  user ∈ select_by_username name t ↔
  user ∈ users t ∧ username (without_password user) = name.
Proof. unfold select_by_username. rewrite list_elem_of_filter. tauto. Qed.

Lemma select_sessions_fresh t fresh row later :
  fresh ∉ session_ids t →
  session_id row = fresh →
  select_sessions (store_of (with_sessions (sessions t ++ [row]) t)) fresh later
  = if bool_decide (later < expires_at row) then [row] else [].
Proof.
  intros Hnew Hid. unfold select_sessions. simpl. rewrite list.filter_app.
  assert (Hold : filter (λ s, session_id s = fresh ∧ later < expires_at s) (sessions t) = []).
  { apply filter_none. intros s Hs [Hid' _]. apply Hnew.
    unfold session_ids. apply list_elem_of_fmap. by exists s. }
  rewrite Hold. simpl. rewrite filter_cons, filter_nil.
  case_bool_decide.
  - by rewrite decide_True.
  - by rewrite decide_False by (intros [_ ?]; done).
Qed.

(** X12. A login whose password verifies against the first row with the user
    name appends one session (the generated id, the id of the user, created
    now, expiring now + 604800000 ms, seven days) and returns it with the
    user, without the password column. From then on a request bearing that id
    is validated as that user exactly while the time is before the expiry, and
    an auth frame with that id, sent before the expiry, attaches the WebSocket
    connection to that user. *)
Theorem login_opens_a_session (w : World) (request : Request) (username : string)
  (pass : list Z) (user : UserWithPassword) (rest : list UserWithPassword)
  (now : Z) (fresh : string) :
  body request = LoginRequest username pass →
  sql_quote_free username = true →
  select_by_username username (tables w) = user :: rest →
  verifyPassword pass (password user) = true →
  fresh ∉ session_ids (tables w) →
  sql_quote_free fresh = true →
  let userId := uid (without_password user) in
  let session := mkSession fresh userId now (now + 604800000) in
  let w' := with_tables (with_sessions (sessions (tables w) ++ [session]) (tables w)) w in
  handleLogin request now fresh w
  = Some (Returns (ok (Some (LoginData session (without_password user)))) w') ∧
  (∀ request' later,
     presents request' fresh →
     validateSession request' later w'
     = Some (Returns (if bool_decide (later < now + 604800000) then Some userId else None)
               w')) ∧
  (∀ i c later,
     sockets w !! i = Some c →
     later < now + 604800000 →
     ∃ srv',
       handleUserAuth i fresh later (state_of w') = Some (Completes srv') ∧
       connections srv' !! i
       = Some (mkConnection (Some (UserAttachment userId [] later))
                 (outbox c ++ [auth_success (Some userId)]) (closed c))).
Proof.
  intros Hbody Hq Hsel Hpass Hnew Hqf userId session w'.
  assert (Huser : user ∈ users (tables w)).
  { assert (Hin : user ∈ select_by_username username (tables w)) by (rewrite Hsel; left).
    by apply elem_of_select_by_username in Hin as [? _]. }
  assert (Hsess : ∀ later,
            select_sessions (store_of (tables w')) fresh later
            = if bool_decide (later < now + 604800000) then [session] else []).
  { intros later. by apply select_sessions_fresh. }
  split; [|split].
  - unfold handleLogin.
    rewrite (bind_returns _ _ _ _ _ (json_returns _ _ ltac:(by rewrite Hbody))), Hbody.
    rewrite (bind_returns _ _ _ _ _ (spliced_quote_free _ _ Hq)).
    rewrite (bind_returns _ _ _ _ _ (query_returns _ _)), Hsel, Hpass. simpl.
    erewrite bind_returns; [reflexivity|].
    apply insert_session_returns; [done|]. simpl.
    unfold user_ids. apply list_elem_of_fmap. by exists user.
  - intros request' later Hp.
    destruct (bearer_parts fresh) as (Htruthy & Hprefix & Hsub).
    unfold validateSession. rewrite Hp, Htruthy, Hprefix, Hsub. simpl.
    rewrite (bind_returns _ _ _ _ _ (spliced_quote_free _ _ Hqf)).
    unfold mbind, Handler_bind, query, ask. simpl.
    change (select_sessions _ fresh later)
      with (select_sessions (store_of (tables w')) fresh later).
    rewrite Hsess. by case_bool_decide.
  - intros i c later Hc Hlater. unfold handleUserAuth.
    rewrite (statement_quote_free _ _ _ _ _ Hqf). simpl.
    change (select_sessions _ fresh later)
      with (select_sessions (store_of (tables w')) fresh later).
    rewrite Hsess, bool_decide_true by done.
    eexists. split; [reflexivity|].
    erewrite lookup_broadcastUserStatus;
      [|erewrite lookup_on_connection;
        [reflexivity|by erewrite lookup_on_connection by exact Hc]].
    unfold hears_of. simpl. rewrite bool_decide_false by (by intros []).
    by rewrite andb_false_r.
Qed.

Lemma login_opens_a_session_witness :
  ∃ w',
    handleLogin
      (mkRequest "POST" "/api/login" None (LoginRequest "alice" (code_units "secret")))
      100 "s1"
      (mkWorld
         (mkTables
            [mkUserWithPassword (mkUser "u1" "alice" None "user" None 1)
               (hashPassword (code_units "secret"))] [] [] [] [] [])
         [] None)
    = Some (Returns
              (ok (Some (LoginData (mkSession "s1" "u1" 100 604800100)
                           (mkUser "u1" "alice" None "user" None 1))))
              w') ∧
    validateSession (mkRequest "GET" "/api/users" (Some "Bearer s1") NotJSON) 200 w'
    = Some (Returns (Some "u1") w').
Proof.
  destruct (login_opens_a_session
      (mkWorld
         (mkTables
            [mkUserWithPassword (mkUser "u1" "alice" None "user" None 1)
               (hashPassword (code_units "secret"))] [] [] [] [] [])
         [] None)
      (mkRequest "POST" "/api/login" None (LoginRequest "alice" (code_units "secret")))
      "alice" (code_units "secret")
      (mkUserWithPassword (mkUser "u1" "alice" None "user" None 1)
         (hashPassword (code_units "secret")))
      [] 100 "s1" eq_refl eq_refl eq_refl)
    as (Hlogin & Hvalid & _).
  - vm_compute. reflexivity.
  - apply not_elem_of_nil.
  - reflexivity.
  - eexists. split; [exact Hlogin|].
    exact (Hvalid (mkRequest "GET" "/api/users" (Some "Bearer s1") NotJSON) 200 eq_refl).
Defined.

(** X13. A login with a user name that holds no apostrophe and has no row,
    or with a password whose hash is not the one stored for that name, is
    answered 401 with the same message in both cases, and changes nothing. A
    row whose stored password is empty (the bot account that
    createDefaultData inserts) accepts no password at all. (The user name is
    spliced into the statement as it came: one with an apostrophe is read as
    SQL, and is not covered here.) *)
Theorem failed_login_changes_nothing (w : World) (request : Request)
  (username : string) (pass : list Z) (now : Z) (fresh : string) :
  body request = LoginRequest username pass →
  sql_quote_free username = true →
  (∀ user rest,
     select_by_username username (tables w) = user :: rest →
     password user ≠ hashPassword pass ∨ password user = EmptyString) →
  handleLogin request now fresh w
  = Some (Returns (failure 401 "用户名或密码错误") w).
Proof.
  intros Hbody Hq Hwrong. unfold handleLogin.
  rewrite (bind_returns _ _ _ _ _ (json_returns _ _ ltac:(by rewrite Hbody))), Hbody.
  rewrite (bind_returns _ _ _ _ _ (spliced_quote_free _ _ Hq)).
  rewrite (bind_returns _ _ _ _ _ (query_returns _ _)).
  destruct (select_by_username username (tables w)) as [|user rest] eqn:Hsel; [done|].
  assert (Hno : verifyPassword pass (password user) = false).
  { unfold verifyPassword. apply bool_decide_eq_false.
    destruct (Hwrong user rest eq_refl) as [Hne|Hempty]; [done|].
    rewrite Hempty. apply toString16_nonempty. }
  by rewrite Hno.
Qed.

Lemma failed_login_changes_nothing_witness :
  handleLogin
    (mkRequest "POST" "/api/login" None (LoginRequest "AI助手" []))
    100 "s1"
    (mkWorld
       (mkTables
          [mkUserWithPassword (mkUser "bot" "AI助手" None "user" (Some "🤖") 1) EmptyString]
          [] [] [] [] [])
       [] None)
  = Some (Returns (failure 401 "用户名或密码错误")
            (mkWorld
               (mkTables
                  [mkUserWithPassword (mkUser "bot" "AI助手" None "user" (Some "🤖") 1)
                     EmptyString]
                  [] [] [] [] [])
               [] None)).
Proof.
  apply (failed_login_changes_nothing
           (mkWorld
              (mkTables
                 [mkUserWithPassword (mkUser "bot" "AI助手" None "user" (Some "🤖") 1)
                    EmptyString]
                 [] [] [] [] [])
              [] None)
           (mkRequest "POST" "/api/login" None (LoginRequest "AI助手" []))
           "AI助手" [] 100 "s1" eq_refl eq_refl).
  intros user rest Hsel. vm_compute in Hsel. injection Hsel as <- _. by right.
Defined.

End HttpProperties.

(** ** Accounts *)
Section AccountProperties.
Import Server Http Sessions Runs.

Lemma unique_returns {K} `{EqDecision K} (held : Tables → list K) key w :
  key ∉ held (tables w) → unique held key w = Some (Returns () w).
Proof.
  intros Hnew. unfold unique. rewrite (bind_returns _ _ _ _ _ (query_returns _ _)).
  by rewrite bool_decide_false.
Qed.

Lemma references_returns held id w :
  id ∈ held (tables w) → references held id w = Some (Returns () w).
Proof.
  intros Hin. unfold references. rewrite (bind_returns _ _ _ _ _ (query_returns _ _)).
  by rewrite bool_decide_true.
Qed.

Lemma insert_user_returns row w :
  uid (without_password row) ∉ user_ids (tables w) →
  username (without_password row) ∉ usernames (tables w) →
  insert_user row w
  = Some (Returns () (with_tables (with_users (users (tables w) ++ [row]) (tables w)) w)).
Proof.
  intros Hid Hname. unfold insert_user.
  rewrite (bind_returns _ _ _ _ _ (unique_returns _ _ _ Hid)).
  by rewrite (bind_returns _ _ _ _ _ (unique_returns _ _ _ Hname)).
Qed.

Lemma select_by_username_nil name t :
  select_by_username name t = [] ↔ name ∉ usernames t.
Proof.
  unfold usernames. rewrite list_elem_of_fmap. split.
  - intros Hnil (u & Hname & Hu).
    assert (Hin : u ∈ select_by_username name t)
      by by apply elem_of_select_by_username.
    rewrite Hnil in Hin. by apply elem_of_nil in Hin.
  - intros Hnot. apply filter_none. intros u Hu Hname. apply Hnot. by exists u.
Qed.

Lemma select_user_row_elem id t row :
  select_user_row id t = Some row → row ∈ users t ∧ uid (without_password row) = id.
Proof.
  unfold select_user_row. intros Hhead. apply head_Some_elem_of in Hhead.
  by apply list_elem_of_filter in Hhead as [? ?].
Qed.

Lemma select_user_snoc (db : list User) (new : User) :
  uid new ∉ uid <$> db →
  head (filter (λ u, uid u = uid new) (db ++ [new])) = Some new.
Proof.
  intros Hnew. rewrite list.filter_app, filter_none.
  - simpl. by rewrite filter_cons, decide_True.
  - intros u Hu Heq. apply Hnew. apply list_elem_of_fmap. by exists u.
Qed.

(** X14. POST /api/users. A signed-in user whose role is not admin is answered
    403 and nothing changes. For an administrator and a user name that holds
    no apostrophe: a name that is taken is answered 400 and nothing changes;
    otherwise, when the role given holds no apostrophe either, one row is
    appended to users (generated id, the name, role 'user' unless one is
    given, the hash of the password, no nickname or avatar) and returned
    without the password, and the new user can log in with that password.
    (Name and role are spliced into the statements as they came: with an
    apostrophe they are read as SQL, and are not covered here.) *)
Theorem an_administrator_creates_accounts (w : World) (request : Request)
  (me : string) (currentUser : UserWithPassword) (now : Z) (fresh : string) :
  signed_in request now (tables w) me →
  select_user_row me (tables w) = Some currentUser →
  (role (without_password currentUser) ≠ "admin" →
   handleCreateUser request now fresh w
   = Some (Returns (failure 403 "Permission denied") w)) ∧
  (role (without_password currentUser) = "admin" →
   ∀ name pass given,
     body request = CreateUserRequest name pass given →
     sql_quote_free name = true →
     (name ∈ usernames (tables w) →
      handleCreateUser request now fresh w
      = Some (Returns (failure 400 "用户名已存在") w)) ∧
     (name ∉ usernames (tables w) →
      sql_quote_free (default "user" given) = true →
      fresh ∉ user_ids (tables w) →
      let newUser := mkUser fresh name None (default "user" given) None now in
      let row := mkUserWithPassword newUser (hashPassword pass) in
      let w' := with_tables (with_users (users (tables w) ++ [row]) (tables w)) w in
      handleCreateUser request now fresh w
      = Some (Returns (ok (Some (UserData newUser))) w') ∧
      ∀ request' later session,
        body request' = LoginRequest name pass →
        session ∉ session_ids (tables w) →
        handleLogin request' later session w'
        = Some (Returns
                  (ok (Some (LoginData
                               (mkSession session fresh later (later + 604800000))
                               newUser)))
                  (with_tables
                     (with_sessions
                        (sessions (tables w)
                         ++ [mkSession session fresh later (later + 604800000)])
                        (tables w'))
                     w')))).
Proof.
  intros Hme Hrow.
  destruct (validateSession_signed_in _ _ _ _ Hme) as [Hvalid Htruthy].
  split.
  - intros Hrole. unfold handleCreateUser.
    rewrite (bind_returns _ _ _ _ _ Hvalid), Htruthy.
    rewrite (bind_returns _ _ _ _ _ (query_returns _ _)), Hrow.
    by rewrite bool_decide_true.
  - intros Hrole name pass given Hbody Hq.
    assert (Hhead :
              handleCreateUser request now fresh w
              = (existingUser ← query (select_by_username name);
                 match existingUser with
                 | _ :: _ => mret (failure 400 "用户名已存在")
                 | [] =>
                     role ← spliced (default "user" given);
                     let newUser := mkUser fresh name None role None now in
                     insert_user (mkUserWithPassword newUser (hashPassword pass));;
                     newUser ← query (λ t, select_user (store_of t) fresh);
                     mret (ok (UserData <$> newUser))
                 end) w).
    { unfold handleCreateUser.
      rewrite (bind_returns _ _ _ _ _ Hvalid), Htruthy.
      rewrite (bind_returns _ _ _ _ _ (query_returns _ _)), Hrow.
      rewrite bool_decide_false by (by intros []).
      rewrite (bind_returns _ _ _ _ _ (json_returns _ _ ltac:(by rewrite Hbody))), Hbody.
      by rewrite (bind_returns _ _ _ _ _ (spliced_quote_free _ _ Hq)). }
    split.
    + intros Hexists. rewrite Hhead.
      rewrite (bind_returns _ _ _ _ _ (query_returns _ _)).
      destruct (select_by_username name (tables w)) eqn:Hsel; [|done].
      by apply select_by_username_nil in Hsel.
    + intros Hnew Hqr Hfresh newUser row w'. split.
      * rewrite Hhead. rewrite (bind_returns _ _ _ _ _ (query_returns _ _)).
        rewrite (proj2 (select_by_username_nil _ _) Hnew).
        rewrite (bind_returns _ _ _ _ _ (spliced_quote_free _ _ Hqr)).
        erewrite bind_returns; [|by apply insert_user_returns].
        rewrite (bind_returns _ _ _ _ _ (query_returns _ _)).
        unfold select_user. simpl. rewrite fmap_app. simpl.
        rewrite (select_user_snoc _ newUser); [done|].
        unfold user_ids in Hfresh. by rewrite list_fmap_compose in Hfresh.
      * intros request' later session Hlogin Hsession.
        assert (Hsel : select_by_username name (tables w') = [row]).
        { unfold select_by_username. simpl. rewrite list.filter_app.
          change (filter _ (users (tables w))) with (select_by_username name (tables w)).
          rewrite (proj2 (select_by_username_nil _ _) Hnew). simpl.
          by rewrite filter_cons, decide_True. }
        unfold handleLogin.
        rewrite (bind_returns _ _ _ _ _ (json_returns _ _ ltac:(by rewrite Hlogin))),
          Hlogin.
        rewrite (bind_returns _ _ _ _ _ (spliced_quote_free _ _ Hq)).
        rewrite (bind_returns _ _ _ _ _ (query_returns _ _)), Hsel.
        unfold verifyPassword. simpl. rewrite bool_decide_true by done. simpl.
        erewrite bind_returns; [reflexivity|].
        apply insert_session_returns; [done|]. simpl.
        unfold user_ids. simpl. rewrite fmap_app. apply elem_of_app. right. left.
Qed.

Lemma an_administrator_creates_accounts_witness :
  ∃ w' w'',
    handleCreateUser
      (mkRequest "POST" "/api/users" (Some "Bearer s1")
         (CreateUserRequest "bob" (code_units "hunter2") None))
      100 "u2"
      (mkWorld
         (mkTables
            [mkUserWithPassword (mkUser "u1" "admin" None "admin" None 1) "0"]
            [] [] [] [mkSession "s1" "u1" 50 500] [])
         [] None)
    = Some (Returns (ok (Some (UserData (mkUser "u2" "bob" None "user" None 100)))) w') ∧
    handleLogin
      (mkRequest "POST" "/api/login" None (LoginRequest "bob" (code_units "hunter2")))
      200 "s2" w'
    = Some (Returns
              (ok (Some (LoginData (mkSession "s2" "u2" 200 604800200)
                           (mkUser "u2" "bob" None "user" None 100))))
              w'').
Proof.
  destruct (an_administrator_creates_accounts
      (mkWorld
         (mkTables
            [mkUserWithPassword (mkUser "u1" "admin" None "admin" None 1) "0"]
            [] [] [] [mkSession "s1" "u1" 50 500] [])
         [] None)
      (mkRequest "POST" "/api/users" (Some "Bearer s1")
         (CreateUserRequest "bob" (code_units "hunter2") None))
      "u1" (mkUserWithPassword (mkUser "u1" "admin" None "admin" None 1) "0")
      100 "u2") as [_ Hadmin].
  - exists "s1", (mkSession "s1" "u1" 50 500), []. by repeat split.
  - reflexivity.
  - destruct (Hadmin eq_refl "bob" (code_units "hunter2") None eq_refl eq_refl)
      as [_ Hnew].
    destruct Hnew as [Hcreate Hlogin].
    + intros Hin. apply list_elem_of_singleton in Hin. discriminate Hin.
    + reflexivity.
    + intros Hin. apply list_elem_of_singleton in Hin. discriminate Hin.
    + eexists _, _. split; [exact Hcreate|].
      apply (Hlogin
               (mkRequest "POST" "/api/login" None
                  (LoginRequest "bob" (code_units "hunter2")))
               200 "s2" eq_refl).
      intros Hin. apply list_elem_of_singleton in Hin. discriminate Hin.
Defined.

Lemma filter_key_NoDup {A K} `{EqDecision K} (f : A → K) (l : list A) (x : A) :
  NoDup (f <$> l) → x ∈ l → filter (λ y, f y = f x) l = [x].
Proof.
  induction l as [|y l IH]; intros Hnd Hx; [by apply elem_of_nil in Hx|].
  rewrite fmap_cons in Hnd. apply list.NoDup_cons in Hnd as [Hy Hnd].
  rewrite filter_cons. apply elem_of_cons in Hx as [->|Hx].
  - rewrite decide_True by done. f_equal. apply filter_none.
    intros z Hz Heq. apply Hy. rewrite <- Heq. apply list_elem_of_fmap. by exists z.
  - rewrite decide_False; [by apply IH|].
    intros Heq. apply Hy. rewrite Heq. apply list_elem_of_fmap. by exists x.
Qed.

Lemma user_ids_update_password id hash t :
  user_ids (update_password id hash t) = user_ids t.
Proof.
  unfold user_ids, update_password. simpl. rewrite <- list_fmap_compose.
  apply list_fmap_ext. intros k u _. simpl. by case_bool_decide.
Qed.

Lemma select_by_username_update_password id hash t user :
  NoDup (usernames t) →
  user ∈ users t →
  uid (without_password user) = id →
  select_by_username (username (without_password user)) (update_password id hash t)
  = [mkUserWithPassword (without_password user) hash].
Proof.
  intros Hnd Hin Hid. unfold select_by_username, update_password. simpl.
  pose proof (filter_key_NoDup (username ∘ without_password) (users t) user Hnd Hin)
    as Hone.
  assert (Hcomm : ∀ l : list UserWithPassword,
            filter (λ u, username (without_password u) = username (without_password user))
              ((λ u, if bool_decide (uid (without_password u) = id)
                     then mkUserWithPassword (without_password u) hash else u) <$> l)
            = (λ u, if bool_decide (uid (without_password u) = id)
                    then mkUserWithPassword (without_password u) hash else u)
                <$> filter (λ u, (username ∘ without_password) u
                                 = (username ∘ without_password) user) l).
  { induction l as [|u l IH]; [done|]. rewrite fmap_cons, !filter_cons, IH. simpl.
    case_bool_decide; simpl; repeat case_decide; simpl; try done;
      rewrite ?bool_decide_true by done; rewrite ?bool_decide_false by done; done. }
  rewrite Hcomm, Hone. simpl. by rewrite bool_decide_true.
Qed.

(** X15. POST /api/change-password. With an old password whose hash is not the
    stored one the answer is 400 and nothing changes. Otherwise only the
    password column of the row of the signed-in user changes (every other
    column and table, sessions included, is as before); afterwards a login
    under the user name succeeds exactly for the passwords whose hash is the
    hash of the new password, and fails with 401 for all others. *)
Theorem the_password_is_changed_by_its_owner (w : World) (request : Request)
  (me : string) (user : UserWithPassword) (old new : list Z) (now : Z) :
  signed_in request now (tables w) me →
  select_user_row me (tables w) = Some user →
  body request = ChangePasswordRequest old new →
  (hashPassword old ≠ password user →
   handleChangePassword request now w
   = Some (Returns (failure 400 "旧密码错误") w)) ∧
  (hashPassword old = password user →
   let w' := with_tables (update_password me (hashPassword new) (tables w)) w in
   handleChangePassword request now w = Some (Returns (ok None) w') ∧
   store_of (tables w') = store_of (tables w) ∧
   (NoDup (usernames (tables w)) →
    sql_quote_free (username (without_password user)) = true →
    ∀ request' pass later session,
      body request' = LoginRequest (username (without_password user)) pass →
      session ∉ session_ids (tables w) →
      (hashPassword pass = hashPassword new →
       ∃ w'',
         handleLogin request' later session w'
         = Some (Returns
                   (ok (Some (LoginData
                                (mkSession session me later (later + 604800000))
                                (without_password user))))
                   w'')) ∧
      (hashPassword pass ≠ hashPassword new →
       handleLogin request' later session w'
       = Some (Returns (failure 401 "用户名或密码错误") w')))).
Proof.
  intros Hme Hrow Hbody.
  destruct (validateSession_signed_in _ _ _ _ Hme) as [Hvalid Htruthy].
  destruct (select_user_row_elem _ _ _ Hrow) as [Hin Hid].
  assert (Hhead :
            handleChangePassword request now w
            = (if negb (verifyPassword old (password user))
               then mret (failure 400 "旧密码错误")
               else exec (update_password me (hashPassword new));; mret (ok None)) w).
  { unfold handleChangePassword.
    rewrite (bind_returns _ _ _ _ _ Hvalid), Htruthy.
    rewrite (bind_returns _ _ _ _ _ (json_returns _ _ ltac:(by rewrite Hbody))), Hbody.
    by rewrite (bind_returns _ _ _ _ _ (query_returns _ _)), Hrow. }
  split.
  - intros Hwrong. rewrite Hhead. unfold verifyPassword.
    by rewrite bool_decide_false.
  - intros Hright w'. split; [|split].
    + rewrite Hhead. unfold verifyPassword. by rewrite bool_decide_true.
    + unfold store_of. simpl. f_equal. rewrite <- list_fmap_compose.
      apply list_fmap_ext. intros k u _. simpl. by case_bool_decide.
    + intros Hnd Hq request' pass later session Hlogin Hsession.
      assert (Hsel : select_by_username (username (without_password user)) (tables w')
                     = [mkUserWithPassword (without_password user) (hashPassword new)])
        by by apply select_by_username_update_password.
      assert (Hstart :
                handleLogin request' later session w'
                = (if negb (verifyPassword pass (hashPassword new))
                   then mret (failure 401 "用户名或密码错误")
                   else
                     let s := mkSession session me later (later + SESSION_LIFETIME) in
                     insert_session s;;
                     mret (ok (Some (LoginData s (without_password user))))) w').
      { unfold handleLogin.
        rewrite (bind_returns _ _ _ _ _ (json_returns _ _ ltac:(by rewrite Hlogin))),
          Hlogin.
        rewrite (bind_returns _ _ _ _ _ (spliced_quote_free _ _ Hq)).
        rewrite (bind_returns _ _ _ _ _ (query_returns _ _)), Hsel. simpl.
        by rewrite Hid. }
      rewrite Hstart. unfold verifyPassword. split.
      * intros Hsame. rewrite bool_decide_true by done. simpl.
        eexists. erewrite bind_returns; [reflexivity|].
        apply insert_session_returns; [done|]. simpl.
        rewrite user_ids_update_password. unfold user_ids.
        apply list_elem_of_fmap. by exists user.
      * intros Hother. by rewrite bool_decide_false.
Qed.

Lemma the_password_is_changed_by_its_owner_witness :
  ∃ w' w'',
    handleChangePassword
      (mkRequest "POST" "/api/change-password" (Some "Bearer s1")
         (ChangePasswordRequest (code_units "old") (code_units "new")))
      100
      (mkWorld
         (mkTables
            [mkUserWithPassword (mkUser "u1" "alice" None "user" None 1)
               (hashPassword (code_units "old"))]
            [] [] [] [mkSession "s1" "u1" 50 500] [])
         [] None)
    = Some (Returns (ok None) w') ∧
    handleLogin
      (mkRequest "POST" "/api/login" None (LoginRequest "alice" (code_units "new")))
      200 "s2" w'
    = Some (Returns
              (ok (Some (LoginData (mkSession "s2" "u1" 200 604800200)
                           (mkUser "u1" "alice" None "user" None 1))))
              w'').
Proof.
  destruct (the_password_is_changed_by_its_owner
      (mkWorld
         (mkTables
            [mkUserWithPassword (mkUser "u1" "alice" None "user" None 1)
               (hashPassword (code_units "old"))]
            [] [] [] [mkSession "s1" "u1" 50 500] [])
         [] None)
      (mkRequest "POST" "/api/change-password" (Some "Bearer s1")
         (ChangePasswordRequest (code_units "old") (code_units "new")))
      "u1"
      (mkUserWithPassword (mkUser "u1" "alice" None "user" None 1)
         (hashPassword (code_units "old")))
      (code_units "old") (code_units "new") 100) as [_ Hright].
  - exists "s1", (mkSession "s1" "u1" 50 500), []. by repeat split.
  - reflexivity.
  - reflexivity.
  - destruct (Hright eq_refl) as (Hchange & _ & Hlogin).
    destruct (Hlogin ltac:(apply NoDup_singleton) eq_refl
                (mkRequest "POST" "/api/login" None
                   (LoginRequest "alice" (code_units "new")))
                (code_units "new") 200 "s2" eq_refl) as [Hnew _].
    { intros Hin. apply list_elem_of_singleton in Hin. discriminate Hin. }
    destruct (Hnew eq_refl) as (w'' & Hok).
    eexists _, w''. split; [exact Hchange|exact Hok].
Defined.

End AccountProperties.

(** ** Rooms and messages over HTTP *)
Section RoomProperties.
Import Server Http Sessions Runs.

Lemma sql_text_Some s s' : sql_text s = Some s' → s' = s ∧ sql_quote_free s = true.
Proof. unfold sql_text. destruct (sql_quote_free s); by intros [= <-]. Qed.

Lemma broadcast_new_message R m u srv srv' j c :
  broadcastToRoom R (new_message m u) srv = Some srv' →
  connections srv !! j = Some c →
  connections srv' !! j
  = Some (if reads (storage srv) R c then send (new_message m u) c
          else if live_bot c && bool_decide (source m = Some SrcUser)
               then send (plugin_message R (user_id m) (content m) (created_at m)) c
               else c).
Proof.
  intros Hb Hc. rewrite (broadcastToRoom_others _ _ _ _ _ Hb), Hc. simpl. f_equal.
  unfold reads, live_bot. destruct (closed c); [done|]. simpl.
  destruct (attachment c) as [[v rooms t|b rooms t]|]; try done.
  destruct (source m) as [[|]|]; done.
Qed.

Lemma select_room_None id t : select_room id t = None ↔ id ∉ room_ids t.
Proof.
  unfold select_room, room_ids. rewrite head_None, list_elem_of_fmap. split.
  - intros Hnil (r & -> & Hr).
    assert (Hin : r ∈ filter (λ r', rid r' = rid r) (rooms t))
      by by apply list_elem_of_filter.
    rewrite Hnil in Hin. by apply elem_of_nil in Hin.
  - intros Hnot. apply filter_none. intros r Hr Hid. apply Hnot. by exists r.
Qed.

(** X16. DELETE /api/rooms/:id by a signed-in user, member of the room or not,
    for an id in the path that holds no apostrophe (the id is spliced into
    the statements as it came; one with an apostrophe is read as SQL and is
    not covered here). An unknown room is answered 404, a room whose type is
    not 'bot' 403, and nothing changes. For a bot room the messages of the
    room, its memberships and its row are deleted and nothing else;
    afterwards the room has no members, and a join_room for it over the
    WebSocket is answered 'Not a member of this room'. *)
Theorem only_bot_rooms_are_deleted (w : World) (request : Request) (me roomId : string)
  (now : Z) :
  signed_in request now (tables w) me →
  sql_quote_free roomId = true →
  (roomId ∉ room_ids (tables w) →
   handleDeleteRoom roomId request now w
   = Some (Returns (failure 404 "Room not found") w)) ∧
  (∀ room,
     select_room roomId (tables w) = Some room →
     (room_type room ≠ "bot" →
      handleDeleteRoom roomId request now w
      = Some (Returns (failure 403 "Only bot rooms can be deleted") w)) ∧
     (room_type room = "bot" →
      let t := tables w in
      let t' :=
        mkTables (users t)
          (filter (λ r, rid r ≠ roomId) (rooms t))
          (filter (λ m, room_id m ≠ roomId) (messages t))
          (filter (λ m, member_room_id m ≠ roomId) (room_members t))
          (sessions t) (bot_config t) in
      handleDeleteRoom roomId request now w = Some (Returns (ok None) (with_tables t' w)) ∧
      (roomId ∉ room_ids t') ∧
      (∀ u, ¬ isMember (store_of t') roomId u) ∧
      ∀ i c u rooms ping later,
        sockets w !! i = Some c →
        attachment c = Some (UserAttachment u rooms ping) →
        handleJoinRoom i roomId later (state_of (with_tables t' w))
        = Some (Completes
                  (on_connection i (send (Server.error "Not a member of this room"))
                     (state_of (with_tables t' w)))))).
Proof.
  intros Hme Hq.
  destruct (validateSession_signed_in _ _ _ _ Hme) as [Hvalid Htruthy].
  assert (Hhead :
            handleDeleteRoom roomId request now w
            = (room ← query (select_room roomId);
               match room with
               | None => mret (failure 404 "Room not found")
               | Some room =>
                   if bool_decide (room_type room ≠ "bot")
                   then mret (failure 403 "Only bot rooms can be deleted")
                   else
                     exec (λ t, with_messages
                                  (filter (λ m, room_id m ≠ roomId) (messages t)) t);;
                     exec (λ t, with_room_members
                                  (filter (λ m, member_room_id m ≠ roomId)
                                     (room_members t)) t);;
                     exec (λ t, with_rooms (filter (λ r, rid r ≠ roomId) (rooms t)) t);;
                     mret (ok None)
               end) w).
  { unfold handleDeleteRoom. rewrite (bind_returns _ _ _ _ _ Hvalid), Htruthy.
    by rewrite (bind_returns _ _ _ _ _ (spliced_quote_free _ _ Hq)). }
  split.
  - intros Hnone. rewrite Hhead, (bind_returns _ _ _ _ _ (query_returns _ _)).
    by rewrite (proj2 (select_room_None _ _) Hnone).
  - intros room Hroom. split.
    + intros Htype. rewrite Hhead, (bind_returns _ _ _ _ _ (query_returns _ _)), Hroom.
      by rewrite bool_decide_true.
    + intros Htype t t'. split; [|split; [|split]].
      * rewrite Hhead, (bind_returns _ _ _ _ _ (query_returns _ _)), Hroom.
        by rewrite bool_decide_false by (by intros []).
      * unfold room_ids. simpl. rewrite list_elem_of_fmap.
        intros (r & -> & Hr). by apply list_elem_of_filter in Hr as [? _].
      * intros u (m & Hm & Hr & _). simpl in Hm.
        by apply list_elem_of_filter in Hm as [? _].
      * intros i c u rooms ping later Hc Ha. unfold handleJoinRoom.
        unfold deserializeAttachment. simpl. rewrite Hc. simpl. rewrite Ha.
        rewrite !(statement_quote_free _ _ _ _ _ Hq). simpl.
        rewrite (proj2 (select_membership_nil _ roomId u)); [done|].
        intros (m & Hm & Hr & _). simpl in Hm.
        by apply list_elem_of_filter in Hm as [? _].
Qed.

Lemma only_bot_rooms_are_deleted_witness :
  handleDeleteRoom "r1" (mkRequest "DELETE" "/api/rooms/r1" (Some "Bearer s1") NotJSON) 100
    (mkWorld
       (mkTables [] [mkRoom "r1" "helper" "bot" None 1; mkRoom "r2" "team" "group" None 2]
          [mkMessage "m1" "r1" "A" "hi" "text" 7 (Some SrcUser) None (Some 0);
           mkMessage "m2" "r2" "A" "yo" "text" 8 (Some SrcUser) None (Some 0)]
          [mkRoomMember "r1" "A" 1; mkRoomMember "r2" "A" 2]
          [mkSession "s1" "B" 50 500] [])
       [] None)
  = Some (Returns (ok None)
            (mkWorld
               (mkTables [] [mkRoom "r2" "team" "group" None 2]
                  [mkMessage "m2" "r2" "A" "yo" "text" 8 (Some SrcUser) None (Some 0)]
                  [mkRoomMember "r2" "A" 2]
                  [mkSession "s1" "B" 50 500] [])
               [] None)).
Proof.
  destruct (only_bot_rooms_are_deleted
      (mkWorld
         (mkTables [] [mkRoom "r1" "helper" "bot" None 1; mkRoom "r2" "team" "group" None 2]
            [mkMessage "m1" "r1" "A" "hi" "text" 7 (Some SrcUser) None (Some 0);
             mkMessage "m2" "r2" "A" "yo" "text" 8 (Some SrcUser) None (Some 0)]
            [mkRoomMember "r1" "A" 1; mkRoomMember "r2" "A" 2]
            [mkSession "s1" "B" 50 500] [])
         [] None)
      (mkRequest "DELETE" "/api/rooms/r1" (Some "Bearer s1") NotJSON) "B" "r1" 100)
    as [_ Hroom].
  - exists "s1", (mkSession "s1" "B" 50 500), []. by repeat split.
  - reflexivity.
  - destruct (Hroom (mkRoom "r1" "helper" "bot" None 1) eq_refl) as [_ Hbot].
    destruct (Hbot eq_refl) as [Hrun _]. exact Hrun.
Defined.

(** *** Messages *)

Lemma broadcast_returns R m w srv :
  broadcastToRoom R m (state_of w) = Some srv →
  broadcast R m w
  = Some (Returns () (mkWorld (tables w) (connections srv) (env_BOT_API_KEY w))).
Proof. intros Hb. unfold broadcast. by rewrite Hb. Qed.

Lemma insert_message_row_returns row w :
  mid row ∉ message_ids (tables w) →
  room_id row ∈ room_ids (tables w) →
  user_id row ∈ user_ids (tables w) →
  insert_message_row row w
  = Some (Returns ()
            (with_tables (with_messages (messages (tables w) ++ [row]) (tables w)) w)).
Proof.
  intros Hid Hroom Huser. unfold insert_message_row.
  rewrite (bind_returns _ _ _ _ _ (unique_returns _ _ _ Hid)).
  rewrite (bind_returns _ _ _ _ _ (references_returns _ _ _ Hroom)).
  by rewrite (bind_returns _ _ _ _ _ (references_returns _ _ _ Huser)).
Qed.

Lemma select_user_elem db id u : select_user db id = Some u → id ∈ uid <$> Server.users db.
Proof.
  unfold select_user. intros Hhead. apply head_Some_elem_of in Hhead.
  apply list_elem_of_filter in Hhead as [<- Hin]. apply list_elem_of_fmap. by exists u.
Qed.

(** X17. POST /api/messages by a signed-in user to an existing room
    (membership is not checked): one row is appended to messages (generated
    id, the room, the user, the content, content_type 'text' unless given,
    created_at now, source 'user', acknowledged 0) and the answer carries the
    id. new_message with the row of the sender is sent to each live connection
    of a member of the room, plugin_message to each live connection of a bot,
    and nothing to any other connection. *)
Theorem a_posted_message_is_stored_and_broadcast (w : World) (request : Request)
  (me : string) (user : User) (R text : string) (given : option string) (now : Z)
  (fresh : string) :
  signed_in request now (tables w) me →
  body request = SendMessageRequest R text given →
  select_user (store_of (tables w)) me = Some user →
  sql_quote_free R = true →
  fresh ∉ message_ids (tables w) →
  R ∈ room_ids (tables w) →
  let kind := default "text" given in
  let stored := mkMessage fresh R me text kind now (Some SrcUser) None (Some 0) in
  let sent := mkMessage fresh R me text kind now (Some SrcUser) None None in
  ∃ w',
    handleSendMessage request now fresh w
    = Some (Returns (ok (Some (MessageIdData fresh))) w') ∧
    tables w' = with_messages (messages (tables w) ++ [stored]) (tables w) ∧
    ∀ j c, sockets w !! j = Some c →
      sockets w' !! j
      = Some (if reads (store_of (tables w)) R c then send (new_message sent user) c
              else if live_bot c then send (plugin_message R me text now) c
              else c).
Proof.
  intros Hme Hbody Huser Hq Hfresh Hroom kind stored sent.
  destruct (validateSession_signed_in _ _ _ _ Hme) as [Hvalid Htruthy].
  set (w1 := with_tables (with_messages (messages (tables w) ++ [stored]) (tables w)) w).
  destruct (broadcastToRoom_Some R (new_message sent user) (state_of w1) Hq)
    as (srv' & Hb).
  exists (mkWorld (tables w1) (connections srv') (env_BOT_API_KEY w1)).
  split; [|split; [done|]].
  - unfold handleSendMessage. rewrite (bind_returns _ _ _ _ _ Hvalid), Htruthy.
    rewrite (bind_returns _ _ _ _ _ (json_returns _ _ ltac:(by rewrite Hbody))), Hbody.
    erewrite bind_returns; [|apply insert_message_row_returns; try done].
    + rewrite (bind_returns _ _ _ _ _ (query_returns _ _)).
      change (select_user _ me) with (select_user (store_of (tables w)) me).
      rewrite Huser. erewrite bind_returns; [reflexivity|].
      by apply (broadcast_returns R (new_message sent user) w1).
    + simpl. apply select_user_elem in Huser. unfold user_ids.
      by rewrite list_fmap_compose.
  - intros j c Hc. simpl.
    rewrite (broadcast_new_message _ _ _ _ _ j c Hb) by done. simpl.
    by rewrite andb_true_r.
Qed.

Lemma a_posted_message_is_stored_and_broadcast_witness :
  ∃ w',
    handleSendMessage
      (mkRequest "POST" "/api/messages" (Some "Bearer s1")
         (SendMessageRequest "r1" "hello" None))
      100 "m1"
      (mkWorld
         (mkTables [mkUserWithPassword (mkUser "A" "alice" None "user" None 1) "0"]
            [mkRoom "r1" "team" "group" None 1] [] [mkRoomMember "r1" "B" 1]
            [mkSession "s1" "A" 50 500] [])
         [mkConnection (Some (UserAttachment "B" [] 5)) [] false;
          mkConnection (Some (BotAttachment "bot" [] 5)) [] false;
          mkConnection (Some (UserAttachment "A" ["r1"] 5)) [] false]
         None)
    = Some (Returns (ok (Some (MessageIdData "m1"))) w') ∧
    outbox <$> sockets w'
    = [[new_message (mkMessage "m1" "r1" "A" "hello" "text" 100 (Some SrcUser) None None)
          (mkUser "A" "alice" None "user" None 1)];
       [plugin_message "r1" "A" "hello" 100];
       []].
Proof.
  destruct (a_posted_message_is_stored_and_broadcast
      (mkWorld
         (mkTables [mkUserWithPassword (mkUser "A" "alice" None "user" None 1) "0"]
            [mkRoom "r1" "team" "group" None 1] [] [mkRoomMember "r1" "B" 1]
            [mkSession "s1" "A" 50 500] [])
         [mkConnection (Some (UserAttachment "B" [] 5)) [] false;
          mkConnection (Some (BotAttachment "bot" [] 5)) [] false;
          mkConnection (Some (UserAttachment "A" ["r1"] 5)) [] false]
         None)
      (mkRequest "POST" "/api/messages" (Some "Bearer s1")
         (SendMessageRequest "r1" "hello" None))
      "A" (mkUser "A" "alice" None "user" None 1) "r1" "hello" None 100 "m1")
    as (w' & Hrun & _ & Hsockets).
  - exists "s1", (mkSession "s1" "A" 50 500), []. by repeat split.
  - reflexivity.
  - reflexivity.
  - reflexivity.
  - apply not_elem_of_nil.
  - left.
  - exists w'. split; [exact Hrun|].
    vm_compute in Hrun. injection Hrun as <-. reflexivity.
Defined.

Lemma insert_message_runs (t : Tables) (row : Message) :
  mid row ∉ message_ids t →
  room_id row ∈ room_ids t →
  user_id row ∈ user_ids t →
  insert_message (store_of t) row
  = Some (Runs (store_of (with_messages (messages t ++ [row]) t))).
Proof.
  intros Hnew Hroom Huser. unfold insert_message. simpl.
  rewrite bool_decide_false by done.
  rewrite bool_decide_true by done.
  rewrite bool_decide_true; [done|].
  by rewrite <- list_fmap_compose.
Qed.

(** X18. A message of a bot to an existing room, under an id that no message
    carries, the user 'bot' being stored. send_message with an external id
    that holds no apostrophe (or none) appends one row (generated id, user_id
    'bot', content_type 'text', source 'bot', the external id or the empty
    string, acknowledged 0), answers the bot message_sent, and sends
    new_message with the bot user to each other live connection of a member
    of the room; the other connections, bots included, are sent nothing. A
    message frame does the same with no external id, and also adds the room
    to subscribedRooms of the bot. (The external id is spliced into the
    INSERT as it came: one with an apostrophe is read as SQL, and is not
    covered here.) *)
Theorem a_bot_message_is_stored_and_delivered (w : World) (i : nat) (c : Connection)
  (b : string) (rooms : list string) (ping : Z) (R text : string) (now : Z)
  (fresh : string) :
  sockets w !! i = Some c →
  attachment c = Some (BotAttachment b rooms ping) →
  sql_quote_free R = true →
  fresh ∉ message_ids (tables w) →
  R ∈ room_ids (tables w) →
  "bot" ∈ user_ids (tables w) →
  let stored external :=
    mkMessage fresh R "bot" text "text" now (Some SrcBot) external (Some 0) in
  let sent external :=
    new_message (mkMessage fresh R "bot" text "text" now (Some SrcBot) external None)
      (bot_user now) in
  let others external srv' :=
    ∀ j cj, j ≠ i → sockets w !! j = Some cj →
      connections srv' !! j
      = Some (if reads (store_of (tables w)) R cj then send (sent external) cj else cj) in
  (∀ externalId,
     sql_quote_free (default EmptyString externalId) = true →
     ∃ srv',
       handleBotSendMessage i R text externalId fresh now (state_of w)
       = Some (Completes srv') ∧
       storage srv'
       = store_of
           (with_messages
              (messages (tables w) ++ [stored (Some (default EmptyString externalId))])
              (tables w)) ∧
       connections srv' !! i = Some (send (message_sent fresh externalId) c) ∧
       others externalId srv') ∧
  (∃ srv',
     handlePluginMessage i R text fresh now (state_of w) = Some (Completes srv') ∧
     storage srv'
     = store_of (with_messages (messages (tables w) ++ [stored None]) (tables w)) ∧
     connections srv' !! i
     = Some (mkConnection
               (Some (BotAttachment b (if bool_decide (R ∈ rooms) then rooms
                                       else rooms ++ [R]) ping))
               (outbox c ++ [message_sent fresh None]) (closed c)) ∧
     others None srv').
Proof.
  intros Hc Ha Hq Hnew Hroom Hbotuser stored sent others.
  assert (Hd : deserializeAttachment i (state_of w) = Some (BotAttachment b rooms ping)).
  { unfold deserializeAttachment. simpl. rewrite Hc. simpl. exact Ha. }
  assert (Hbot : ∀ db, reads db R c = false).
  { intros db. unfold reads. rewrite Ha. apply andb_false_r. }
  split.
  - intros externalId Hqe. unfold handleBotSendMessage. rewrite Hd.
    rewrite (sql_text_quote_free _ Hq), (sql_text_quote_free _ Hqe). simpl.
    rewrite insert_message_runs by done. simpl.
    set (srv1 := with_storage _ (state_of w)).
    destruct (broadcastToRoom_Some R (sent externalId) srv1 Hq) as (srv2 & Hb).
    unfold sent in Hb. rewrite Hb. simpl.
    eexists. split; [reflexivity|].
    destruct (broadcastToRoom_keeps _ _ _ _ Hb) as [_ Hstore].
    split; [by rewrite storage_on_connection, Hstore|]. split.
    + erewrite lookup_on_connection;
        [|by apply (broadcast_new_message _ _ _ _ _ i c Hb)].
      rewrite Hbot. simpl. by rewrite andb_false_r.
    + intros j cj Hj Hcj. rewrite lookup_on_connection_ne by done.
      rewrite (broadcast_new_message _ _ _ _ _ j cj Hb) by done. simpl.
      by rewrite andb_false_r.
  - unfold handlePluginMessage. rewrite Hd.
    rewrite (sql_text_quote_free _ Hq). simpl.
    set (c1 := mkConnection
                 (Some (BotAttachment b (if bool_decide (R ∈ rooms) then rooms
                                         else rooms ++ [R]) ping))
                 (outbox c) (closed c)).
    set (srv0 := if bool_decide (R ∈ rooms) then state_of w else _).
    assert (Hc1 : connections srv0 !! i = Some c1).
    { subst srv0 c1. case_bool_decide.
      - simpl. rewrite Hc. f_equal. destruct c; simpl in *; by subst.
      - by erewrite lookup_on_connection by exact Hc. }
    assert (Hrest : ∀ j, j ≠ i → connections srv0 !! j = sockets w !! j).
    { intros j Hj. subst srv0. case_bool_decide; [done|].
      by rewrite lookup_on_connection_ne. }
    assert (Hst : storage srv0 = store_of (tables w)).
    { subst srv0. by case_bool_decide. }
    rewrite Hst, insert_message_runs by done. simpl.
    set (srv1 := with_storage _ srv0).
    destruct (broadcastToRoom_Some R (sent None) srv1 Hq) as (srv2 & Hb).
    unfold sent in Hb. rewrite Hb. simpl.
    eexists. split; [reflexivity|].
    destruct (broadcastToRoom_keeps _ _ _ _ Hb) as [_ Hstore].
    split; [|split].
    + by rewrite storage_on_connection, Hstore.
    + erewrite lookup_on_connection;
        [|by apply (broadcast_new_message _ _ _ _ _ i c1 Hb)].
      assert (Hr : reads (storage srv1) R c1 = false).
      { unfold reads. simpl. apply andb_false_r. }
      rewrite Hr. simpl. by rewrite andb_false_r.
    + intros j cj Hj Hcj. rewrite lookup_on_connection_ne by done.
      rewrite (broadcast_new_message _ _ _ _ _ j cj Hb)
        by (subst srv1; simpl; by rewrite Hrest).
      simpl. rewrite andb_false_r.
      subst srv1. simpl. unfold reads. simpl. done.
Qed.

Lemma a_bot_message_is_stored_and_delivered_witness :
  ∃ srv',
    handlePluginMessage 1 "r1" "42" "m1" 100
      (state_of
         (mkWorld
            (mkTables
               [mkUserWithPassword (mkUser "bot" "AI助手" None "user" (Some "🤖") 1)
                  EmptyString]
               [mkRoom "r1" "helper" "bot" None 1] [] [mkRoomMember "r1" "A" 1] [] [])
            [mkConnection (Some (UserAttachment "A" [] 5)) [] false;
             mkConnection (Some (BotAttachment "bot" [] 5)) [] false;
             mkConnection (Some (BotAttachment "bot" [] 6)) [] false]
            None))
    = Some (Completes srv') ∧
    connections srv'
    = [mkConnection (Some (UserAttachment "A" [] 5))
         [new_message (mkMessage "m1" "r1" "bot" "42" "text" 100 (Some SrcBot) None None)
            (bot_user 100)] false;
       mkConnection (Some (BotAttachment "bot" ["r1"] 5)) [message_sent "m1" None] false;
       mkConnection (Some (BotAttachment "bot" [] 6)) [] false].
Proof.
  destruct (a_bot_message_is_stored_and_delivered
      (mkWorld
         (mkTables
            [mkUserWithPassword (mkUser "bot" "AI助手" None "user" (Some "🤖") 1)
               EmptyString]
            [mkRoom "r1" "helper" "bot" None 1] [] [mkRoomMember "r1" "A" 1] [] [])
         [mkConnection (Some (UserAttachment "A" [] 5)) [] false;
          mkConnection (Some (BotAttachment "bot" [] 5)) [] false;
          mkConnection (Some (BotAttachment "bot" [] 6)) [] false]
         None)
      1%nat _ "bot" [] 5 "r1" "42" 100 "m1" eq_refl eq_refl eq_refl)
    as [_ (srv' & Hrun & _)].
  - apply not_elem_of_nil.
  - left.
  - left.
  - exists srv'. split; [exact Hrun|].
    vm_compute in Hrun. injection Hrun as <-. reflexivity.
Defined.

(** *** The history of a room over HTTP *)

#[local] Instance created_asc_trans' : Transitive created_asc.
Proof. intros a b c. unfold created_asc. lia. Qed.
#[local] Instance created_asc_total' : Total created_asc.
Proof. intros a b. unfold created_asc. lia. Qed.

(** X19. GET /api/rooms/:id, for an id in the path that holds no apostrophe
    (the id is spliced into the statements as it came; one with an
    apostrophe is read as SQL and is not covered here). A signed-in user who
    is not a member of the room is answered 403. A member is returned at most
    100 messages of the room in ascending order of created_at, and they are
    the oldest ones: every message of the room that is left out is at least
    as recent as every message returned, and messages are left out only when
    100 are returned. The most recent messages of a room with more than 100
    are not returned. *)
Theorem the_history_starts_at_the_oldest_message (w : World) (request : Request)
  (me roomId : string) (now : Z) :
  signed_in request now (tables w) me →
  sql_quote_free roomId = true →
  (¬ isMember (store_of (tables w)) roomId me →
   handleGetRoomMessages roomId request now w
   = Some (Returns (failure 403 "Not a member of this room") w)) ∧
  (isMember (store_of (tables w)) roomId me →
   ∃ page later,
     handleGetRoomMessages roomId request now w
     = Some (Returns
               (ok (Some (MessagesData page
                            (resolve_authors (store_of (tables w)) now page))))
               w) ∧
     page ++ later ≡ₚ filter (λ m, room_id m = roomId) (messages (tables w)) ∧
     Sorted created_asc page ∧
     (∀ a b, a ∈ page → b ∈ later → created_at a ≤ created_at b) ∧
     (length page ≤ 100)%nat ∧
     (later ≠ [] → length page = 100%nat)).
Proof.
  intros Hme Hq.
  destruct (validateSession_signed_in _ _ _ _ Hme) as [Hvalid Htruthy].
  assert (Hhead :
            handleGetRoomMessages roomId request now w
            = (membership ← query (λ t, select_membership (store_of t) roomId me);
               match membership with
               | [] => mret (failure 403 "Not a member of this room")
               | _ :: _ =>
                   found ← query (select_first roomId);
                   authors ← query (λ t, resolve_authors (store_of t) now found);
                   mret (ok (Some (MessagesData found authors)))
               end) w).
  { unfold handleGetRoomMessages. rewrite (bind_returns _ _ _ _ _ Hvalid), Htruthy.
    by rewrite (bind_returns _ _ _ _ _ (spliced_quote_free _ _ Hq)). }
  split.
  - intros Hnot. rewrite Hhead, (bind_returns _ _ _ _ _ (query_returns _ _)).
    by rewrite (proj2 (select_membership_nil _ roomId me) Hnot).
  - intros Hmem.
    destruct (select_membership_cons _ _ _ Hmem) as (m & ms & Hsel).
    destruct (order_limit created_asc 100
                (filter (λ m, room_id m = roomId) (messages (tables w))))
      as (Hperm & Hsorted & Horder & Hlen & Hfull).
    eexists _, _. split; [|repeat split; [exact Hperm|exact Hsorted|exact Horder
                                         |exact Hlen|exact Hfull]].
    rewrite Hhead, (bind_returns _ _ _ _ _ (query_returns _ _)), Hsel.
    rewrite (bind_returns _ _ _ _ _ (query_returns _ _)).
    by rewrite (bind_returns _ _ _ _ _ (query_returns _ _)).
Qed.

Lemma the_history_starts_at_the_oldest_message_witness :
  handleGetRoomMessages "r1" (mkRequest "GET" "/api/rooms/r1" (Some "Bearer s1") NotJSON) 100
    (mkWorld
       (mkTables [mkUserWithPassword (mkUser "A" "alice" None "user" None 1) "0"]
          [mkRoom "r1" "team" "group" None 1]
          [mkMessage "m2" "r1" "A" "yo" "text" 8 (Some SrcUser) None (Some 0);
           mkMessage "m1" "r1" "A" "hi" "text" 7 (Some SrcUser) None (Some 0)]
          [mkRoomMember "r1" "A" 1] [mkSession "s1" "B" 50 500] [])
       [] None)
  = Some (Returns (failure 403 "Not a member of this room")
            (mkWorld
               (mkTables [mkUserWithPassword (mkUser "A" "alice" None "user" None 1) "0"]
                  [mkRoom "r1" "team" "group" None 1]
                  [mkMessage "m2" "r1" "A" "yo" "text" 8 (Some SrcUser) None (Some 0);
                   mkMessage "m1" "r1" "A" "hi" "text" 7 (Some SrcUser) None (Some 0)]
                  [mkRoomMember "r1" "A" 1] [mkSession "s1" "B" 50 500] [])
               [] None)).
Proof.
  destruct (the_history_starts_at_the_oldest_message
      (mkWorld
         (mkTables [mkUserWithPassword (mkUser "A" "alice" None "user" None 1) "0"]
            [mkRoom "r1" "team" "group" None 1]
            [mkMessage "m2" "r1" "A" "yo" "text" 8 (Some SrcUser) None (Some 0);
             mkMessage "m1" "r1" "A" "hi" "text" 7 (Some SrcUser) None (Some 0)]
            [mkRoomMember "r1" "A" 1] [mkSession "s1" "B" 50 500] [])
         [] None)
      (mkRequest "GET" "/api/rooms/r1" (Some "Bearer s1") NotJSON) "B" "r1" 100)
    as [Hrefused _].
  - exists "s1", (mkSession "s1" "B" 50 500), []. by repeat split.
  - reflexivity.
  - apply Hrefused. intros (m & Hm & _ & Hu).
    apply list_elem_of_singleton in Hm. subst m. discriminate Hu.
Defined.

(** *** Creating a room *)

Lemma insert_room_returns row w :
  rid row ∉ room_ids (tables w) →
  insert_room row w
  = Some (Returns () (with_tables (with_rooms (rooms (tables w) ++ [row]) (tables w)) w)).
Proof.
  intros Hid. unfold insert_room.
  by rewrite (bind_returns _ _ _ _ _ (unique_returns _ _ _ Hid)).
Qed.

Lemma insert_room_member_returns row w :
  (member_room_id row, member_user_id row) ∉ memberships (tables w) →
  member_room_id row ∈ room_ids (tables w) →
  member_user_id row ∈ user_ids (tables w) →
  insert_room_member row w
  = Some (Returns ()
            (with_tables (with_room_members (room_members (tables w) ++ [row]) (tables w))
               w)).
Proof.
  intros Hkey Hroom Huser. unfold insert_room_member.
  rewrite (bind_returns _ _ _ _ _ (unique_returns _ _ _ Hkey)).
  rewrite (bind_returns _ _ _ _ _ (references_returns _ _ _ Hroom)).
  by rewrite (bind_returns _ _ _ _ _ (references_returns _ _ _ Huser)).
Qed.

Lemma private_rooms_nil a b t :
  private_rooms a b t = [] ↔
  ∀ r, r ∈ rooms t → room_type r = "private" →
       a ∈ select_room_members (store_of t) (rid r) →
       b ∈ select_room_members (store_of t) (rid r) → False.
Proof.
  unfold private_rooms. split.
  - intros Hnil r Hr Htype Ha Hb.
    assert (Hin : r ∈ filter (λ r, room_type r = "private"
                                   ∧ a ∈ select_room_members (store_of t) (rid r)
                                   ∧ b ∈ select_room_members (store_of t) (rid r))
                         (rooms t)) by by apply list_elem_of_filter.
    rewrite Hnil in Hin. by apply elem_of_nil in Hin.
  - intros Hnone. apply filter_none. intros r Hr (Htype & Ha & Hb). eauto.
Qed.

(** X20. POST /api/rooms for a private room of two distinct existing users who
    share no private room, under a name that holds no apostrophe, inserts the
    room (generated id) and the two memberships and returns the room. Any
    later request for a private room of the same two users, in either order,
    by any signed-in user and under any name, returns that same room and
    changes nothing. (The name is spliced into the INSERT as it came: one
    with an apostrophe is read as SQL, and is not covered here.) *)
Theorem a_private_room_is_created_once (w : World) (request : Request)
  (me name a b : string) (now : Z) (fresh : string) :
  signed_in request now (tables w) me →
  body request = CreateRoomRequest name "private" (Some [a; b]) →
  sql_quote_free name = true →
  sql_quote_free a = true →
  sql_quote_free b = true →
  private_rooms a b (tables w) = [] →
  fresh ∉ room_ids (tables w) →
  fresh ∉ member_room_id <$> room_members (tables w) →
  a ∈ user_ids (tables w) →
  b ∈ user_ids (tables w) →
  a ≠ b →
  let room := mkRoom fresh name "private" None now in
  let t' :=
    with_room_members
      (room_members (tables w) ++ [mkRoomMember fresh a now; mkRoomMember fresh b now])
      (with_rooms (rooms (tables w) ++ [room]) (tables w)) in
  handleCreateRoom request now fresh w
  = Some (Returns (ok (Some (RoomData room))) (with_tables t' w)) ∧
  ∀ request' who name' later fresh' first second,
    signed_in request' later t' who →
    body request' = CreateRoomRequest name' "private" (Some [first; second]) →
    first = a ∧ second = b ∨ first = b ∧ second = a →
    handleCreateRoom request' later fresh' (with_tables t' w)
    = Some (Returns (ok (Some (RoomData room))) (with_tables t' w)).
Proof.
  intros Hme Hbody Hqn Hqa Hqb Hnone Hfresh Hfresh' Ha Hb Hab room t'.
  destruct (validateSession_signed_in _ _ _ _ Hme) as [Hvalid Htruthy].
  split.
  - unfold handleCreateRoom. rewrite (bind_returns _ _ _ _ _ Hvalid), Htruthy.
    rewrite (bind_returns _ _ _ _ _ (json_returns _ _ ltac:(by rewrite Hbody))), Hbody.
    simpl.
    erewrite (bind_returns _ _ w None w).
    2:{ rewrite (bind_returns _ _ _ _ _ (spliced_quote_free _ _ Hqa)).
        rewrite (bind_returns _ _ _ _ _ (spliced_quote_free _ _ Hqb)).
        unfold select_private_room.
        by rewrite (bind_returns _ _ _ _ _ (query_returns _ _)), Hnone. }
    rewrite (bind_returns _ _ _ _ _ (spliced_quote_free _ _ Hqn)).
    rewrite (bind_returns _ _ _ _ _ (spliced_quote_free "private" _ eq_refl)).
    erewrite bind_returns; [|by apply insert_room_returns].
    simpl.
    set (w1 := with_tables (with_rooms (rooms (tables w) ++ [room]) (tables w)) w).
    assert (Hroom1 : fresh ∈ room_ids (tables w1)).
    { unfold room_ids. simpl. rewrite fmap_app. apply elem_of_app. right. left. }
    assert (Hnew : ∀ u l, (∀ m, m ∈ l → member_room_id m = fresh → member_user_id m ≠ u) →
              (fresh, u) ∉ (λ m, (member_room_id m, member_user_id m))
                             <$> (room_members (tables w) ++ l)).
    { intros u l Hl. rewrite list_elem_of_fmap. intros (m & [= Hr Hu] & Hm).
      apply elem_of_app in Hm as [Hm|Hm].
      - apply Hfresh'. apply list_elem_of_fmap. by exists m.
      - by apply (Hl m). }
    assert (Hmembers : insert_members fresh [a; b] now w1 = Some (Returns () (with_tables t' w))).
    { simpl. rewrite (bind_returns _ _ _ _ _ (spliced_quote_free _ _ Hqa)).
      erewrite bind_returns.
      2:{ apply insert_room_member_returns; [|done|done].
          unfold memberships. simpl.
          rewrite <- (app_nil_r (room_members (tables w))). apply Hnew.
          intros m Hm. by apply elem_of_nil in Hm. }
      rewrite (bind_returns _ _ _ _ _ (spliced_quote_free _ _ Hqb)).
      erewrite bind_returns.
      2:{ apply insert_room_member_returns; [|done|done].
          unfold memberships. simpl. apply Hnew.
          intros m Hm _. apply list_elem_of_singleton in Hm. subst m. simpl. done. }
      unfold with_tables, t'. simpl. by rewrite <- app_assoc. }
    rewrite (bind_returns _ _ _ _ _ Hmembers).
    rewrite (bind_returns _ _ _ _ _ (query_returns _ _)).
    assert (Hsel : select_room fresh (tables (with_tables t' w)) = Some room).
    { unfold select_room. simpl. rewrite list.filter_app.
      rewrite filter_none.
      - simpl. by rewrite filter_cons, decide_True.
      - intros r Hr Hid. apply Hfresh. unfold room_ids. apply list_elem_of_fmap.
        by exists r. }
    by rewrite Hsel.
  - intros request' who name' later fresh' first second Hwho Hbody' Horder.
    destruct (validateSession_signed_in request' later (with_tables t' w) who Hwho)
      as [Hvalid' Htruthy'].
    assert (Hmem : ∀ u, u = a ∨ u = b → u ∈ select_room_members (store_of t') fresh).
    { intros u Hu. apply elem_of_select_room_members.
      destruct Hu as [->| ->].
      - exists (mkRoomMember fresh a now). split; [|done]. simpl.
        apply elem_of_app. right. left.
      - exists (mkRoomMember fresh b now). split; [|done]. simpl.
        apply elem_of_app. right. right. left. }
    assert (Hold : ∀ r u, r ∈ rooms (tables w) →
              u ∈ select_room_members (store_of t') (rid r) →
              u ∈ select_room_members (store_of (tables w)) (rid r)).
    { intros r u Hr Hu. apply elem_of_select_room_members in Hu as (m & Hm & Hmr & Hmu).
      apply elem_of_select_room_members. exists m. split; [|done]. simpl in Hm.
      apply elem_of_app in Hm as [Hm|Hm]; [done|].
      exfalso. apply Hfresh. unfold room_ids. apply list_elem_of_fmap. exists r.
      split; [|done]. rewrite <- Hmr.
      apply elem_of_cons in Hm as [->|Hm]; [done|].
      apply list_elem_of_singleton in Hm as ->. done. }
    assert (Hfound : ∀ x y, x = a ∧ y = b ∨ x = b ∧ y = a →
              private_rooms x y t' = [room]).
    { intros x y Hxy. unfold private_rooms. simpl. rewrite list.filter_app.
      rewrite filter_none.
      - simpl. rewrite filter_cons, decide_True; [done|].
        split; [done|]. simpl. split; apply Hmem; destruct Hxy as [[-> ->]|[-> ->]]; auto.
      - intros r Hr (Htype & Hx & Hy).
        apply (proj1 (private_rooms_nil a b (tables w)) Hnone r Hr Htype);
          apply Hold; try done; destruct Hxy as [[-> ->]|[-> ->]]; done. }
    unfold handleCreateRoom. rewrite (bind_returns _ _ _ _ _ Hvalid'), Htruthy'.
    rewrite (bind_returns _ _ _ _ _ (json_returns _ _ ltac:(by rewrite Hbody'))), Hbody'.
    simpl.
    assert (Hqf : sql_quote_free first = true ∧ sql_quote_free second = true)
      by (destruct Horder as [[-> ->]|[-> ->]]; done).
    destruct Hqf as [Hq1 Hq2].
    erewrite (bind_returns _ _ _ (Some room) (with_tables t' w)); [done|].
    rewrite (bind_returns _ _ _ _ _ (spliced_quote_free _ _ Hq1)).
    rewrite (bind_returns _ _ _ _ _ (spliced_quote_free _ _ Hq2)).
    unfold select_private_room.
    rewrite (bind_returns _ _ _ _ _ (query_returns _ _)). simpl.
    by rewrite (Hfound first second Horder).
Qed.

Lemma a_private_room_is_created_once_witness :
  ∃ w',
    handleCreateRoom
      (mkRequest "POST" "/api/rooms" (Some "Bearer s1")
         (CreateRoomRequest "chat" "private" (Some ["A"; "B"])))
      100 "r1"
      (mkWorld
         (mkTables
            [mkUserWithPassword (mkUser "A" "alice" None "user" None 1) "0";
             mkUserWithPassword (mkUser "B" "bob" None "user" None 2) "0"]
            [] [] [] [mkSession "s1" "A" 50 500; mkSession "s2" "B" 60 600] [])
         [] None)
    = Some (Returns (ok (Some (RoomData (mkRoom "r1" "chat" "private" None 100)))) w') ∧
    handleCreateRoom
      (mkRequest "POST" "/api/rooms" (Some "Bearer s2")
         (CreateRoomRequest "talk" "private" (Some ["B"; "A"])))
      200 "r2" w'
    = Some (Returns (ok (Some (RoomData (mkRoom "r1" "chat" "private" None 100)))) w').
Proof.
  destruct (a_private_room_is_created_once
      (mkWorld
         (mkTables
            [mkUserWithPassword (mkUser "A" "alice" None "user" None 1) "0";
             mkUserWithPassword (mkUser "B" "bob" None "user" None 2) "0"]
            [] [] [] [mkSession "s1" "A" 50 500; mkSession "s2" "B" 60 600] [])
         [] None)
      (mkRequest "POST" "/api/rooms" (Some "Bearer s1")
         (CreateRoomRequest "chat" "private" (Some ["A"; "B"])))
      "A" "chat" "A" "B" 100 "r1") as [Hfirst Hagain].
  - exists "s1", (mkSession "s1" "A" 50 500), []. by repeat split.
  - reflexivity.
  - reflexivity.
  - reflexivity.
  - reflexivity.
  - reflexivity.
  - apply not_elem_of_nil.
  - apply not_elem_of_nil.
  - left.
  - right. left.
  - discriminate.
  - eexists. split; [exact Hfirst|].
    apply (Hagain
             (mkRequest "POST" "/api/rooms" (Some "Bearer s2")
                (CreateRoomRequest "talk" "private" (Some ["B"; "A"])))
             "B" "talk" 200 "r2" "B" "A").
    + exists "s2", (mkSession "s2" "B" 60 600), []. by repeat split.
    + reflexivity.
    + by right.
Defined.

End RoomProperties.

(** ** The start of the server *)
Section StartProperties.
Import Server Http Sessions Runs.

Lemma bind_inv {A B} (m : Handler A) (f : A → Handler B) w b w' :
  (m ≫= f) w = Some (Returns b w') →
  ∃ a w1, m w = Some (Returns a w1) ∧ f a w1 = Some (Returns b w').
Proof.
  unfold mbind, Handler_bind. destruct (m w) as [[a w1|e]|]; try done. eauto.
Qed.

Lemma unique_inv {K} `{EqDecision K} (held : Tables → list K) key w w' :
  unique held key w = Some (Returns () w') → w' = w ∧ key ∉ held (tables w).
Proof.
  unfold unique. rewrite (bind_returns _ _ _ _ _ (query_returns _ _)).
  case_bool_decide; [done|]. by intros [= <-].
Qed.

Lemma insert_user_inv row w w' :
  insert_user row w = Some (Returns () w') →
  w' = with_tables (with_users (users (tables w) ++ [row]) (tables w)) w.
Proof.
  unfold insert_user. intros Hrun.
  apply bind_inv in Hrun as ([] & w1 & H1 & Hrun). apply unique_inv in H1 as [-> _].
  apply bind_inv in Hrun as ([] & w2 & H2 & Hrun). apply unique_inv in H2 as [-> _].
  by injection Hrun as <-.
Qed.

Lemma insert_bot_config_inv row w w' :
  insert_bot_config row w = Some (Returns () w') →
  w' = with_tables (with_bot_config (bot_config (tables w) ++ [row]) (tables w)) w.
Proof.
  unfold insert_bot_config. intros Hrun.
  apply bind_inv in Hrun as ([] & w1 & H1 & Hrun). apply unique_inv in H1 as [-> _].
  apply bind_inv in Hrun as ([] & w2 & H2 & Hrun). apply unique_inv in H2 as [-> _].
  by injection Hrun as <-.
Qed.

Lemma spliced_inv s w s' w' :
  spliced s w = Some (Returns s' w') → w' = w.
Proof. unfold spliced. destruct (sql_text s); [|done]. by intros [= _ <-]. Qed.

(** The three stages of [createDefaultData] *)
Lemma createDefaultData_stages adminId configId now w w' :
  createDefaultData adminId configId now w = Some (Returns () w') →
  ∃ admins bots configs,
    tables w'
    = with_bot_config (bot_config (tables w) ++ configs)
        (with_users (users (tables w) ++ admins ++ bots) (tables w)) ∧
    sockets w' = sockets w ∧ env_BOT_API_KEY w' = env_BOT_API_KEY w ∧
    (admins = [] ∧ select_by_username "admin" (tables w) ≠ [] ∨
     admins = [mkUserWithPassword (mkUser adminId "admin" None "admin" None now)
                 (hashPassword (code_units "admin123"))]
     ∧ select_by_username "admin" (tables w) = []) ∧
    (bots = [] ∧ "bot" ∈ user_ids (with_users (users (tables w) ++ admins) (tables w)) ∨
     ∃ bot, bots = [bot] ∧ uid (without_password bot) = "bot") ∧
    (configs = [] ∧ bot_config (tables w) ≠ [] ∨ ∃ config, configs = [config]).
Proof.
  unfold createDefaultData. intros Hrun.
  apply bind_inv in Hrun as (adminExists & w0 & H0 & Hrun).
  rewrite query_returns in H0. injection H0 as <- <-.
  apply bind_inv in Hrun as ([] & w1 & H1 & Hrun).
  apply bind_inv in Hrun as (botExists & w1' & H1' & Hrun).
  rewrite query_returns in H1'. injection H1' as <- <-.
  apply bind_inv in Hrun as ([] & w2 & H2 & Hrun).
  apply bind_inv in Hrun as (configExists & w2' & H2' & Hrun).
  rewrite query_returns in H2'. injection H2' as <- <-.
  assert (Hadmin : ∃ admins,
            w1 = with_tables (with_users (users (tables w) ++ admins) (tables w)) w ∧
            (admins = [] ∧ select_by_username "admin" (tables w) ≠ [] ∨
             admins = [mkUserWithPassword (mkUser adminId "admin" None "admin" None now)
                         (hashPassword (code_units "admin123"))]
             ∧ select_by_username "admin" (tables w) = [])).
  { destruct (select_by_username "admin" (tables w)) as [|u us] eqn:Hsel.
    - apply insert_user_inv in H1. eexists. split; [exact H1|]. by right.
    - injection H1 as <-. exists []. split; [|by left].
      rewrite app_nil_r. by destruct w as [[] ? ?]. }
  destruct Hadmin as (admins & -> & Hadmins).
  assert (Hbot : ∃ bots,
            w2 = with_tables
                   (with_users (users (tables w) ++ admins ++ bots) (tables w)) w ∧
            (bots = [] ∧
             "bot" ∈ user_ids (with_users (users (tables w) ++ admins) (tables w)) ∨
             ∃ bot, bots = [bot] ∧ uid (without_password bot) = "bot")).
  { destruct (select_user_row "bot" _) as [bot|] eqn:Hsel.
    - injection H2 as <-. exists []. split; [by rewrite app_nil_r|]. left.
      split; [done|]. apply select_user_row_elem in Hsel as [Hin Hid].
      unfold user_ids. apply list_elem_of_fmap. by exists bot.
    - apply insert_user_inv in H2. eexists [_]. split.
      + rewrite H2. unfold with_tables, with_users. simpl. by rewrite <- app_assoc.
      + right. by eexists. }
  destruct Hbot as (bots & -> & Hbots).
  exists admins, bots.
  simpl in Hrun. destruct (bot_config (tables w)) as [|config configs'] eqn:Hconfig.
  - apply bind_inv in Hrun as (key & w3 & H3 & Hrun). injection H3 as <- <-.
    apply bind_inv in Hrun as (key' & w4 & H4 & Hrun). apply spliced_inv in H4 as ->.
    apply insert_bot_config_inv in Hrun. eexists [_]. rewrite Hrun. simpl.
    rewrite Hconfig. repeat split; try done. right. by eexists.
  - injection Hrun as <-. exists []. simpl. rewrite app_nil_r.
    repeat split; try done.
    + unfold with_bot_config, with_users. simpl. by rewrite Hconfig.
    + by left.
Qed.

Lemma createDefaultData_settled adminId configId now w :
  select_by_username "admin" (tables w) ≠ [] →
  select_user_row "bot" (tables w) ≠ None →
  bot_config (tables w) ≠ [] →
  createDefaultData adminId configId now w = Some (Returns () w).
Proof.
  intros Hadmin Hbot Hconfig. unfold createDefaultData.
  rewrite (bind_returns _ _ _ _ _ (query_returns _ _)).
  destruct (select_by_username "admin" (tables w)); [done|].
  rewrite bind_ret, (bind_returns _ _ _ _ _ (query_returns _ _)).
  destruct (select_user_row "bot" (tables w)); [|done].
  rewrite bind_ret, (bind_returns _ _ _ _ _ (query_returns _ _)).
  by destruct (bot_config (tables w)).
Qed.

Lemma select_user_row_Some id t :
  id ∈ user_ids t → select_user_row id t ≠ None.
Proof.
  unfold user_ids, select_user_row. rewrite list_elem_of_fmap.
  intros (u & Hid & Hu) Hnone. apply head_None in Hnone.
  assert (Hin : u ∈ filter (λ u', uid (without_password u') = id) (users t))
    by by apply list_elem_of_filter.
  rewrite Hnone in Hin. by apply elem_of_nil in Hin.
Qed.

(** X21. createDefaultData, run at every start. When it returns, running it
    again changes nothing; the store holds a user named 'admin', a user with
    id 'bot' and a row of bot_config; rows were only appended to users (and
    bot_config), every other table and the connections are as before. On a
    store that had no user named 'admin', the account it creates can log in
    with the password 'admin123' written in the source. *)
Theorem the_default_data_is_created_once (w w' : World) (adminId configId : string)
  (now : Z) :
  createDefaultData adminId configId now w = Some (Returns () w') →
  (∀ adminId' configId' later,
     createDefaultData adminId' configId' later w' = Some (Returns () w')) ∧
  "admin" ∈ usernames (tables w') ∧
  "bot" ∈ user_ids (tables w') ∧
  bot_config (tables w') ≠ [] ∧
  (∃ added, users (tables w') = users (tables w) ++ added) ∧
  rooms (tables w') = rooms (tables w) ∧
  messages (tables w') = messages (tables w) ∧
  room_members (tables w') = room_members (tables w) ∧
  sessions (tables w') = sessions (tables w) ∧
  sockets w' = sockets w ∧
  ("admin" ∉ usernames (tables w) →
   ∀ request later session,
     body request = LoginRequest "admin" (code_units "admin123") →
     session ∉ session_ids (tables w) →
     ∃ w'',
       handleLogin request later session w'
       = Some (Returns
                 (ok (Some (LoginData
                              (mkSession session adminId later (later + 604800000))
                              (mkUser adminId "admin" None "admin" None now))))
                 w'')).
Proof.
  intros Hrun.
  destruct (createDefaultData_stages _ _ _ _ _ Hrun)
    as (admins & bots & configs & Ht & Hs & He & Hadmins & Hbots & Hconfigs).
  assert (Husers : users (tables w') = users (tables w) ++ admins ++ bots)
    by by rewrite Ht.
  assert (Hadmin : "admin" ∈ usernames (tables w')).
  { unfold usernames. rewrite Husers, !fmap_app.
    destruct Hadmins as [[_ Hold]|[-> _]].
    - apply elem_of_app. left.
      destruct (decide ("admin" ∈ usernames (tables w))) as [Hin|Hnot]; [done|].
      by apply select_by_username_nil in Hnot.
    - apply elem_of_app. right. apply elem_of_app. left. left. }
  assert (Hbot : "bot" ∈ user_ids (tables w')).
  { unfold user_ids. rewrite Husers, app_assoc, fmap_app.
    destruct Hbots as [[_ Hold]|(bot & -> & Hid)].
    - apply elem_of_app. by left.
    - apply elem_of_app. right. rewrite <- Hid. left. }
  assert (Hconfig : bot_config (tables w') ≠ []).
  { rewrite Ht. simpl. destruct Hconfigs as [[-> Hold]|(config & ->)].
    - by rewrite app_nil_r.
    - by destruct (bot_config (tables w)). }
  split; [|repeat split; try done; try (by rewrite Ht)].
  - intros adminId' configId' later.
    apply createDefaultData_settled; [|by apply select_user_row_Some|done].
    intros Hnil. by apply select_by_username_nil in Hnil.
  - by eexists.
  - intros Hfirst request later session Hbody Hsession.
    destruct Hadmins as [[_ Hold]|[-> _]].
    { by apply select_by_username_nil in Hfirst. }
    assert (Hsel : ∃ rest, select_by_username "admin" (tables w')
                   = mkUserWithPassword (mkUser adminId "admin" None "admin" None now)
                       (hashPassword (code_units "admin123")) :: rest).
    { unfold select_by_username. rewrite Husers, list.filter_app.
      change (filter _ (users (tables w))) with (select_by_username "admin" (tables w)).
      rewrite (proj2 (select_by_username_nil _ _) Hfirst). simpl.
      rewrite filter_cons, decide_True by done. by eexists. }
    destruct Hsel as (rest & Hsel).
    unfold handleLogin.
    rewrite (bind_returns _ _ _ _ _ (json_returns _ _ ltac:(by rewrite Hbody))), Hbody.
    rewrite (bind_returns _ _ _ _ _ (spliced_quote_free "admin" _ eq_refl)).
    rewrite (bind_returns _ _ _ _ _ (query_returns _ _)), Hsel.
    unfold verifyPassword. simpl password. rewrite bool_decide_true by done. simpl.
    eexists. erewrite bind_returns; [reflexivity|].
    apply insert_session_returns.
    + by rewrite Ht.
    + simpl. unfold user_ids. rewrite Husers, fmap_app. apply elem_of_app. right. left.
Qed.

Lemma the_default_data_is_created_once_witness :
  ∃ w',
    createDefaultData "id1" "id2" 5 (mkWorld (mkTables [] [] [] [] [] []) [] None)
    = Some (Returns () w') ∧
    createDefaultData "id3" "id4" 6 w' = Some (Returns () w').
Proof.
  eexists. split; [reflexivity|].
  by destruct (the_default_data_is_created_once
                 (mkWorld (mkTables [] [] [] [] [] []) [] None) _ "id1" "id2" 5 eq_refl)
    as [Hagain _].
Defined.

End StartProperties.

(** ** Runs of the current hook *)
Section HookRunProperties.
Import Hook HookRuns.

Ltac hook_cases :=
  unfold on_message, on_close, on_reconnect_timeout, on_heartbeat_interval,
    handleVisibilityChange, connect, mount, unmount, cleanup, startHeartbeat,
    clearHeartbeat, setInterval, clearInterval, setTimeout, clearTimeout,
    new_socket, socket_close, socket_send, set_readyState, setReconnectAttempt,
    setConnectionState, has_session, joinRoom, leaveRoom, sendMessage, syncMessages,
    ackMessage in *;
  simpl in *;
  repeat (first [case_match | case_bool_decide]; simpl in *; simplify_eq);
  try done.

(** X22. useWebSocket, current variant. In every state the hook can reach, a
    socket that is CONNECTING or OPEN is the one socketRef holds, so at most
    one socket is live; and at most one heartbeat interval is running, the one
    heartbeatIntervalRef holds. *)
Theorem at_most_one_socket_is_live (h : Hook) :
  reachable h →
  (∀ s, readyState_of s h = Some CONNECTING ∨ readyState_of s h = Some OPEN →
        socketRef h = Some s) ∧
  (∀ s s',
     readyState_of s h = Some CONNECTING ∨ readyState_of s h = Some OPEN →
     readyState_of s' h = Some CONNECTING ∨ readyState_of s' h = Some OPEN →
     s = s') ∧
  (intervals h).*1 = option_list (heartbeatIntervalRef h) ∧
  (length (intervals h) ≤ 1)%nat.
Proof.
  intros Hr. destruct (reachable_well_formed h Hr) as [Hhb Hoc].
  assert (Hheld : ∀ s, readyState_of s h = Some CONNECTING ∨ readyState_of s h = Some OPEN →
                       socketRef h = Some s).
  { intros s Hs. destruct (decide (socketRef h = Some s)) as [|Hne]; [done|].
    destruct Hs as [Hs|Hs]; destruct (Hoc s _ Hs Hne) as [Hc|Hc]; discriminate Hc. }
  split; [done|]. split; [|split; [done|]].
  - intros s s' Hs Hs'. apply Hheld in Hs, Hs'. congruence.
  - rewrite <- (length_fmap fst), Hhb. destruct (heartbeatIntervalRef h); simpl; lia.
Qed.

Lemma at_most_one_socket_is_live_witness :
  socketRef (mount (useWebSocket (Some "sess"))) = Some 0%nat.
Proof.
  destruct (at_most_one_socket_is_live (mount (useWebSocket (Some "sess")))
              (reachable_mount (Some "sess"))) as (Hheld & _).
  apply Hheld. by left.
Defined.

(** *** The rooms the hook tracks *)

Lemma commit_keeps_rooms h : joinedRoomsRef (commit h) = joinedRoomsRef h.
Proof.
  unfold commit.
  destruct (mounted h && bool_decide (connectionState h ≠ rendered h)); [|done].
  by destruct (flush_pending_acks_effect (with_rendered (connectionState h) h))
    as [->|(_ & _ & s & _ & _ & ->)].
Qed.

Lemma step_rooms e h h' :
  step e h = Some h' → joinedRoomsRef h' = rooms_after e (joinedRoomsRef h).
Proof.
  destruct e; simpl; intros Hstep.
  - injection Hstep as <-. apply commit_keeps_rooms.
  - case_bool_decide; [|done]. injection Hstep as <-.
    by destruct (on_open_effect s (set_readyState s OPEN h))
      as (_ & _ & _ & _ & _ & -> & _).
  - case_bool_decide; [|done]. injection Hstep as <-.
    destruct m; simpl; try done. by case_bool_decide.
  - case_bool_decide; [|done]. by injection Hstep as <-.
  - destruct (readyState_of s h) as [[]|]; simplify_eq;
      by destruct (on_close_keeps (set_readyState s CLOSED h)) as (_ & -> & _).
  - case_bool_decide; [|done]. by injection Hstep as <-.
  - case_bool_decide; [|done]. injection Hstep as <-. unfold on_reconnect_timeout.
    by destruct (connect_keeps (with_reconnectTimeoutRef None (clearTimeout t h)))
      as (_ & _ & _ & -> & _).
  - destruct (list_find _ _) as [[? [? s]]|]; simplify_eq.
    unfold on_heartbeat_interval. by case_bool_decide.
  - destruct (mounted h); simplify_eq. unfold handleVisibilityChange.
    repeat case_match; try done. by destruct (connect_keeps h) as (_ & _ & _ & -> & _).
Qed.

Lemma call_rooms c h :
  joinedRoomsRef (call c h)
  = match c with
    | Call_leaveRoom R => filter (λ r, r ≠ R) (joinedRoomsRef h)
    | _ => joinedRoomsRef h
    end.
Proof. destruct c; simpl; destruct h; hook_cases. Qed.

Lemma rooms_after_NoDup e rooms : NoDup rooms → NoDup (rooms_after e rooms).
Proof.
  intros Hnd. destruct e as [|s|s m|s|s|s|t|t now|v]; simpl; try done.
  destruct m; try done.
  - case_bool_decide as Hin; [done|]. rewrite list.NoDup_app.
    split; [done|]. split; [|apply NoDup_singleton].
    intros x Hx Hx'. apply list_elem_of_singleton in Hx' as ->. done.
  - by apply list.NoDup_filter.
Qed.

Lemma reachable_rooms_NoDup h : reachable h → NoDup (joinedRoomsRef h).
Proof.
  induction 1 as [session|e h h' _ IH Hstep|c h _ IH|h _ IH].
  - unfold mount. simpl. destruct (has_session _).
    + destruct (connect_keeps (with_isClosedRef false
                                 (with_mounted true (useWebSocket session))))
        as (_ & _ & _ & -> & _). constructor.
    + constructor.
  - rewrite (step_rooms _ _ _ Hstep). by apply rooms_after_NoDup.
  - rewrite call_rooms. destruct c; try done. by apply list.NoDup_filter.
  - destruct h. hook_cases.
Qed.

Lemma sent_on_set_readyState s s' state h :
  sent_on s (set_readyState s' state h) = sent_on s h.
Proof.
  unfold sent_on, set_readyState. simpl.
  rewrite <- !list_lookup_fmap. by rewrite (sent_alter_readyState (λ _, state)).
Qed.

Lemma reachable_run events h h' :
  reachable h → run events h = Some h' → reachable h'.
Proof.
  revert h. induction events as [|e events IH]; intros h Hr Hrun; simpl in Hrun.
  - by injection Hrun as <-.
  - destruct (step e h) as [h1|] eqn:Hstep; [|done]. simpl in Hrun.
    apply (IH h1); [|done]. by eapply reachable_step.
Qed.

(** X23. useWebSocket, current variant. joinedRoomsRef never holds a room
    twice. When a socket opens, the hook sends auth with the session id and
    then join_room for each room of joinedRoomsRef, in order. The rooms
    tracked change only by a room_joined frame (which adds its room), a
    room_left frame (which removes it) and a call of leaveRoom (which removes
    the room at once); a call of joinRoom does not add the room before the
    server confirms it, and does nothing at all unless the socket held is
    open. *)
Theorem the_rooms_confirmed_are_rejoined (h : Hook) :
  reachable h →
  NoDup (joinedRoomsRef h) ∧
  (∀ s h',
     step (SocketOpen s) h = Some h' →
     sent_on s h'
     = sent_on s h
         ++ auth (default EmptyString (sessionId h)) :: (join_room <$> joinedRoomsRef h)) ∧
  (∀ e h', step e h = Some h' → joinedRoomsRef h' = rooms_after e (joinedRoomsRef h)) ∧
  (∀ R, joinedRoomsRef (leaveRoom R h) = filter (λ r, r ≠ R) (joinedRoomsRef h)) ∧
  (∀ R, joinedRoomsRef (joinRoom R h) = joinedRoomsRef h ∧
        (current_is OPEN h = false → joinRoom R h = h)).
Proof.
  intros Hr. split; [by apply reachable_rooms_NoDup|]. split; [|split; [|split]].
  - intros s h' Hstep. simpl in Hstep. case_bool_decide as Hs; [|done].
    injection Hstep as <-.
    destruct (on_open_effect s (set_readyState s OPEN h))
      as (_ & _ & _ & _ & _ & _ & _ & _ & _ & _ & _ & Hsockets).
    unfold sent_on at 1. rewrite Hsockets.
    rewrite (sent_on_alter_sent _ s (set_readyState s OPEN h)).
    + by rewrite sent_on_set_readyState.
    + simpl. rewrite list_lookup_alter_eq. unfold readyState_of in Hs.
      destruct (sockets h !! s); [by eexists|done].
  - intros e h'. apply step_rooms.
  - intros R. apply (call_rooms (Call_leaveRoom R)).
  - intros R. split; [apply (call_rooms (Call_joinRoom R))|].
    intros Hopen. unfold joinRoom. rewrite Hopen. by destruct (socketRef h).
Qed.

Lemma the_rooms_confirmed_are_rejoined_witness :
  ∃ h1 h2,
    run [SocketOpen 0; SocketMessage 0 (room_joined "r1");
         SocketMessage 0 (room_joined "r2"); SocketMessage 0 (room_joined "r1");
         SocketMessage 0 (room_left "r2"); SocketClose 0; TimeoutFires 2]
      (mount (useWebSocket (Some "sess"))) = Some h1 ∧
    step (SocketOpen 1) h1 = Some h2 ∧
    sent_on 1 h2 = [auth "sess"; join_room "r1"].
Proof.
  assert (Hrun : ∃ h1,
            run [SocketOpen 0; SocketMessage 0 (room_joined "r1");
                 SocketMessage 0 (room_joined "r2"); SocketMessage 0 (room_joined "r1");
                 SocketMessage 0 (room_left "r2"); SocketClose 0; TimeoutFires 2]
              (mount (useWebSocket (Some "sess"))) = Some h1)
    by (eexists; vm_compute; reflexivity).
  destruct Hrun as (h1 & Hrun).
  assert (Hopen : ∃ h2, step (SocketOpen 1) h1 = Some h2).
  { vm_compute in Hrun. injection Hrun as <-. eexists. vm_compute. reflexivity. }
  destruct Hopen as (h2 & Hopen).
  destruct (the_rooms_confirmed_are_rejoined h1) as (_ & Hrejoin & _).
  { apply (reachable_run _ _ _ (reachable_mount (Some "sess")) Hrun). }
  exists h1, h2. split; [exact Hrun|]. split; [exact Hopen|].
  rewrite (Hrejoin 1%nat h2 Hopen).
  vm_compute in Hrun. injection Hrun as <-. reflexivity.
Defined.

(** *** Without a session *)

Lemma sessionId_connect h : sessionId (connect h) = sessionId h.
Proof.
  unfold connect, setConnectionState, new_socket, socket_close, clearTimeout.
  repeat case_match; simplify_eq/=; reflexivity.
Qed.

Lemma sessionId_clearHeartbeat h : sessionId (clearHeartbeat h) = sessionId h.
Proof. unfold clearHeartbeat. by case_match. Qed.

Lemma sessionId_on_close h : sessionId (on_close h) = sessionId h.
Proof.
  unfold on_close, setTimeout, setReconnectAttempt, setConnectionState, clearHeartbeat.
  repeat case_match; simplify_eq/=; reflexivity.
Qed.

Lemma sessionId_on_open s h : sessionId (on_open s h) = sessionId h.
Proof.
  unfold on_open. rewrite foldl_socket_send.
  unfold startHeartbeat, setInterval, clearHeartbeat, setReconnectAttempt, setConnectionState.
  repeat case_match; simplify_eq/=; reflexivity.
Qed.

Lemma sessionId_on_message m h : sessionId (on_message m h) = sessionId h.
Proof. unfold on_message. repeat case_match; reflexivity. Qed.

Lemma sessionId_handleVisibilityChange v h :
  sessionId (handleVisibilityChange v h) = sessionId h.
Proof.
  unfold handleVisibilityChange. repeat case_match; try reflexivity; apply sessionId_connect.
Qed.

Lemma step_sessionId e h h' : step e h = Some h' → sessionId h' = sessionId h.
Proof.
  destruct e; simpl; intros Hstep.
  - injection Hstep as <-. unfold commit.
    destruct (mounted h && bool_decide (connectionState h ≠ rendered h)); [|done].
    by destruct (flush_pending_acks_effect (with_rendered (connectionState h) h))
      as [->|(_ & _ & s & _ & _ & ->)].
  - case_bool_decide; [|done]. injection Hstep as <-. by rewrite sessionId_on_open.
  - case_bool_decide; [|done]. injection Hstep as <-. apply sessionId_on_message.
  - case_bool_decide; [|done]. by injection Hstep as <-.
  - destruct (readyState_of s h) as [[]|]; simplify_eq; by rewrite sessionId_on_close.
  - case_bool_decide; [|done]. by injection Hstep as <-.
  - case_bool_decide; [|done]. injection Hstep as <-.
    unfold on_reconnect_timeout. by rewrite sessionId_connect.
  - destruct (list_find _ _) as [[? [? s]]|]; simplify_eq.
    unfold on_heartbeat_interval. by case_match.
  - destruct (mounted h); simplify_eq. apply sessionId_handleVisibilityChange.
Qed.

Lemma call_sessionId c h : sessionId (call c h) = sessionId h.
Proof. destruct c; simpl; destruct h; hook_cases. Qed.

(** The state of a hook that has no session *)
Lemma idle_step e h h' :
  has_session h = false →
  sockets h = [] → timeouts h = [] → intervals h = [] →
  socketRef h = None → heartbeatIntervalRef h = None → reconnectTimeoutRef h = None →
  connectionState h = disconnected →
  step e h = Some h' →
  sockets h' = [] ∧ timeouts h' = [] ∧ intervals h' = [] ∧
  socketRef h' = None ∧ heartbeatIntervalRef h' = None ∧ reconnectTimeoutRef h' = None ∧
  connectionState h' = disconnected.
Proof.
  intros Hs Hso Hto Hiv Hsr Hhb Hrt Hcs Hstep.
  destruct h as [sid mnt cs ra rd sr hb rt jr rar ic icl pa ss ts iv nt].
  simpl in *. subst.
  destruct e; simpl in Hstep; unfold readyState_of in Hstep; simpl in Hstep;
    simplify_eq; try done.
  - unfold commit, flush_pending_acks. simpl. destruct mnt; simpl; [|done].
    by case_bool_decide.
  - destruct mnt; simplify_eq. unfold handleVisibilityChange, connect. simpl.
    unfold has_session in *. simpl in *.
    destruct visible; simpl; repeat case_match; done.
Qed.

(** X24. useWebSocket, current variant. While sessionId is null or the empty
    string, in every state the hook can reach no socket has been created, no
    timer or interval is pending, the refs of the socket and of the timers are
    empty and connectionState is disconnected. *)
Theorem without_a_session_the_hook_is_idle (h : Hook) :
  reachable h →
  has_session h = false →
  sockets h = [] ∧ timeouts h = [] ∧ intervals h = [] ∧
  socketRef h = None ∧ heartbeatIntervalRef h = None ∧ reconnectTimeoutRef h = None ∧
  connectionState h = disconnected.
Proof.
  induction 1 as [session|e h h' _ IH Hstep|c h _ IH|h _ IH]; intros Hs.
  - unfold mount. unfold has_session in *.
    destruct session as [[|a sid]|]; simpl in *; done.
  - assert (Hs' : has_session h = false).
    { unfold has_session in *. by rewrite <- (step_sessionId _ _ _ Hstep). }
    destruct (IH Hs') as (? & ? & ? & ? & ? & ? & ?).
    by apply (idle_step e h h').
  - assert (Hs' : has_session h = false).
    { unfold has_session in *. by rewrite <- (call_sessionId c h). }
    destruct (IH Hs') as (Hso & Hto & Hiv & Hsr & Hhb & Hrt & Hcs).
    destruct h as [sid mnt cs ra rd sr hb rt jr rar ic icl pa ss ts iv nt].
    simpl in *. subst. by destruct c.
  - assert (Hs' : has_session h = false) by (destruct h; hook_cases).
    destruct (IH Hs') as (Hso & Hto & Hiv & Hsr & Hhb & Hrt & Hcs).
    destruct h as [sid mnt cs ra rd sr hb rt jr rar ic icl pa ss ts iv nt].
    simpl in *. by subst.
Qed.

Lemma without_a_session_the_hook_is_idle_witness :
  ∃ h',
    run [VisibilityChange true; Commit; TimeoutFires 1] (mount (useWebSocket None)) = None ∧
    run [VisibilityChange true; Commit] (mount (useWebSocket (Some EmptyString)))
    = Some h' ∧
    sockets h' = [].
Proof.
  assert (Hrun : ∃ h',
            run [VisibilityChange true; Commit] (mount (useWebSocket (Some EmptyString)))
            = Some h') by (eexists; vm_compute; reflexivity).
  destruct Hrun as (h' & Hrun). exists h'. split; [reflexivity|]. split; [exact Hrun|].
  destruct (without_a_session_the_hook_is_idle h') as (Hsockets & _).
  - apply (reachable_run _ _ _ (reachable_mount (Some EmptyString)) Hrun).
  - vm_compute in Hrun. injection Hrun as <-. reflexivity.
  - exact Hsockets.
Defined.

(** *** The heartbeat *)

Lemma fmap_fst_nil (iv : list (nat * nat)) : iv.*1 = [] → iv = [].
Proof. by destruct iv. Qed.

Lemma tracked_cleared (iv : list (nat * nat)) (hb : option nat) :
  iv.*1 = option_list hb →
  match hb with
  | Some t => filter (λ p, p.1 ≠ t) iv
  | None => iv
  end = [].
Proof.
  destruct hb as [t|]; simpl; intros Hiv.
  - by apply filter_tracked.
  - by apply fmap_fst_nil.
Qed.

(** X25. useWebSocket, current variant. When a socket opens, exactly one
    heartbeat interval is left running, bound to that socket. When the
    interval fires it sends ping with the current time if that socket is OPEN
    and does nothing otherwise. The close event of any socket, also of a
    socket the hook has replaced while the one it holds is open, clears the
    heartbeat interval, so that none is left running, and leaves socketRef as
    it is. *)
Theorem the_heartbeat_follows_the_socket (h : Hook) :
  reachable h →
  (∀ s h',
     step (SocketOpen s) h = Some h' →
     heartbeatIntervalRef h' = Some (next_timer h) ∧
     intervals h' = [(next_timer h, s)]) ∧
  (∀ s h',
     step (SocketClose s) h = Some h' →
     heartbeatIntervalRef h' = None ∧ intervals h' = [] ∧ socketRef h' = socketRef h) ∧
  (∀ t now h',
     step (IntervalFires t now) h = Some h' →
     ∃ s, (t, s) ∈ intervals h ∧
       (readyState_of s h = Some OPEN → sent_on s h' = sent_on s h ++ [ping now]) ∧
       (readyState_of s h ≠ Some OPEN → h' = h)).
Proof.
  intros Hr. destruct (reachable_well_formed h Hr) as [Hhb _].
  unfold heartbeat_tracked in Hhb. apply tracked_cleared in Hhb.
  split; [|split].
  - intros s h' Hstep. simpl in Hstep. case_bool_decide; [|done].
    injection Hstep as <-. unfold on_open. rewrite foldl_socket_send.
    unfold startHeartbeat, clearHeartbeat, setInterval, clearInterval, socket_send,
      setReconnectAttempt, setConnectionState, set_readyState.
    destruct h as [sid mnt cs ra rd sr [t0|] rt jr rar ic icl pa ss ts iv nt];
      destruct mnt; simpl in *; by rewrite Hhb.
  - intros s h' Hstep. simpl in Hstep.
    assert (Hclose : h' = on_close (set_readyState s CLOSED h))
      by (destruct (readyState_of s h) as [[]|]; by simplify_eq).
    subst h'. clear Hstep.
    unfold on_close, setTimeout, setReconnectAttempt, setConnectionState, clearHeartbeat,
      clearInterval, set_readyState.
    destruct h as [sid mnt cs ra rd sr [t0|] rt jr rar ic [] pa ss ts iv nt];
      destruct mnt; simpl in *; by rewrite ?Hhb.
  - intros t now h' Hstep. simpl in Hstep.
    destruct (list_find _ _) as [[k [t' s]]|] eqn:Hfind; [|done].
    injection Hstep as <-. apply list_find_Some in Hfind as (Hk & Ht & _).
    simpl in Ht. subst t'. exists s. split; [by eapply list_elem_of_lookup_2|].
    unfold on_heartbeat_interval. split.
    + intros Hopen. rewrite bool_decide_true by done.
      unfold socket_send, sent_on. simpl. rewrite list_lookup_alter_eq.
      unfold readyState_of in Hopen. by destruct (sockets h !! s).
    + intros Hnot. by rewrite bool_decide_false.
Qed.

Lemma the_heartbeat_follows_the_socket_witness :
  ∃ h1 h2 h3,
    run [SocketOpen 0; SocketClosing 0; VisibilityChange true; SocketOpen 1]
      (mount (useWebSocket (Some "sess"))) = Some h1 ∧
    intervals h1 = [(2%nat, 1%nat)] ∧
    step (IntervalFires 2 70000) h1 = Some h2 ∧
    sent_on 1 h2 = [auth "sess"; ping 70000] ∧
    step (SocketClose 0) h1 = Some h3 ∧
    intervals h3 = [] ∧ readyState_of 1 h3 = Some OPEN.
Proof.
  assert (Hrun : ∃ h1,
            run [SocketOpen 0; SocketClosing 0; VisibilityChange true; SocketOpen 1]
              (mount (useWebSocket (Some "sess"))) = Some h1)
    by (eexists; vm_compute; reflexivity).
  destruct Hrun as (h1 & Hrun).
  assert (Hreach : reachable h1)
    by apply (reachable_run _ _ _ (reachable_mount (Some "sess")) Hrun).
  assert (Hsteps : ∃ h2 h3,
            step (IntervalFires 2 70000) h1 = Some h2 ∧ step (SocketClose 0) h1 = Some h3).
  { vm_compute in Hrun. injection Hrun as <-.
    eexists _, _. split; vm_compute; reflexivity. }
  destruct Hsteps as (h2 & h3 & Hfire & Hclose).
  destruct (the_heartbeat_follows_the_socket h1 Hreach) as (_ & Hclosed & _).
  destruct (Hclosed 0%nat h3 Hclose) as (_ & Hiv & _).
  exists h1, h2, h3. split; [exact Hrun|].
  vm_compute in Hrun. injection Hrun as <-.
  split; [reflexivity|]. split; [exact Hfire|].
  vm_compute in Hfire. injection Hfire as <-. split; [reflexivity|].
  split; [exact Hclose|]. split; [exact Hiv|].
  vm_compute in Hclose. injection Hclose as <-. reflexivity.
Defined.

(** *** Visibility *)

Lemma not_elem_of_filter_fst (t : nat) (ts : list (nat * Z)) :
  t ∉ (filter (λ p, p.1 ≠ t) ts).*1.
Proof.
  rewrite list_elem_of_fmap. intros ([t' d] & -> & Hin).
  apply list_elem_of_filter in Hin as [Hne _]. by apply Hne.
Qed.

(** X26. useWebSocket, current variant, while mounted. When the page is hidden
    nothing happens. When it becomes visible and the socket held is OPEN or
    CONNECTING, a connection is being made, there is no session or the hook is
    torn down, nothing happens. Otherwise the hook connects at once: a new
    socket is created and held, the earlier sockets are as they were, the
    pending reconnect timer is cancelled, the heartbeat intervals are
    untouched, the attempt counter is not reset (connectionState is
    reconnecting if it is positive, connecting otherwise), and the rooms
    tracked and the queued acknowledgements are kept. *)
Theorem becoming_visible_reconnects_at_once (h : Hook) :
  mounted h = true →
  step (VisibilityChange false) h = Some h ∧
  (current_is OPEN h = true ∨ current_is CONNECTING h = true ∨
   isConnectingRef h = true ∨ has_session h = false ∨ isClosedRef h = true →
   step (VisibilityChange true) h = Some h) ∧
  (current_is OPEN h = false → current_is CONNECTING h = false →
   isConnectingRef h = false → has_session h = true → isClosedRef h = false →
   ∃ h',
     step (VisibilityChange true) h = Some h' ∧
     socketRef h' = Some (length (sockets h)) ∧
     sockets h' = sockets h ++ [mkSocket CONNECTING []] ∧
     reconnectTimeoutRef h' = None ∧
     (∀ t, reconnectTimeoutRef h = Some t → t ∉ (timeouts h').*1) ∧
     intervals h' = intervals h ∧
     reconnectAttemptRef h' = reconnectAttemptRef h ∧
     joinedRoomsRef h' = joinedRoomsRef h ∧
     pendingAcksRef h' = pendingAcksRef h ∧
     isConnectingRef h' = true ∧
     connectionState h'
     = if bool_decide (0 < reconnectAttemptRef h)%nat then reconnecting else connecting).
Proof.
  intros Hm. simpl. rewrite Hm. split; [done|]. split.
  - intros Hcase. unfold handleVisibilityChange, connect.
    destruct (current_is OPEN h); [done|].
    destruct (current_is CONNECTING h); [done|].
    destruct (isConnectingRef h); [done|].
    destruct (has_session h); [|done]. simpl.
    destruct (isClosedRef h); [done|].
    destruct Hcase as [?|[?|[?|[?|?]]]]; done.
  - intros Hopen Hconn Hic Hs Hcl. eexists. split; [reflexivity|].
    unfold handleVisibilityChange. rewrite Hopen, Hconn, Hic, Hs. simpl.
    unfold connect. rewrite Hs, Hic, Hcl. simpl.
    assert (Hold : ∀ s, socketRef h = Some s →
              alter (λ k, match readyState k with
                          | CONNECTING | OPEN => mkSocket CLOSING (sent k)
                          | CLOSING | CLOSED => k
                          end) s (sockets h) = sockets h).
    { intros s Hsr. apply list_eq. intros i.
      destruct (decide (i = s)) as [->|Hne];
        [|by rewrite list_lookup_alter_ne].
      rewrite list_lookup_alter_eq.
      unfold current_is, readyState_of in Hopen, Hconn. rewrite Hsr in Hopen, Hconn.
      simpl in Hopen, Hconn.
      apply bool_decide_eq_false in Hopen, Hconn.
      destruct (sockets h !! s) as [[[] ?]|]; simpl in *; done. }
    destruct h as [sid mnt cs ra rd sr hb rt jr rar ic icl pa ss ts iv nt].
    simpl in *. subst.
    destruct sr as [s|]; simpl.
    + specialize (Hold s eq_refl).
      unfold readyState_of, socket_close, clearTimeout. simpl.
      destruct (bool_decide (readyState <$> ss !! s ≠ Some CLOSED)); simpl;
        destruct rt as [t|]; simpl; rewrite ?Hold;
        repeat split; try done; try (intros ? [= <-]; apply not_elem_of_filter_fst).
    + unfold clearTimeout. destruct rt as [t|]; simpl;
        repeat split; try done; try (intros ? [= <-]; apply not_elem_of_filter_fst).
Qed.

(** A page that comes back while the hook waits to reconnect. *)
Lemma becoming_visible_reconnects_at_once_witness :
  let h := run [SocketOpen 0; SocketClose 0] (mount (useWebSocket (Some "s"%string))) in
  ∃ h0, h = Some h0 ∧ reconnectTimeoutRef h0 = Some 2%nat ∧
        ∃ h', step (VisibilityChange true) h0 = Some h' ∧
              socketRef h' = Some 1%nat ∧ timeouts h' = [] ∧
              connectionState h' = reconnecting.
Proof.
  cbv zeta. eexists. split; [vm_compute; reflexivity|]. split; [reflexivity|].
  match goal with
  | |- ∃ h', step _ ?h0 = _ ∧ _ =>
      destruct (becoming_visible_reconnects_at_once h0 eq_refl) as (_ & _ & H)
  end.
  destruct (H eq_refl eq_refl eq_refl eq_refl eq_refl)
    as (h' & Hstep & Hsock & _ & _ & _ & _ & _ & _ & _ & _ & Hstate).
  exists h'. split; [exact Hstep|]. split; [exact Hsock|].
  vm_compute in Hstep. injection Hstep as <-. split; reflexivity.
Defined.

End HookRunProperties.

